(** * Bill_Calculation: the ledger line classifier of [YaW.py]

    A shallow embedding of the parsing loop of [process_txt_file]
    (YaW.py, lines 73-146) and of the library functions the loop calls:
    [str.strip], [str.count], [in], [re.match] with the two compiled
    patterns, [float], [+] on floats, and the text setters of
    python-docx as far as they raise.

    A Python [str] is the list of its code points.  White space and
    decimal digits are those of the Unicode data of CPython 3.11
    (Unicode 14.0), as [str.isspace], [str.strip], [str.isdecimal] and
    the classes [\s] and [\d] of a [str] pattern have them; [float]
    reads decimal digits and white space beyond ASCII as CPython does.
    A text written as a literal is read as UTF-8.  Floats are IEEE
    binary64 numbers, as [spec_float] with [prec = 53] and
    [emax = 1024].  Statements that can raise an exception live in the
    [result] monad.

    The loop fills a Word table as it goes (lines 89-95 and 132-135),
    outside any [try].  Of those calls the loop keeps what can end it:
    setting the text of a run or of a cell raises [ValueError] on a
    character XML does not allow, a form feed inside a line for one.
    The state of the loop is the five variables it computes:
    [excel_rows], [total_lines], [valid_lines], [grand_total] and
    [error_lines].  The heading of the Word file, written from the
    title before the loop, is not part of it.  The Word document with
    its heading and table rows, the calls on the Excel sheet, the names
    of the two files and a turn of [run_main_loop] are embedded apart,
    in the modules [Word], [Sheet] and [Names]. *)

From Stdlib Require Import Bool Arith List Lia ZArith NArith.
From Stdlib Require Import Strings.Ascii.
From Stdlib Require Strings.String.
From Stdlib Require Import Numbers.DecimalString.
From Stdlib Require Import Floats.SpecFloat.
From Stdlib Require Import Sorting.Sorted.
Import ListNotations.
Import String.StringSyntax.

Set Warnings "-notation-for-abbreviation".

Open Scope string_scope.
Open Scope list_scope.

(** ** Python strings *)

(** A character is a code point, a [str] the list of its characters. *)
Notation char := N (only parsing).
Notation str := (list N) (only parsing).

Module Utf8.

(** The code points of a text given as UTF-8 bytes: [pending] holds the
    bits of a character begun and [need] the number of bytes it still
    lacks. *)
Fixpoint decode_from (bytes : list N) (pending : N) (need : nat)
  : list N :=
  match bytes with
  | [] => []
  | b :: rest =>
      match need with
      | O =>
          if (b <? 128)%N then b :: decode_from rest 0%N 0
          else if (b <? 224)%N then decode_from rest (N.land b 31) 1
          else if (b <? 240)%N then decode_from rest (N.land b 15) 2
          else decode_from rest (N.land b 7) 3
      | S k =>
          let pending := (pending * 64 + N.land b 63)%N in
          match k with
          | O => pending :: decode_from rest 0%N 0
          | S _ => decode_from rest pending k
          end
      end
  end.

Definition decode (s : String.string) : list N :=
  decode_from (map N_of_ascii (String.list_ascii_of_string s)) 0%N 0.

End Utf8.

(** A character and a text written as literals. *)
Coercion N_of_ascii : ascii >-> N.
Coercion Utf8.decode : String.string >-> list.

(** The type of a list's elements, of an option and of a pair comes
    from where they are used, so that a literal there is a text. *)
Arguments cons {A}%_type & a l.
Arguments Some {A}%_type & a.
Arguments pair {A B}%_type & a b.

Module PyStr.

(** The characters [str.isspace] accepts. *)
Definition space_chars : list N :=
  [9; 10; 11; 12; 13; 28; 29; 30; 31; 32; 133; 160; 5760; 8192; 8193; 8194;
   8195; 8196; 8197; 8198; 8199; 8200; 8201; 8202; 8232; 8233; 8239; 8287;
   12288]%N.

(** The first character of each run of ten decimal digits, [0] to [9]:
    the characters [str.isdecimal] accepts. *)
Definition decimal_starts : list N :=
  [48; 1632; 1776; 1984; 2406; 2534; 2662; 2790; 2918; 3046; 3174; 3302;
   3430; 3558; 3664; 3792; 3872; 4160; 4240; 6112; 6160; 6470; 6608; 6784;
   6800; 6992; 7088; 7232; 7248; 42528; 43216; 43264; 43472; 43504; 43600;
   44016; 65296; 66720; 68912; 69734; 69872; 69942; 70096; 70384; 70736;
   70864; 71248; 71360; 71472; 71904; 72016; 72784; 73040; 73120; 92768;
   92864; 93008; 120782; 120792; 120802; 120812; 120822; 123200; 123632;
   125264; 130032]%N.

(** [c.isspace()], also the class [\s] *)
Definition isspace (c : char) : bool := existsb (N.eqb c) space_chars.

Definition in_run (c start : N) : bool :=
  ((start <=? c) && (c <? start + 10))%N.

(** [c.isdecimal()], also the class [\d] *)
Definition isdecimal (c : char) : bool :=
  existsb (in_run c) decimal_starts.

(** The digit a decimal character stands for. *)
Definition decimal_value (c : char) : N :=
  match find (in_run c) decimal_starts with
  | Some start => (c - start)%N
  | None => 0%N
  end.

(** [all p s]: every character of [s] satisfies [p]. *)
Fixpoint all (p : char -> bool) (s : str) : bool :=
  match s with
  | [] => true
  | c :: s' => p c && all p s'
  end.

(** [s.lstrip()], [s.rstrip()] and [s.strip()], for the characters
    [white] takes as white space. *)
Fixpoint lstrip_of (white : char -> bool) (s : str) : str :=
  match s with
  | [] => []
  | c :: s' => if white c then lstrip_of white s' else s
  end.

Fixpoint rstrip_of (white : char -> bool) (s : str) : str :=
  match s with
  | [] => []
  | c :: s' =>
      match rstrip_of white s' with
      | [] => if white c then [] else [c]
      | r => c :: r
      end
  end.

Definition strip_of (white : char -> bool) (s : str) : str :=
  lstrip_of white (rstrip_of white s).

Definition lstrip : str -> str := lstrip_of isspace.
Definition rstrip : str -> str := rstrip_of isspace.

(** [s.strip()] *)
Definition strip : str -> str := strip_of isspace.

(** [s.count(c)] for a one-character [c] *)
Fixpoint count (c : char) (s : str) : nat :=
  match s with
  | [] => 0
  | d :: s' => (if N.eqb c d then 1 else 0) + count c s'
  end.

(** [c in s] for a one-character [c] *)
Fixpoint contains (c : char) (s : str) : bool :=
  match s with
  | [] => false
  | d :: s' => N.eqb c d || contains c s'
  end.

(** [take n s] is [s[:n]]. *)
Fixpoint take (n : nat) (s : str) : str :=
  match n, s with
  | S n', c :: s' => c :: take n' s'
  | _, _ => []
  end.

(** [s == t] *)
Fixpoint eq_str (s t : str) : bool :=
  match s, t with
  | [], [] => true
  | c :: s', d :: t' => N.eqb c d && eq_str s' t'
  | _, _ => false
  end.

(** [not s] *)
Definition is_empty (s : str) : bool :=
  match s with
  | [] => true
  | _ :: _ => false
  end.

(** [str(n)] for a non-negative integer, as an f-string renders it *)
Definition str_of_nat (n : nat) : str :=
  map N_of_ascii
      (String.list_ascii_of_string (NilZero.string_of_uint (Nat.to_uint n))).

Arguments count c%_char s.
Arguments contains c%_char s.

End PyStr.

Import PyStr.

(** ** Regular expressions: the fragment of [re] the two patterns use *)

Module Re.

(** Sets of characters: [.], [\s], [\d], a literal, and a bracket set
    as a union. *)
Inductive cls : Type :=
| Any
| Space
| Digit
| Lit (c : char)
| Union (a b : cls).

Fixpoint cls_mem (k : cls) (c : char) : bool :=
  match k with
  | Any => negb (N.eqb c 10)
  | Space => isspace c
  | Digit => isdecimal c
  | Lit d => N.eqb d c
  | Union a b => cls_mem a c || cls_mem b c
  end.

(** Patterns.  A repetition [Rep k min greedy] repeats a set of
    characters at least [min] times, greedily ([k*], [k+]) or lazily
    ([k+?]); the two patterns repeat nothing else. [Opt r] is the greedy
    [r?] and [Group n r] the capturing group number [n]. *)
Inductive re : Type :=
| Eps
| Atom (k : cls)
| Seq (r1 r2 : re)
| Alt (r1 r2 : re)
| Opt (r : re)
| Rep (k : cls) (min : nat) (greedy : bool)
| Group (n : nat) (r : re).

(** A literal word, as the sequence of its characters. *)
Fixpoint Str (s : str) : re :=
  match s with
  | [] => Eps
  | c :: s' => Seq (Atom (Lit c)) (Str s')
  end.

(** Captured groups, most recent first. *)
Definition captures : Type := list (nat * list N).

Fixpoint get_group (n : nat) (g : captures) : option (list N) :=
  match g with
  | [] => None
  | (m, w) :: g' => if Nat.eqb n m then Some w else get_group n g'
  end.

Section Backtracking.

(** What the rest of the pattern does with the rest of the text. *)
Variable A : Type.
Let cont : Type := list N -> captures -> option A.

(** [k+?], [k*?]: the fewest characters first. *)
Fixpoint rep_lazy (k : cls) (min : nat) (s : str) (g : captures)
         (kont : cont) {struct s} : option A :=
  match min with
  | S m =>
      match s with
      | c :: s' => if cls_mem k c then rep_lazy k m s' g kont else None
      | [] => None
      end
  | O =>
      match kont s g with
      | Some a => Some a
      | None =>
          match s with
          | c :: s' =>
              if cls_mem k c then rep_lazy k O s' g kont else None
          | [] => None
          end
      end
  end.

(** [k+], [k*]: the most characters first, giving back one at a time. *)
Fixpoint rep_greedy (k : cls) (min : nat) (s : str) (g : captures)
         (kont : cont) {struct s} : option A :=
  let stop := match min with O => kont s g | S _ => None end in
  match s with
  | c :: s' =>
      if cls_mem k c then
        match rep_greedy k (Nat.pred min) s' g kont with
        | Some a => Some a
        | None => stop
        end
      else stop
  | [] => stop
  end.

(** The backtracking matcher: alternatives are tried left to right and
    the first overall success wins. *)
Fixpoint run (r : re) (s : str) (g : captures) (kont : cont)
  : option A :=
  match r with
  | Eps => kont s g
  | Atom k =>
      match s with
      | c :: s' => if cls_mem k c then kont s' g else None
      | [] => None
      end
  | Seq r1 r2 => run r1 s g (fun s' g' => run r2 s' g' kont)
  | Alt r1 r2 =>
      match run r1 s g kont with
      | Some a => Some a
      | None => run r2 s g kont
      end
  | Opt r1 =>
      match run r1 s g kont with
      | Some a => Some a
      | None => kont s g
      end
  | Rep k min greedy =>
      if greedy then rep_greedy k min s g kont else rep_lazy k min s g kont
  | Group n r1 =>
      run r1 s g
          (fun s' g' =>
             kont s' ((n, take (length s - length s') s) :: g'))
  end.

End Backtracking.

(** A compiled pattern and the match object of [pattern.match(text)]:
    the match is anchored at the start of the text, not at its end. *)
Record pattern : Type := { regex : re; ngroups : nat }.

Definition match_ (p : pattern) (text : str) : option captures :=
  run captures (regex p) text [] (fun _ g => Some g).

(** [m.groups()]: groups 1 to [ngroups], [None] for a group that took no
    part in the match. *)
Definition groups (p : pattern) (m : captures) : list (option (list N)) :=
  map (fun n => get_group n m) (seq 1 (ngroups p)).

(** [words r s g s' g']: the pattern [r] can take a prefix off [s],
    leaving [s'], and turn the captures [g] into [g']. *)
Fixpoint words (r : re) (s : str) (g : captures) (s' : str)
         (g' : captures) : Prop :=
  match r with
  | Eps => s' = s /\ g' = g
  | Atom k => exists c, s = c :: s' /\ cls_mem k c = true /\ g' = g
  | Seq r1 r2 => exists s1 g1, words r1 s g s1 g1 /\ words r2 s1 g1 s' g'
  | Alt r1 r2 => words r1 s g s' g' \/ words r2 s g s' g'
  | Opt r1 => words r1 s g s' g' \/ (s' = s /\ g' = g)
  | Rep k min _ =>
      exists w, s = w ++ s' /\ all (cls_mem k) w = true
                /\ min <= length w /\ g' = g
  | Group n r1 =>
      exists w g1, s = w ++ s' /\ words r1 s g s' g1 /\ g' = (n, w) :: g1
  end.

(** A pattern without capturing groups. *)
Fixpoint group_free (r : re) : bool :=
  match r with
  | Eps | Atom _ | Rep _ _ _ => true
  | Seq r1 r2 | Alt r1 r2 => group_free r1 && group_free r2
  | Opt r1 => group_free r1
  | Group _ _ => false
  end.

End Re.

Import Re.

Notation "r1 ;; r2" := (Seq r1 r2) (at level 61, right associativity).

(** [[\d.]] *)
Definition digit_or_dot : cls := Union Digit (Lit "."%char).

(** [pattern_full = re.compile(r"(.+?)\s+([\d.]+(?:kg|pcs|set|p)?\.?)\s*\$([\d.]+)")] *)
Definition pattern_full : pattern :=
  {| regex :=
       Group 1 (Rep Any 1 false) ;;
       Rep Space 1 true ;;
       Group 2 (Rep digit_or_dot 1 true ;;
                Opt (Alt (Str "kg") (Alt (Str "pcs") (Alt (Str "set") (Str "p")))) ;;
                Opt (Atom (Lit "."%char))) ;;
       Rep Space 0 true ;;
       Atom (Lit "$"%char) ;;
       Group 3 (Rep digit_or_dot 1 true);
     ngroups := 3 |}.

(** [pattern_short = re.compile(r"(.+?)\s*\$([\d.]+)")] *)
Definition pattern_short : pattern :=
  {| regex :=
       Group 1 (Rep Any 1 false) ;;
       Rep Space 0 true ;;
       Atom (Lit "$"%char) ;;
       Group 2 (Rep digit_or_dot 1 true);
     ngroups := 2 |}.

Arguments run {A} r s g kont.
Arguments rep_lazy {A} k min s g kont.
Arguments rep_greedy {A} k min s g kont.

(** ** Python floats: [float(s)] and [+] *)

Module PyFloat.

Definition prec : Z := 53.
Definition emax : Z := 1024.

(** [0.0] *)
Definition zero : spec_float := S754_zero false.

(** [x + y], rounding to nearest, ties to even *)
Definition add (x y : spec_float) : spec_float := SFadd prec emax x y.

(** The white space of C, [Py_ISSPACE], and the digits [0] to [9]. *)
Definition c_isspace (c : char) : bool :=
  ((9 <=? c) && (c <=? 13) || (c =? 32))%N.

Definition c_isdigit (c : char) : bool := ((48 <=? c) && (c <=? 57))%N.

Definition digit_value (c : char) : Z := Z.of_N (c - 48).

(** What [float] makes of a [str] before it reads it
    ([_PyUnicode_TransformDecimalAndSpaceToASCII]): a character below
    127 stays, white space becomes a space, a decimal digit the ASCII
    digit of its value, and the text ends in ["?"] at any other
    character.  A text of ASCII characters only is left as it is. *)
Fixpoint transform (s : str) : str :=
  match s with
  | [] => []
  | c :: s' =>
      if (c <? 127)%N then c :: transform s'
      else if isspace c then 32%N :: transform s'
      else if isdecimal c then (48 + decimal_value c)%N :: transform s'
      else [63%N]
  end.

Definition to_ascii (s : str) : str :=
  if all (fun c => (c <? 128)%N) s then s else transform s.

(** The longest prefix of [s] that continues a [digitpart]
    ([digit (["_"] digit)*]): the digits are accumulated into [acc] and
    counted in [n]; an underscore is taken only between two digits. *)
Fixpoint digitpart (s : str) (acc : Z) (n : nat) : Z * nat * str :=
  match s with
  | c :: s' =>
      if c_isdigit c then digitpart s' (10 * acc + digit_value c)%Z (S n)
      else if (c =? "_"%char)%N && (0 <? n)%nat then
        match s' with
        | d :: _ => if c_isdigit d then digitpart s' acc n else (acc, n, s)
        | [] => (acc, n, s)
        end
      else (acc, n, s)
  | [] => (acc, n, s)
  end.

(** An optional sign: whether it is ["-"], and the text after it. *)
Definition sign (s : str) : bool * str :=
  match s with
  | c :: r =>
      if (c =? "-"%char)%N then (true, r)
      else if (c =? "+"%char)%N then (false, r)
      else (false, s)
  | [] => (false, s)
  end.

(** [exponent ::= ("e" | "E") ["+" | "-"] digitpart], up to the end of
    the text; no exponent is the exponent 0. *)
Definition exponent (s : str) : option Z :=
  match s with
  | [] => Some 0%Z
  | c :: r =>
      if ((c =? "e"%char) || (c =? "E"%char))%N then
        let '(neg, r') := sign r in
        match digitpart r' 0%Z 0 with
        | (e, S _, []) => Some (if neg then (- e)%Z else e)
        | _ => None
        end
      else None
  end.

(** [floatnumber ::= ([digitpart] "." digitpart | digitpart ["."]) [exponent]]:
    the digits [m] read as an integer and the power of ten [e], the
    number being [m * 10^e]. *)
Definition floatnumber (s : str) : option (Z * Z) :=
  let '(ip, ni, r1) := digitpart s 0%Z 0 in
  let '(m, nf, r2) :=
    match r1 with
    | c :: r => if (c =? "."%char)%N then digitpart r ip 0 else (ip, 0, r1)
    | [] => (ip, 0, r1)
    end in
  if (ni + nf =? 0)%nat then None
  else
    match exponent r2 with
    | Some e => Some (m, (e - Z.of_nat nf)%Z)
    | None => None
    end.

(** The binary64 number nearest to [m * 10^e] (ties to even, an
    infinity on overflow), for [0 <= m]. *)
Definition of_decimal (neg : bool) (m e : Z) : spec_float :=
  match m with
  | Z0 => S754_zero neg
  | Zpos p =>
      let num := Z.to_pos (Zpos p * 10 ^ Z.max e 0) in
      let den := Z.to_pos (10 ^ Z.max (- e) 0) in
      SFdiv prec emax (S754_finite neg num 0) (S754_finite false den 0)
  | Zneg _ => S754_nan
  end.

(** Lower case of the letters [A] to [Z]: the case folding [float]
    applies to its names, and what [s.lower()] does to the characters
    of [".txt"]. *)
Definition lower_char (c : char) : char :=
  if ((65 <=? c) && (c <=? 90))%N then (c + 32)%N else c.

Definition lower (s : str) : str := map lower_char s.

(** [float(s)] for a [str]: [None] is the [ValueError] of a text that is
    no float literal.  The text is made ASCII, white space around the
    literal is ignored, then
    [floatvalue ::= ["+" | "-"] (floatnumber | "inf" | "infinity" | "nan")],
    the names in any case. *)
Definition float (s : str) : option spec_float :=
  let t := strip_of c_isspace (to_ascii s) in
  let '(neg, body) := sign t in
  match floatnumber body with
  | Some (m, e) => Some (of_decimal neg m e)
  | None =>
      let l := lower body in
      if eq_str l "inf" || eq_str l "infinity" then
        Some (S754_infinity neg)
      else if eq_str l "nan" then Some S754_nan
      else None
  end.

End PyFloat.

(** ** Exceptions *)

(** Exceptions the statements of the loop body can raise. *)
Inductive exn : Type :=
| AttributeError
| TypeError
| ValueError.

Inductive result (A : Type) : Type :=
| Ok (a : A)
| Raise (e : exn).

Arguments Ok {A} a.
Arguments Raise {A} e.

Definition bind {A B : Type} (m : result A) (f : A -> result B) : result B :=
  match m with
  | Ok a => f a
  | Raise e => Raise e
  end.

Notation "x <- m ;;; k" := (bind m (fun x => k))
  (at level 62, m at next level, right associativity).
Notation "' p <- m ;;; k" := (bind m (fun x => let p := x in k))
  (at level 62, p pattern, m at next level, right associativity).

(** ** python-docx: the text of a run and of a cell *)

Module Docx.

(** The characters lxml takes in the text of an element: those of XML
    1.0 bar the surrogates and U+FFFE, U+FFFF.  Of the control
    characters these are the tab, the line feed and the carriage
    return, which python-docx turns into a tab or a break of its own. *)
Definition xml_char (c : char) : bool :=
  ((32 <=? c) || (c =? 9) || (c =? 10) || (c =? 13))%N
  && negb ((55296 <=? c) && (c <=? 57343))%N
  && negb ((c =? 65534) || (c =? 65535))%N.

(** [p.add_run(text)] for a non-empty [text] and [cell.text = text], as
    far as they raise: [ValueError] on a character that XML does not
    allow. *)
Definition set_text (text : str) : result unit :=
  if all xml_char text then Ok tt else Raise ValueError.

End Docx.

(** ** The parsing loop of [process_txt_file] *)

(** An entry of [excel_rows]: [('category', name)] or
    [('item', name, qty, price)]. *)
Inductive row : Type :=
| category (name : str)
| item (name qty price : str).

(** The variables the loop updates. *)
Record state : Type := mkState {
  excel_rows : list row;
  total_lines : nat;
  valid_lines : nat;
  grand_total : spec_float;
  error_lines : list (list N)
}.

(** The state before the first line (YaW.py, lines 73 and 82-85). *)
Definition init : state :=
  {| excel_rows := [];
     total_lines := 0;
     valid_lines := 0;
     grand_total := PyFloat.zero;
     error_lines := [] |}.

(** A Python value that is a [str] or [None]. *)
Definition pystr : Type := option (list N).

(** [a, b, c = t] and [a, b = t] *)
Definition unpack3 (t : list pystr) : result (pystr * pystr * pystr) :=
  match t with
  | [a; b; c] => Ok (a, b, c)
  | _ => Raise ValueError
  end.

Definition unpack2 (t : list pystr) : result (pystr * pystr) :=
  match t with
  | [a; b] => Ok (a, b)
  | _ => Raise ValueError
  end.

(** [v.strip()] *)
Definition strip_method (v : pystr) : result str :=
  match v with
  | Some s => Ok (strip s)
  | None => Raise AttributeError
  end.

(** [float(v)] *)
Definition float_call (v : pystr) : result spec_float :=
  match v with
  | Some s =>
      match PyFloat.float s with
      | Some x => Ok x
      | None => Raise ValueError
      end
  | None => Raise TypeError
  end.

(** [f"{v}"] *)
Definition format (v : pystr) : str :=
  match v with
  | Some s => s
  | None => "None"
  end.

(** The three messages appended to [error_lines] (YaW.py, lines 107,
    128 and 146). *)
Definition msg_multi_dollar (idx : nat) (text : str) : str :=
  "[Line " ++ str_of_nat idx ++ "] ❌ 含有多个 $，无法处理：" ++ text.

Definition msg_unparsable (idx : nat) (text : str) : str :=
  "[Line " ++ str_of_nat idx ++ "] ❌ 无法解析：" ++ text.

Definition msg_price_failed (idx : nat) (price : pystr) : str :=
  "[Line " ++ str_of_nat idx ++ "] ⚠️ 价格解析失败：" ++ format price.

Definition is_match (m : option captures) : bool :=
  match m with
  | Some _ => true
  | None => false
  end.

(** [total_lines += 1] *)
Definition count_line (st : state) : state :=
  {| excel_rows := excel_rows st;
     total_lines := total_lines st + 1;
     valid_lines := valid_lines st;
     grand_total := grand_total st;
     error_lines := error_lines st |}.

(** [error_lines.append(msg)] *)
Definition append_error (msg : str) (st : state) : state :=
  {| excel_rows := excel_rows st;
     total_lines := total_lines st;
     valid_lines := valid_lines st;
     grand_total := grand_total st;
     error_lines := error_lines st ++ [msg] |}.

(** [excel_rows.append(r)] *)
Definition append_row (r : row) (st : state) : state :=
  {| excel_rows := excel_rows st ++ [r];
     total_lines := total_lines st;
     valid_lines := valid_lines st;
     grand_total := grand_total st;
     error_lines := error_lines st |}.

(** [grand_total += price_val; valid_lines += 1] *)
Definition add_price (price_val : spec_float) (st : state) : state :=
  {| excel_rows := excel_rows st;
     total_lines := total_lines st;
     valid_lines := valid_lines st + 1;
     grand_total := PyFloat.add (grand_total st) price_val;
     error_lines := error_lines st |}.

(** [insert_category_title(name)] (YaW.py, lines 88-96): the run of the
    merged row takes the text, which can raise, then [excel_rows] gets
    the entry.  The caller passes a text that is not empty. *)
Definition insert_category_title (name : str) (st : state) : result state :=
  'tt <- Docx.set_text name ;;;
  Ok (append_row (category name) st).

(** The [if m_full: ... elif m_short: ... else: ...] of lines 121-129:
    the three names bound for an item, or nothing in the [else] branch. *)
Definition item_fields (m_full m_short : option captures)
  : result (option (pystr * pystr * pystr)) :=
  match m_full with
  | Some m =>
      '(name, qty, price) <- unpack3 (groups pattern_full m) ;;;
      Ok (Some (name, qty, price))
  | None =>
      match m_short with
      | Some m =>
          '(name, price) <- unpack2 (groups pattern_short m) ;;;
          Ok (Some (name, Some [], price))
      | None => Ok None
      end
  end.

(** One turn of the [for idx, line in enumerate(lines, 1)] loop
    (YaW.py, lines 100-146). *)
Definition process_line (idx : nat) (line : str) (st : state)
  : result state :=
  let st := count_line st in
  let text := strip line in
  if is_empty text then Ok st
  else if (1 <? count "$" text)%nat then
    Ok (append_error (msg_multi_dollar idx text) st)
  else
    let m_full := match_ pattern_full text in
    let m_short := match_ pattern_short text in
    if negb (is_match m_full) && negb (is_match m_short)
       && negb (contains "$" text)
    then insert_category_title text st
    else
      fields <- item_fields m_full m_short ;;;
      match fields with
      | None => Ok (append_error (msg_unparsable idx text) st)
      | Some (name, qty, price) =>
          cell0 <- strip_method name ;;;
          'tt <- Docx.set_text cell0 ;;;
          cell1 <- strip_method qty ;;;
          'tt <- Docx.set_text cell1 ;;;
          cell2 <- strip_method price ;;;
          'tt <- Docx.set_text ("$" ++ cell2) ;;;
          name' <- strip_method name ;;;
          qty' <- strip_method qty ;;;
          price' <- strip_method price ;;;
          let st := append_row (item name' qty' price') st in
          match float_call price with
          | Ok price_val => Ok (add_price price_val st)
          | Raise _ => Ok (append_error (msg_price_failed idx price) st)
          end
      end.

Fixpoint loop (idx : nat) (lines : list (list N)) (st : state)
  : result state :=
  match lines with
  | [] => Ok st
  | line :: rest =>
      st' <- process_line idx line st ;;;
      loop (S idx) rest st'
  end.

(** [process_txt_file] on the lines [f.readlines()] gave it: the state
    at the end of the loop, of which the function returns [error_lines],
    [total_lines], [valid_lines] and [grand_total] and writes
    [excel_rows] to the two documents. *)
Definition process_txt_file (lines : list (list N)) : result state :=
  loop 1 lines init.

(** ** Vocabulary of the properties *)

(** The text of a price group: one or more characters of [[\d.]]. *)
Definition price_shape (p : str) : Prop :=
  p <> [] /\ all (cls_mem digit_or_dot) p = true.

(** What [float] reads for a character of a price: the character
    itself, or the ASCII digit of a decimal digit beyond ASCII. *)
Definition ascii_digit (c : N) : N :=
  if (c <? 127)%N then c else (48 + decimal_value c)%N.

(** An ASCII digit or a point. *)
Definition plain_price_char (c : N) : bool :=
  PyFloat.c_isdigit c || (c =? 46)%N.

(** The names bound for an item on [text]: from the full pattern when it
    matches, otherwise from the short one with an empty quantity. *)
Inductive item_match (text : str) : str -> str -> str -> Prop :=
| by_full m name qty price :
    match_ pattern_full text = Some m ->
    groups pattern_full m = [Some name; Some qty; Some price] ->
    item_match text name qty price
| by_short m name price :
    match_ pattern_full text = None ->
    match_ pattern_short text = Some m ->
    groups pattern_short m = [Some name; Some price] ->
    item_match text name [] price.

(** The form feed, a control character XML does not allow; the line
    feed that ends a line of [f.readlines()]; the no-break space. *)
Definition form_feed : N := 12.
Definition line_feed : N := 10.
Definition no_break_space : N := 160.

(** A text the Word table takes. *)
Definition legal (text : str) : Prop := all Docx.xml_char text = true.

(** The six ways through the loop body that reach its end, each with
    the state it leaves. *)
Inductive outcome (idx : nat) (line : str) (st : state) : state -> Prop :=
| blank_line :
    strip line = [] ->
    outcome idx line st (count_line st)
| multi_dollar :
    1 < count "$" (strip line) ->
    outcome idx line st
            (append_error (msg_multi_dollar idx (strip line)) (count_line st))
| category_line :
    strip line <> [] ->
    contains "$" (strip line) = false ->
    legal (strip line) ->
    outcome idx line st (append_row (category (strip line)) (count_line st))
| unparsable_line :
    count "$" (strip line) = 1 ->
    match_ pattern_full (strip line) = None ->
    match_ pattern_short (strip line) = None ->
    outcome idx line st
            (append_error (msg_unparsable idx (strip line)) (count_line st))
| priced_item name qty price price_val :
    count "$" (strip line) = 1 ->
    item_match (strip line) name qty price ->
    price_shape price ->
    legal (strip name) ->
    PyFloat.float price = Some price_val ->
    outcome idx line st
            (add_price price_val
               (append_row (item (strip name) (strip qty) price)
                  (count_line st)))
| unpriced_item name qty price :
    count "$" (strip line) = 1 ->
    item_match (strip line) name qty price ->
    price_shape price ->
    legal (strip name) ->
    PyFloat.float price = None ->
    outcome idx line st
            (append_error (msg_price_failed idx (Some price))
               (append_row (item (strip name) (strip qty) price)
                  (count_line st))).

(** The lines the Word table refuses: the stripped text of a line
    without ["$"], or the stripped name of an item, is not legal. *)
Inductive refused (line : str) : Prop :=
| refused_category :
    contains "$" (strip line) = false ->
    ~ legal (strip line) ->
    refused line
| refused_item name qty price :
    count "$" (strip line) = 1 ->
    item_match (strip line) name qty price ->
    ~ legal (strip name) ->
    refused line.

(** Counting and adding up the rows of [excel_rows]. *)
Definition is_item (r : row) : bool :=
  match r with
  | item _ _ _ => true
  | category _ => false
  end.

Definition item_rows (rows : list row) : nat :=
  length (filter is_item rows).

(** The float a row's price parses to, if the row is an item and
    [float] accepts its price. *)
Definition parsed_price (r : row) : option spec_float :=
  match r with
  | item _ _ price => PyFloat.float price
  | category _ => None
  end.

Definition has_price (r : row) : bool :=
  match parsed_price r with
  | Some _ => true
  | None => false
  end.

Definition priced_rows (rows : list row) : nat :=
  length (filter has_price rows).

(** The float sum of the prices that parse, from [0.0], in row order. *)
Definition sum_prices (rows : list row) : spec_float :=
  fold_left
    (fun acc r =>
       match parsed_price r with
       | Some price_val => PyFloat.add acc price_val
       | None => acc
       end)
    rows PyFloat.zero.

(** The messages line number [idx] with content [line] can leave in
    [error_lines], each with the condition under which the loop writes it. *)
Inductive diagnostic (idx : nat) (line : str) : str -> Prop :=
| diag_multi_dollar :
    1 < count "$" (strip line) ->
    diagnostic idx line (msg_multi_dollar idx (strip line))
| diag_unparsable :
    count "$" (strip line) = 1 ->
    match_ pattern_full (strip line) = None ->
    match_ pattern_short (strip line) = None ->
    diagnostic idx line (msg_unparsable idx (strip line))
| diag_price_failed name qty price :
    count "$" (strip line) = 1 ->
    item_match (strip line) name qty price ->
    PyFloat.float price = None ->
    diagnostic idx line (msg_price_failed idx (Some price)).

(** The three message templates in the words of the specification, for
    comparison with [msg_multi_dollar], [msg_unparsable] and
    [msg_price_failed]. *)
Definition spec_template (idx : nat) (text : str) (e : str) : Prop :=
  e = "[Line " ++ str_of_nat idx
      ++ "] multiple currency markers, cannot process: " ++ text
  \/ e = "[Line " ++ str_of_nat idx ++ "] unable to parse: " ++ text
  \/ exists price,
      e = "[Line " ++ str_of_nat idx ++ "] price parse failed: " ++ price.

(** ** Vocabulary of the further properties *)

(** The first and the last character of a text. *)
Definition first_char (s : str) : option N :=
  match s with
  | [] => None
  | c :: _ => Some c
  end.

Fixpoint last_char (s : str) : option N :=
  match s with
  | [] => None
  | [c] => Some c
  | _ :: s' => last_char s'
  end.

(** A text without white space at either end. *)
Definition stripped (s : str) : Prop :=
  (forall c, first_char s = Some c -> isspace c = false)
  /\ (forall c, last_char s = Some c -> isspace c = false).

(** The row a line can add to [excel_rows]. *)
Inductive emits (line : str) : row -> Prop :=
| emits_category :
    strip line <> [] ->
    contains "$" (strip line) = false ->
    emits line (category (strip line))
| emits_item name qty price :
    count "$" (strip line) = 1 ->
    item_match (strip line) name qty price ->
    emits line (item (strip name) (strip qty) price).

(** Lines that are empty once stripped. *)
Definition is_blank (line : str) : bool := is_empty (strip line).

Definition blank_lines (lines : list (list N)) : nat :=
  length (filter is_blank lines).

(** The unit suffixes of a quantity, [(?:kg|pcs|set|p)]. *)
Definition unit_suffixes : list (list N) := ["kg"; "pcs"; "set"; "p"].

(** The text of a quantity group: digits and points, then at most one
    unit suffix, then at most one point. *)
Definition qty_shape (q : str) : Prop :=
  exists d u p,
    q = d ++ u ++ p
    /\ price_shape d
    /\ (u = [] \/ In u unit_suffixes)
    /\ (p = [] \/ p = ".").

(** [text] read the way the full pattern reads it: a name, white
    space, a quantity, optional white space, ["$"], a price, and
    whatever follows. *)
Definition full_parts (text name qty price : str) : Prop :=
  exists ws ws' rest,
    text = name ++ ws ++ qty ++ ws' ++ "$" ++ price ++ rest
    /\ name <> [] /\ all (cls_mem Any) name = true
    /\ ws <> [] /\ all isspace ws = true
    /\ qty_shape qty
    /\ all isspace ws' = true
    /\ price_shape price.

(** [text] read the way the short pattern reads it. *)
Definition short_parts (text name price : str) : Prop :=
  exists ws rest,
    text = name ++ ws ++ "$" ++ price ++ rest
    /\ name <> [] /\ all (cls_mem Any) name = true
    /\ all isspace ws = true
    /\ price_shape price.

(** The pattern inside the quantity group of [pattern_full]. *)
Definition qty_re : re :=
  Rep digit_or_dot 1 true ;;
  Opt (Alt (Str "kg") (Alt (Str "pcs") (Alt (Str "set") (Str "p")))) ;;
  Opt (Atom (Lit "."%char)).

(** What every row of [excel_rows] looks like. *)
Definition well_formed_row (r : row) : Prop :=
  match r with
  | category label =>
      label <> [] /\ stripped label /\ contains "$" label = false
      /\ legal label
  | item name qty price =>
      stripped name /\ contains "$" name = false /\ legal name
      /\ (qty = [] \/ qty_shape qty)
      /\ price_shape price
  end.

(** A text that begins like a price: with a digit or a point. *)
Definition starts_price (post : str) : bool :=
  match post with
  | c :: _ => cls_mem digit_or_dot c
  | [] => false
  end.

(** A float that is [+0.0], a positive number or [+inf]: neither
    negative nor NaN. *)
Definition is_nonneg (x : spec_float) : bool :=
  match x with
  | S754_zero false | S754_finite false _ _ | S754_infinity false => true
  | _ => false
  end.

(** ** Rendering the grand total: [f"{x:.2f}"] *)

Module PyFormat.

(** [str(n)] for a natural number given in binary. *)
Definition str_of_N (n : N) : str :=
  map N_of_ascii
      (String.list_ascii_of_string (NilZero.string_of_uint (N.to_uint n))).

(** The character of a decimal digit [0 <= k < 10]. *)
Definition digit_char (k : Z) : N := Z.to_N (48 + k).

(** [m * 2^e] in hundredths, rounded to the nearest integer, a tie to
    the even one. *)
Definition hundredths (m : positive) (e : Z) : Z :=
  match e with
  | Zneg p =>
      let num := (Zpos m * 100)%Z in
      let den := (2 ^ Zpos p)%Z in
      let q := (num / den)%Z in
      let r := (num mod den)%Z in
      match (2 * r ?= den)%Z with
      | Lt => q
      | Gt => (q + 1)%Z
      | Eq => if Z.even q then q else (q + 1)%Z
      end
  | _ => (Zpos m * 100 * 2 ^ e)%Z
  end.

(** The digits of [c] hundredths: the integer part, a point, two
    decimals. *)
Definition fixed2 (c : Z) : str :=
  str_of_N (Z.to_N (c / 100))
  ++ "."
  ++ [digit_char ((c / 10) mod 10); digit_char (c mod 10)].

Definition sign_text (s : bool) : str := if s then "-" else "".

(** [f"{x:.2f}"] *)
Definition format_2f (x : spec_float) : str :=
  match x with
  | S754_nan => "nan"
  | S754_infinity s => sign_text s ++ "inf"
  | S754_zero s => sign_text s ++ "0.00"
  | S754_finite s m e => sign_text s ++ fixed2 (hundredths m e)
  end.

End PyFormat.

(** [f"Grand Total: ${grand_total:.2f}"] (YaW.py, lines 152 and 227) *)
Definition grand_total_text (grand_total : spec_float) : str :=
  "Grand Total: $" ++ PyFormat.format_2f grand_total.

(** An unsigned decimal with two decimals: digits, a point, two
    digits. *)
Definition two_decimals (t : str) : Prop :=
  exists ip d1 d2,
    t = ip ++ "." ++ [d1; d2]
    /\ ip <> [] /\ all PyFloat.c_isdigit ip = true
    /\ PyFloat.c_isdigit d1 = true /\ PyFloat.c_isdigit d2 = true.

(** ** Upper case: [str.upper] *)

Module PyCase.

(** The characters [str.upper] changes, each with the characters it
    becomes, in eight parts. *)
Definition upper_table : list (N * list N) :=
  concat
   [
    [(97, [65]); (98, [66]); (99, [67]); (100, [68]); (101, [69]);
     (102, [70]); (103, [71]); (104, [72]); (105, [73]); (106, [74]);
     (107, [75]); (108, [76]); (109, [77]); (110, [78]); (111, [79]);
     (112, [80]); (113, [81]); (114, [82]); (115, [83]); (116, [84]);
     (117, [85]); (118, [86]); (119, [87]); (120, [88]); (121, [89]);
     (122, [90]); (181, [924]); (223, [83; 83]); (224, [192]);
     (225, [193]); (226, [194]); (227, [195]); (228, [196]); (229, [197]);
     (230, [198]); (231, [199]); (232, [200]); (233, [201]); (234, [202]);
     (235, [203]); (236, [204]); (237, [205]); (238, [206]); (239, [207]);
     (240, [208]); (241, [209]); (242, [210]); (243, [211]); (244, [212]);
     (245, [213]); (246, [214]); (248, [216]); (249, [217]); (250, [218]);
     (251, [219]); (252, [220]); (253, [221]); (254, [222]); (255, [376]);
     (257, [256]); (259, [258]); (261, [260]); (263, [262]); (265, [264]);
     (267, [266]); (269, [268]); (271, [270]); (273, [272]); (275, [274]);
     (277, [276]); (279, [278]); (281, [280]); (283, [282]); (285, [284]);
     (287, [286]); (289, [288]); (291, [290]); (293, [292]); (295, [294]);
     (297, [296]); (299, [298]); (301, [300]); (303, [302]); (305, [73]);
     (307, [306]); (309, [308]); (311, [310]); (314, [313]); (316, [315]);
     (318, [317]); (320, [319]); (322, [321]); (324, [323]); (326, [325]);
     (328, [327]); (329, [700; 78]); (331, [330]); (333, [332]);
     (335, [334]); (337, [336]); (339, [338]); (341, [340]); (343, [342]);
     (345, [344]); (347, [346]); (349, [348]); (351, [350]); (353, [352]);
     (355, [354]); (357, [356]); (359, [358]); (361, [360]); (363, [362]);
     (365, [364]); (367, [366]); (369, [368]); (371, [370]); (373, [372]);
     (375, [374]); (378, [377]); (380, [379]); (382, [381]); (383, [83]);
     (384, [579]); (387, [386]); (389, [388]); (392, [391]); (396, [395]);
     (402, [401]); (405, [502]); (409, [408]); (410, [573]); (414, [544]);
     (417, [416]); (419, [418]); (421, [420]); (424, [423]); (429, [428]);
     (432, [431]); (436, [435]); (438, [437]); (441, [440]); (445, [444]);
     (447, [503]); (453, [452]); (454, [452]); (456, [455]); (457, [455]);
     (459, [458]); (460, [458]); (462, [461]); (464, [463]); (466, [465]);
     (468, [467]); (470, [469]); (472, [471]); (474, [473]); (476, [475]);
     (477, [398]); (479, [478]); (481, [480]); (483, [482]); (485, [484]);
     (487, [486]); (489, [488]); (491, [490]); (493, [492]); (495, [494]);
     (496, [74; 780]); (498, [497]); (499, [497]); (501, [500]);
     (505, [504]); (507, [506]); (509, [508]); (511, [510]); (513, [512]);
     (515, [514]); (517, [516]); (519, [518]); (521, [520]); (523, [522]);
     (525, [524]); (527, [526]); (529, [528]); (531, [530]); (533, [532]);
     (535, [534]); (537, [536]); (539, [538]); (541, [540])];
    [(543, [542]); (547, [546]); (549, [548]); (551, [550]); (553, [552]);
     (555, [554]); (557, [556]); (559, [558]); (561, [560]); (563, [562]);
     (572, [571]); (575, [11390]); (576, [11391]); (578, [577]);
     (583, [582]); (585, [584]); (587, [586]); (589, [588]); (591, [590]);
     (592, [11375]); (593, [11373]); (594, [11376]); (595, [385]);
     (596, [390]); (598, [393]); (599, [394]); (601, [399]); (603, [400]);
     (604, [42923]); (608, [403]); (609, [42924]); (611, [404]);
     (613, [42893]); (614, [42922]); (616, [407]); (617, [406]);
     (618, [42926]); (619, [11362]); (620, [42925]); (623, [412]);
     (625, [11374]); (626, [413]); (629, [415]); (637, [11364]);
     (640, [422]); (642, [42949]); (643, [425]); (647, [42929]);
     (648, [430]); (649, [580]); (650, [433]); (651, [434]); (652, [581]);
     (658, [439]); (669, [42930]); (670, [42928]); (837, [921]);
     (881, [880]); (883, [882]); (887, [886]); (891, [1021]);
     (892, [1022]); (893, [1023]); (912, [921; 776; 769]); (940, [902]);
     (941, [904]); (942, [905]); (943, [906]); (944, [933; 776; 769]);
     (945, [913]); (946, [914]); (947, [915]); (948, [916]); (949, [917]);
     (950, [918]); (951, [919]); (952, [920]); (953, [921]); (954, [922]);
     (955, [923]); (956, [924]); (957, [925]); (958, [926]); (959, [927]);
     (960, [928]); (961, [929]); (962, [931]); (963, [931]); (964, [932]);
     (965, [933]); (966, [934]); (967, [935]); (968, [936]); (969, [937]);
     (970, [938]); (971, [939]); (972, [908]); (973, [910]); (974, [911]);
     (976, [914]); (977, [920]); (981, [934]); (982, [928]); (983, [975]);
     (985, [984]); (987, [986]); (989, [988]); (991, [990]); (993, [992]);
     (995, [994]); (997, [996]); (999, [998]); (1001, [1000]);
     (1003, [1002]); (1005, [1004]); (1007, [1006]); (1008, [922]);
     (1009, [929]); (1010, [1017]); (1011, [895]); (1013, [917]);
     (1016, [1015]); (1019, [1018]); (1072, [1040]); (1073, [1041]);
     (1074, [1042]); (1075, [1043]); (1076, [1044]); (1077, [1045]);
     (1078, [1046]); (1079, [1047]); (1080, [1048]); (1081, [1049]);
     (1082, [1050]); (1083, [1051]); (1084, [1052]); (1085, [1053]);
     (1086, [1054]); (1087, [1055]); (1088, [1056]); (1089, [1057]);
     (1090, [1058]); (1091, [1059]); (1092, [1060]); (1093, [1061]);
     (1094, [1062]); (1095, [1063]); (1096, [1064]); (1097, [1065]);
     (1098, [1066]); (1099, [1067]); (1100, [1068]); (1101, [1069]);
     (1102, [1070]); (1103, [1071]); (1104, [1024]); (1105, [1025]);
     (1106, [1026]); (1107, [1027]); (1108, [1028]); (1109, [1029]);
     (1110, [1030]); (1111, [1031]); (1112, [1032]); (1113, [1033]);
     (1114, [1034]); (1115, [1035]); (1116, [1036]); (1117, [1037]);
     (1118, [1038]); (1119, [1039]); (1121, [1120]); (1123, [1122]);
     (1125, [1124]); (1127, [1126]); (1129, [1128]); (1131, [1130]);
     (1133, [1132]); (1135, [1134]); (1137, [1136]); (1139, [1138]);
     (1141, [1140]); (1143, [1142]); (1145, [1144]); (1147, [1146]);
     (1149, [1148]); (1151, [1150]); (1153, [1152]); (1163, [1162]);
     (1165, [1164]); (1167, [1166])];
    [(1169, [1168]); (1171, [1170]); (1173, [1172]); (1175, [1174]);
     (1177, [1176]); (1179, [1178]); (1181, [1180]); (1183, [1182]);
     (1185, [1184]); (1187, [1186]); (1189, [1188]); (1191, [1190]);
     (1193, [1192]); (1195, [1194]); (1197, [1196]); (1199, [1198]);
     (1201, [1200]); (1203, [1202]); (1205, [1204]); (1207, [1206]);
     (1209, [1208]); (1211, [1210]); (1213, [1212]); (1215, [1214]);
     (1218, [1217]); (1220, [1219]); (1222, [1221]); (1224, [1223]);
     (1226, [1225]); (1228, [1227]); (1230, [1229]); (1231, [1216]);
     (1233, [1232]); (1235, [1234]); (1237, [1236]); (1239, [1238]);
     (1241, [1240]); (1243, [1242]); (1245, [1244]); (1247, [1246]);
     (1249, [1248]); (1251, [1250]); (1253, [1252]); (1255, [1254]);
     (1257, [1256]); (1259, [1258]); (1261, [1260]); (1263, [1262]);
     (1265, [1264]); (1267, [1266]); (1269, [1268]); (1271, [1270]);
     (1273, [1272]); (1275, [1274]); (1277, [1276]); (1279, [1278]);
     (1281, [1280]); (1283, [1282]); (1285, [1284]); (1287, [1286]);
     (1289, [1288]); (1291, [1290]); (1293, [1292]); (1295, [1294]);
     (1297, [1296]); (1299, [1298]); (1301, [1300]); (1303, [1302]);
     (1305, [1304]); (1307, [1306]); (1309, [1308]); (1311, [1310]);
     (1313, [1312]); (1315, [1314]); (1317, [1316]); (1319, [1318]);
     (1321, [1320]); (1323, [1322]); (1325, [1324]); (1327, [1326]);
     (1377, [1329]); (1378, [1330]); (1379, [1331]); (1380, [1332]);
     (1381, [1333]); (1382, [1334]); (1383, [1335]); (1384, [1336]);
     (1385, [1337]); (1386, [1338]); (1387, [1339]); (1388, [1340]);
     (1389, [1341]); (1390, [1342]); (1391, [1343]); (1392, [1344]);
     (1393, [1345]); (1394, [1346]); (1395, [1347]); (1396, [1348]);
     (1397, [1349]); (1398, [1350]); (1399, [1351]); (1400, [1352]);
     (1401, [1353]); (1402, [1354]); (1403, [1355]); (1404, [1356]);
     (1405, [1357]); (1406, [1358]); (1407, [1359]); (1408, [1360]);
     (1409, [1361]); (1410, [1362]); (1411, [1363]); (1412, [1364]);
     (1413, [1365]); (1414, [1366]); (1415, [1333; 1362]); (4304, [7312]);
     (4305, [7313]); (4306, [7314]); (4307, [7315]); (4308, [7316]);
     (4309, [7317]); (4310, [7318]); (4311, [7319]); (4312, [7320]);
     (4313, [7321]); (4314, [7322]); (4315, [7323]); (4316, [7324]);
     (4317, [7325]); (4318, [7326]); (4319, [7327]); (4320, [7328]);
     (4321, [7329]); (4322, [7330]); (4323, [7331]); (4324, [7332]);
     (4325, [7333]); (4326, [7334]); (4327, [7335]); (4328, [7336]);
     (4329, [7337]); (4330, [7338]); (4331, [7339]); (4332, [7340]);
     (4333, [7341]); (4334, [7342]); (4335, [7343]); (4336, [7344]);
     (4337, [7345]); (4338, [7346]); (4339, [7347]); (4340, [7348]);
     (4341, [7349]); (4342, [7350]); (4343, [7351]); (4344, [7352]);
     (4345, [7353]); (4346, [7354]); (4349, [7357]); (4350, [7358]);
     (4351, [7359]); (5112, [5104]); (5113, [5105]); (5114, [5106]);
     (5115, [5107]); (5116, [5108]); (5117, [5109]); (7296, [1042]);
     (7297, [1044]); (7298, [1054]); (7299, [1057]); (7300, [1058]);
     (7301, [1058]); (7302, [1066]); (7303, [1122]); (7304, [42570]);
     (7545, [42877]); (7549, [11363]); (7566, [42950]); (7681, [7680]);
     (7683, [7682]); (7685, [7684]); (7687, [7686]); (7689, [7688]);
     (7691, [7690]); (7693, [7692]); (7695, [7694])];
    [(7697, [7696]); (7699, [7698]); (7701, [7700]); (7703, [7702]);
     (7705, [7704]); (7707, [7706]); (7709, [7708]); (7711, [7710]);
     (7713, [7712]); (7715, [7714]); (7717, [7716]); (7719, [7718]);
     (7721, [7720]); (7723, [7722]); (7725, [7724]); (7727, [7726]);
     (7729, [7728]); (7731, [7730]); (7733, [7732]); (7735, [7734]);
     (7737, [7736]); (7739, [7738]); (7741, [7740]); (7743, [7742]);
     (7745, [7744]); (7747, [7746]); (7749, [7748]); (7751, [7750]);
     (7753, [7752]); (7755, [7754]); (7757, [7756]); (7759, [7758]);
     (7761, [7760]); (7763, [7762]); (7765, [7764]); (7767, [7766]);
     (7769, [7768]); (7771, [7770]); (7773, [7772]); (7775, [7774]);
     (7777, [7776]); (7779, [7778]); (7781, [7780]); (7783, [7782]);
     (7785, [7784]); (7787, [7786]); (7789, [7788]); (7791, [7790]);
     (7793, [7792]); (7795, [7794]); (7797, [7796]); (7799, [7798]);
     (7801, [7800]); (7803, [7802]); (7805, [7804]); (7807, [7806]);
     (7809, [7808]); (7811, [7810]); (7813, [7812]); (7815, [7814]);
     (7817, [7816]); (7819, [7818]); (7821, [7820]); (7823, [7822]);
     (7825, [7824]); (7827, [7826]); (7829, [7828]); (7830, [72; 817]);
     (7831, [84; 776]); (7832, [87; 778]); (7833, [89; 778]);
     (7834, [65; 702]); (7835, [7776]); (7841, [7840]); (7843, [7842]);
     (7845, [7844]); (7847, [7846]); (7849, [7848]); (7851, [7850]);
     (7853, [7852]); (7855, [7854]); (7857, [7856]); (7859, [7858]);
     (7861, [7860]); (7863, [7862]); (7865, [7864]); (7867, [7866]);
     (7869, [7868]); (7871, [7870]); (7873, [7872]); (7875, [7874]);
     (7877, [7876]); (7879, [7878]); (7881, [7880]); (7883, [7882]);
     (7885, [7884]); (7887, [7886]); (7889, [7888]); (7891, [7890]);
     (7893, [7892]); (7895, [7894]); (7897, [7896]); (7899, [7898]);
     (7901, [7900]); (7903, [7902]); (7905, [7904]); (7907, [7906]);
     (7909, [7908]); (7911, [7910]); (7913, [7912]); (7915, [7914]);
     (7917, [7916]); (7919, [7918]); (7921, [7920]); (7923, [7922]);
     (7925, [7924]); (7927, [7926]); (7929, [7928]); (7931, [7930]);
     (7933, [7932]); (7935, [7934]); (7936, [7944]); (7937, [7945]);
     (7938, [7946]); (7939, [7947]); (7940, [7948]); (7941, [7949]);
     (7942, [7950]); (7943, [7951]); (7952, [7960]); (7953, [7961]);
     (7954, [7962]); (7955, [7963]); (7956, [7964]); (7957, [7965]);
     (7968, [7976]); (7969, [7977]); (7970, [7978]); (7971, [7979]);
     (7972, [7980]); (7973, [7981]); (7974, [7982]); (7975, [7983]);
     (7984, [7992]); (7985, [7993]); (7986, [7994]); (7987, [7995]);
     (7988, [7996]); (7989, [7997]); (7990, [7998]); (7991, [7999]);
     (8000, [8008]); (8001, [8009]); (8002, [8010]); (8003, [8011]);
     (8004, [8012]); (8005, [8013]); (8016, [933; 787]); (8017, [8025]);
     (8018, [933; 787; 768]); (8019, [8027]); (8020, [933; 787; 769]);
     (8021, [8029]); (8022, [933; 787; 834]); (8023, [8031]);
     (8032, [8040]); (8033, [8041]); (8034, [8042]); (8035, [8043]);
     (8036, [8044]); (8037, [8045]); (8038, [8046]); (8039, [8047]);
     (8048, [8122]); (8049, [8123]); (8050, [8136]); (8051, [8137]);
     (8052, [8138]); (8053, [8139]); (8054, [8154]); (8055, [8155]);
     (8056, [8184]); (8057, [8185]); (8058, [8170]); (8059, [8171]);
     (8060, [8186]); (8061, [8187]); (8064, [7944; 921]);
     (8065, [7945; 921]); (8066, [7946; 921]); (8067, [7947; 921])];
    [(8068, [7948; 921]); (8069, [7949; 921]); (8070, [7950; 921]);
     (8071, [7951; 921]); (8072, [7944; 921]); (8073, [7945; 921]);
     (8074, [7946; 921]); (8075, [7947; 921]); (8076, [7948; 921]);
     (8077, [7949; 921]); (8078, [7950; 921]); (8079, [7951; 921]);
     (8080, [7976; 921]); (8081, [7977; 921]); (8082, [7978; 921]);
     (8083, [7979; 921]); (8084, [7980; 921]); (8085, [7981; 921]);
     (8086, [7982; 921]); (8087, [7983; 921]); (8088, [7976; 921]);
     (8089, [7977; 921]); (8090, [7978; 921]); (8091, [7979; 921]);
     (8092, [7980; 921]); (8093, [7981; 921]); (8094, [7982; 921]);
     (8095, [7983; 921]); (8096, [8040; 921]); (8097, [8041; 921]);
     (8098, [8042; 921]); (8099, [8043; 921]); (8100, [8044; 921]);
     (8101, [8045; 921]); (8102, [8046; 921]); (8103, [8047; 921]);
     (8104, [8040; 921]); (8105, [8041; 921]); (8106, [8042; 921]);
     (8107, [8043; 921]); (8108, [8044; 921]); (8109, [8045; 921]);
     (8110, [8046; 921]); (8111, [8047; 921]); (8112, [8120]);
     (8113, [8121]); (8114, [8122; 921]); (8115, [913; 921]);
     (8116, [902; 921]); (8118, [913; 834]); (8119, [913; 834; 921]);
     (8124, [913; 921]); (8126, [921]); (8130, [8138; 921]);
     (8131, [919; 921]); (8132, [905; 921]); (8134, [919; 834]);
     (8135, [919; 834; 921]); (8140, [919; 921]); (8144, [8152]);
     (8145, [8153]); (8146, [921; 776; 768]); (8147, [921; 776; 769]);
     (8150, [921; 834]); (8151, [921; 776; 834]); (8160, [8168]);
     (8161, [8169]); (8162, [933; 776; 768]); (8163, [933; 776; 769]);
     (8164, [929; 787]); (8165, [8172]); (8166, [933; 834]);
     (8167, [933; 776; 834]); (8178, [8186; 921]); (8179, [937; 921]);
     (8180, [911; 921]); (8182, [937; 834]); (8183, [937; 834; 921]);
     (8188, [937; 921]); (8526, [8498]); (8560, [8544]); (8561, [8545]);
     (8562, [8546]); (8563, [8547]); (8564, [8548]); (8565, [8549]);
     (8566, [8550]); (8567, [8551]); (8568, [8552]); (8569, [8553]);
     (8570, [8554]); (8571, [8555]); (8572, [8556]); (8573, [8557]);
     (8574, [8558]); (8575, [8559]); (8580, [8579]); (9424, [9398]);
     (9425, [9399]); (9426, [9400]); (9427, [9401]); (9428, [9402]);
     (9429, [9403]); (9430, [9404]); (9431, [9405]); (9432, [9406]);
     (9433, [9407]); (9434, [9408]); (9435, [9409]); (9436, [9410]);
     (9437, [9411]); (9438, [9412]); (9439, [9413]); (9440, [9414]);
     (9441, [9415]); (9442, [9416]); (9443, [9417]); (9444, [9418]);
     (9445, [9419]); (9446, [9420]); (9447, [9421]); (9448, [9422]);
     (9449, [9423]); (11312, [11264]); (11313, [11265]); (11314, [11266]);
     (11315, [11267]); (11316, [11268]); (11317, [11269]);
     (11318, [11270]); (11319, [11271]); (11320, [11272]);
     (11321, [11273]); (11322, [11274]); (11323, [11275]);
     (11324, [11276]); (11325, [11277]); (11326, [11278]);
     (11327, [11279]); (11328, [11280]); (11329, [11281]);
     (11330, [11282]); (11331, [11283]); (11332, [11284]);
     (11333, [11285]); (11334, [11286]); (11335, [11287]);
     (11336, [11288]); (11337, [11289]); (11338, [11290]);
     (11339, [11291]); (11340, [11292]); (11341, [11293]);
     (11342, [11294]); (11343, [11295]); (11344, [11296]);
     (11345, [11297]); (11346, [11298]); (11347, [11299]);
     (11348, [11300]); (11349, [11301]); (11350, [11302]);
     (11351, [11303]); (11352, [11304]); (11353, [11305]);
     (11354, [11306]); (11355, [11307]); (11356, [11308]);
     (11357, [11309]); (11358, [11310]); (11359, [11311]);
     (11361, [11360]); (11365, [570]); (11366, [574]); (11368, [11367]);
     (11370, [11369]); (11372, [11371]); (11379, [11378]);
     (11382, [11381]); (11393, [11392]); (11395, [11394]);
     (11397, [11396]); (11399, [11398]); (11401, [11400]);
     (11403, [11402]); (11405, [11404]); (11407, [11406]);
     (11409, [11408]); (11411, [11410]); (11413, [11412]); (11415, [11414])];
    [(11417, [11416]); (11419, [11418]); (11421, [11420]);
     (11423, [11422]); (11425, [11424]); (11427, [11426]);
     (11429, [11428]); (11431, [11430]); (11433, [11432]);
     (11435, [11434]); (11437, [11436]); (11439, [11438]);
     (11441, [11440]); (11443, [11442]); (11445, [11444]);
     (11447, [11446]); (11449, [11448]); (11451, [11450]);
     (11453, [11452]); (11455, [11454]); (11457, [11456]);
     (11459, [11458]); (11461, [11460]); (11463, [11462]);
     (11465, [11464]); (11467, [11466]); (11469, [11468]);
     (11471, [11470]); (11473, [11472]); (11475, [11474]);
     (11477, [11476]); (11479, [11478]); (11481, [11480]);
     (11483, [11482]); (11485, [11484]); (11487, [11486]);
     (11489, [11488]); (11491, [11490]); (11500, [11499]);
     (11502, [11501]); (11507, [11506]); (11520, [4256]); (11521, [4257]);
     (11522, [4258]); (11523, [4259]); (11524, [4260]); (11525, [4261]);
     (11526, [4262]); (11527, [4263]); (11528, [4264]); (11529, [4265]);
     (11530, [4266]); (11531, [4267]); (11532, [4268]); (11533, [4269]);
     (11534, [4270]); (11535, [4271]); (11536, [4272]); (11537, [4273]);
     (11538, [4274]); (11539, [4275]); (11540, [4276]); (11541, [4277]);
     (11542, [4278]); (11543, [4279]); (11544, [4280]); (11545, [4281]);
     (11546, [4282]); (11547, [4283]); (11548, [4284]); (11549, [4285]);
     (11550, [4286]); (11551, [4287]); (11552, [4288]); (11553, [4289]);
     (11554, [4290]); (11555, [4291]); (11556, [4292]); (11557, [4293]);
     (11559, [4295]); (11565, [4301]); (42561, [42560]); (42563, [42562]);
     (42565, [42564]); (42567, [42566]); (42569, [42568]);
     (42571, [42570]); (42573, [42572]); (42575, [42574]);
     (42577, [42576]); (42579, [42578]); (42581, [42580]);
     (42583, [42582]); (42585, [42584]); (42587, [42586]);
     (42589, [42588]); (42591, [42590]); (42593, [42592]);
     (42595, [42594]); (42597, [42596]); (42599, [42598]);
     (42601, [42600]); (42603, [42602]); (42605, [42604]);
     (42625, [42624]); (42627, [42626]); (42629, [42628]);
     (42631, [42630]); (42633, [42632]); (42635, [42634]);
     (42637, [42636]); (42639, [42638]); (42641, [42640]);
     (42643, [42642]); (42645, [42644]); (42647, [42646]);
     (42649, [42648]); (42651, [42650]); (42787, [42786]);
     (42789, [42788]); (42791, [42790]); (42793, [42792]);
     (42795, [42794]); (42797, [42796]); (42799, [42798]);
     (42803, [42802]); (42805, [42804]); (42807, [42806]);
     (42809, [42808]); (42811, [42810]); (42813, [42812]);
     (42815, [42814]); (42817, [42816]); (42819, [42818]);
     (42821, [42820]); (42823, [42822]); (42825, [42824]);
     (42827, [42826]); (42829, [42828]); (42831, [42830]);
     (42833, [42832]); (42835, [42834]); (42837, [42836]);
     (42839, [42838]); (42841, [42840]); (42843, [42842]);
     (42845, [42844]); (42847, [42846]); (42849, [42848]);
     (42851, [42850]); (42853, [42852]); (42855, [42854]);
     (42857, [42856]); (42859, [42858]); (42861, [42860]);
     (42863, [42862]); (42874, [42873]); (42876, [42875]);
     (42879, [42878]); (42881, [42880]); (42883, [42882]);
     (42885, [42884]); (42887, [42886]); (42892, [42891]);
     (42897, [42896]); (42899, [42898]); (42900, [42948]);
     (42903, [42902]); (42905, [42904]); (42907, [42906]);
     (42909, [42908]); (42911, [42910]); (42913, [42912]);
     (42915, [42914]); (42917, [42916]); (42919, [42918]);
     (42921, [42920]); (42933, [42932]); (42935, [42934]);
     (42937, [42936]); (42939, [42938]); (42941, [42940]);
     (42943, [42942]); (42945, [42944]); (42947, [42946]);
     (42952, [42951]); (42954, [42953]); (42961, [42960]);
     (42967, [42966]); (42969, [42968]); (42998, [42997])];
    [(43859, [42931]); (43888, [5024]); (43889, [5025]); (43890, [5026]);
     (43891, [5027]); (43892, [5028]); (43893, [5029]); (43894, [5030]);
     (43895, [5031]); (43896, [5032]); (43897, [5033]); (43898, [5034]);
     (43899, [5035]); (43900, [5036]); (43901, [5037]); (43902, [5038]);
     (43903, [5039]); (43904, [5040]); (43905, [5041]); (43906, [5042]);
     (43907, [5043]); (43908, [5044]); (43909, [5045]); (43910, [5046]);
     (43911, [5047]); (43912, [5048]); (43913, [5049]); (43914, [5050]);
     (43915, [5051]); (43916, [5052]); (43917, [5053]); (43918, [5054]);
     (43919, [5055]); (43920, [5056]); (43921, [5057]); (43922, [5058]);
     (43923, [5059]); (43924, [5060]); (43925, [5061]); (43926, [5062]);
     (43927, [5063]); (43928, [5064]); (43929, [5065]); (43930, [5066]);
     (43931, [5067]); (43932, [5068]); (43933, [5069]); (43934, [5070]);
     (43935, [5071]); (43936, [5072]); (43937, [5073]); (43938, [5074]);
     (43939, [5075]); (43940, [5076]); (43941, [5077]); (43942, [5078]);
     (43943, [5079]); (43944, [5080]); (43945, [5081]); (43946, [5082]);
     (43947, [5083]); (43948, [5084]); (43949, [5085]); (43950, [5086]);
     (43951, [5087]); (43952, [5088]); (43953, [5089]); (43954, [5090]);
     (43955, [5091]); (43956, [5092]); (43957, [5093]); (43958, [5094]);
     (43959, [5095]); (43960, [5096]); (43961, [5097]); (43962, [5098]);
     (43963, [5099]); (43964, [5100]); (43965, [5101]); (43966, [5102]);
     (43967, [5103]); (64256, [70; 70]); (64257, [70; 73]);
     (64258, [70; 76]); (64259, [70; 70; 73]); (64260, [70; 70; 76]);
     (64261, [83; 84]); (64262, [83; 84]); (64275, [1348; 1350]);
     (64276, [1348; 1333]); (64277, [1348; 1339]); (64278, [1358; 1350]);
     (64279, [1348; 1341]); (65345, [65313]); (65346, [65314]);
     (65347, [65315]); (65348, [65316]); (65349, [65317]);
     (65350, [65318]); (65351, [65319]); (65352, [65320]);
     (65353, [65321]); (65354, [65322]); (65355, [65323]);
     (65356, [65324]); (65357, [65325]); (65358, [65326]);
     (65359, [65327]); (65360, [65328]); (65361, [65329]);
     (65362, [65330]); (65363, [65331]); (65364, [65332]);
     (65365, [65333]); (65366, [65334]); (65367, [65335]);
     (65368, [65336]); (65369, [65337]); (65370, [65338]);
     (66600, [66560]); (66601, [66561]); (66602, [66562]);
     (66603, [66563]); (66604, [66564]); (66605, [66565]);
     (66606, [66566]); (66607, [66567]); (66608, [66568]);
     (66609, [66569]); (66610, [66570]); (66611, [66571]);
     (66612, [66572]); (66613, [66573]); (66614, [66574]);
     (66615, [66575]); (66616, [66576]); (66617, [66577]);
     (66618, [66578]); (66619, [66579]); (66620, [66580]);
     (66621, [66581]); (66622, [66582]); (66623, [66583]);
     (66624, [66584]); (66625, [66585]); (66626, [66586]);
     (66627, [66587]); (66628, [66588]); (66629, [66589]);
     (66630, [66590]); (66631, [66591]); (66632, [66592]);
     (66633, [66593]); (66634, [66594]); (66635, [66595]);
     (66636, [66596]); (66637, [66597]); (66638, [66598]);
     (66639, [66599]); (66776, [66736]); (66777, [66737]);
     (66778, [66738]); (66779, [66739]); (66780, [66740]);
     (66781, [66741]); (66782, [66742]); (66783, [66743]);
     (66784, [66744]); (66785, [66745]); (66786, [66746]);
     (66787, [66747]); (66788, [66748]); (66789, [66749]);
     (66790, [66750]); (66791, [66751]); (66792, [66752]);
     (66793, [66753]); (66794, [66754]); (66795, [66755]);
     (66796, [66756]); (66797, [66757]); (66798, [66758]);
     (66799, [66759]); (66800, [66760]); (66801, [66761]);
     (66802, [66762]); (66803, [66763]); (66804, [66764]);
     (66805, [66765]); (66806, [66766]); (66807, [66767])];
    [(66808, [66768]); (66809, [66769]); (66810, [66770]);
     (66811, [66771]); (66967, [66928]); (66968, [66929]);
     (66969, [66930]); (66970, [66931]); (66971, [66932]);
     (66972, [66933]); (66973, [66934]); (66974, [66935]);
     (66975, [66936]); (66976, [66937]); (66977, [66938]);
     (66979, [66940]); (66980, [66941]); (66981, [66942]);
     (66982, [66943]); (66983, [66944]); (66984, [66945]);
     (66985, [66946]); (66986, [66947]); (66987, [66948]);
     (66988, [66949]); (66989, [66950]); (66990, [66951]);
     (66991, [66952]); (66992, [66953]); (66993, [66954]);
     (66995, [66956]); (66996, [66957]); (66997, [66958]);
     (66998, [66959]); (66999, [66960]); (67000, [66961]);
     (67001, [66962]); (67003, [66964]); (67004, [66965]);
     (68800, [68736]); (68801, [68737]); (68802, [68738]);
     (68803, [68739]); (68804, [68740]); (68805, [68741]);
     (68806, [68742]); (68807, [68743]); (68808, [68744]);
     (68809, [68745]); (68810, [68746]); (68811, [68747]);
     (68812, [68748]); (68813, [68749]); (68814, [68750]);
     (68815, [68751]); (68816, [68752]); (68817, [68753]);
     (68818, [68754]); (68819, [68755]); (68820, [68756]);
     (68821, [68757]); (68822, [68758]); (68823, [68759]);
     (68824, [68760]); (68825, [68761]); (68826, [68762]);
     (68827, [68763]); (68828, [68764]); (68829, [68765]);
     (68830, [68766]); (68831, [68767]); (68832, [68768]);
     (68833, [68769]); (68834, [68770]); (68835, [68771]);
     (68836, [68772]); (68837, [68773]); (68838, [68774]);
     (68839, [68775]); (68840, [68776]); (68841, [68777]);
     (68842, [68778]); (68843, [68779]); (68844, [68780]);
     (68845, [68781]); (68846, [68782]); (68847, [68783]);
     (68848, [68784]); (68849, [68785]); (68850, [68786]);
     (71872, [71840]); (71873, [71841]); (71874, [71842]);
     (71875, [71843]); (71876, [71844]); (71877, [71845]);
     (71878, [71846]); (71879, [71847]); (71880, [71848]);
     (71881, [71849]); (71882, [71850]); (71883, [71851]);
     (71884, [71852]); (71885, [71853]); (71886, [71854]);
     (71887, [71855]); (71888, [71856]); (71889, [71857]);
     (71890, [71858]); (71891, [71859]); (71892, [71860]);
     (71893, [71861]); (71894, [71862]); (71895, [71863]);
     (71896, [71864]); (71897, [71865]); (71898, [71866]);
     (71899, [71867]); (71900, [71868]); (71901, [71869]);
     (71902, [71870]); (71903, [71871]); (93792, [93760]);
     (93793, [93761]); (93794, [93762]); (93795, [93763]);
     (93796, [93764]); (93797, [93765]); (93798, [93766]);
     (93799, [93767]); (93800, [93768]); (93801, [93769]);
     (93802, [93770]); (93803, [93771]); (93804, [93772]);
     (93805, [93773]); (93806, [93774]); (93807, [93775]);
     (93808, [93776]); (93809, [93777]); (93810, [93778]);
     (93811, [93779]); (93812, [93780]); (93813, [93781]);
     (93814, [93782]); (93815, [93783]); (93816, [93784]);
     (93817, [93785]); (93818, [93786]); (93819, [93787]);
     (93820, [93788]); (93821, [93789]); (93822, [93790]);
     (93823, [93791]); (125218, [125184]); (125219, [125185]);
     (125220, [125186]); (125221, [125187]); (125222, [125188]);
     (125223, [125189]); (125224, [125190]); (125225, [125191]);
     (125226, [125192]); (125227, [125193]); (125228, [125194]);
     (125229, [125195]); (125230, [125196]); (125231, [125197]);
     (125232, [125198]); (125233, [125199]); (125234, [125200]);
     (125235, [125201]); (125236, [125202]); (125237, [125203]);
     (125238, [125204]); (125239, [125205]); (125240, [125206]);
     (125241, [125207]); (125242, [125208]); (125243, [125209]);
     (125244, [125210]); (125245, [125211]); (125246, [125212]);
     (125247, [125213]); (125248, [125214]); (125249, [125215]);
     (125250, [125216]); (125251, [125217])]
   ]%N.

Definition upper_char (c : char) : str :=
  match find (fun e => N.eqb (fst e) c) upper_table with
  | Some e => snd e
  | None => [c]
  end.

(** [s.upper()] *)
Definition upper (s : str) : str := flat_map upper_char s.

End PyCase.

(** ** Writing the Excel sheet (YaW.py, lines 184-256)

    The calls on the worksheet in the order the code makes them, each
    with the value it passes; fonts, alignments, column widths and the
    sheet title are left out. *)

Module Sheet.

Inductive op : Type :=
| merge_cells (start_row start_column end_row end_column : nat)
| cell (r c : nat) (value : str)
| row_height (r height : nat).

(** [doc_title.upper()] *)
Definition upper : str -> str := PyCase.upper.

Definition nl : str := [10%N].

(** The footer, with [datetime.now().strftime('%d %B %Y')] as
    [invoice_date]. *)
Definition footer_text (invoice_date : str) : str :=
  "Invoice prepared by Sophia" ++ nl
  ++ "Invoice date: " ++ invoice_date ++ nl
  ++ "If you have any queries regarding this invoice, please contact us."
  ++ nl
  ++ "Many thanks for your custom.".

Definition headers : list (list N) := ["Name"; "Quantity"; "Price"].

(** [enumerate(l, start)] *)
Fixpoint enumerate {A : Type} (start : nat) (l : list A) : list (nat * A) :=
  match l with
  | [] => []
  | x :: l' => (start, x) :: enumerate (S start) l'
  end.

(** One turn of [for entry in excel_rows], at [row_idx]. *)
Definition write_entry (row_idx : nat) (entry : row) : list op :=
  match entry with
  | category name =>
      [merge_cells row_idx 1 row_idx 3; cell row_idx 1 name]
  | item name qty price_str =>
      [cell row_idx 1 name; cell row_idx 2 qty;
       cell row_idx 3 ("$" ++ price_str)]
  end.

(** The loop over [excel_rows]: the calls it makes and [row_idx] at
    its end. *)
Fixpoint write_entries (row_idx : nat) (excel_rows : list row)
  : list op * nat :=
  match excel_rows with
  | [] => ([], row_idx)
  | entry :: rest =>
      let '(ops, row_idx') := write_entries (row_idx + 1) rest in
      (write_entry row_idx entry ++ ops, row_idx')
  end.

Definition write_sheet (doc_title : str) (excel_rows : list row)
           (grand_total : spec_float) (invoice_date : str) : list op :=
  let title_ops := [merge_cells 1 1 1 3; cell 1 1 (upper doc_title)] in
  let header_row_idx := 2 in
  let header_ops :=
    map (fun '(col, h) => cell header_row_idx col h) (enumerate 1 headers) in
  let '(entry_ops, row_idx) := write_entries (header_row_idx + 1) excel_rows in
  let start_gt_row := row_idx in
  let end_gt_row := row_idx + 1 in
  let total_ops :=
    [merge_cells start_gt_row 1 end_gt_row 3;
     cell start_gt_row 1 (grand_total_text grand_total)] in
  let row_idx := end_gt_row + 1 in
  let start_footer_row := row_idx in
  let end_footer_row := row_idx + 1 in
  let footer_ops :=
    [merge_cells start_footer_row 1 end_footer_row 3;
     cell start_footer_row 1 (footer_text invoice_date)]
    ++ map (fun r => row_height r 30)
           (seq start_footer_row (end_footer_row + 1 - start_footer_row))
  in
  title_ops ++ header_ops ++ entry_ops ++ total_ops ++ footer_ops.

(** What the calls leave for a cell: the value last passed for it. *)
Fixpoint value_at (ops : list op) (r c : nat) : option (list N) :=
  match ops with
  | [] => None
  | o :: rest =>
      match value_at rest r c with
      | Some v => Some v
      | None =>
          match o with
          | cell r' c' v =>
              if (r =? r')%nat && (c =? c')%nat then Some v else None
          | _ => None
          end
      end
  end.

(** The cells written, one entry a call. *)
Definition written (ops : list op) : list (nat * nat) :=
  flat_map (fun o => match o with
                     | cell r c _ => [(r, c)]
                     | _ => []
                     end) ops.

(** A merged range, and the cells it covers. *)
Definition covers (o : op) (r c : nat) : Prop :=
  match o with
  | merge_cells r1 c1 r2 c2 => r1 <= r <= r2 /\ c1 <= c <= c2
  | _ => False
  end.

(** The calls before and after those of the loop, for [n] the row the
    loop stops at. *)
Definition top (doc_title : str) : list op :=
  [merge_cells 1 1 1 3; cell 1 1 (upper doc_title);
   cell 2 1 "Name"; cell 2 2 "Quantity"; cell 2 3 "Price"].

Definition bottom (n : nat) (grand_total : spec_float) (invoice_date : str)
  : list op :=
  [merge_cells n 1 (n + 1) 3; cell n 1 (grand_total_text grand_total);
   merge_cells (n + 2) 1 (n + 3) 3; cell (n + 2) 1 (footer_text invoice_date);
   row_height (n + 2) 30; row_height (n + 3) 30].

End Sheet.

(** ** Filling the Word document (YaW.py, lines 58-70, 88-96, 131-138
    and 148-152)

    The heading, and the table as the list of its rows, a row being one
    merged cell or three cells; fonts, alignments and the footer
    paragraph are left out. *)

Module Word.

Inductive table_row : Type :=
| merged (text : str)
| cells (name qty price : str).

Record document : Type := {
  heading : str;
  table : list table_row
}.

(** [title.add_run(doc_title.upper())] (line 59) *)
Definition add_heading (doc_title : str) : result str :=
  let text := PyCase.upper doc_title in
  'tt <- Docx.set_text text ;;;
  Ok text.

(** [hdr_cells[0].text = 'Name'] and so on *)
Definition header_row : table_row := cells "Name" "Quantity" "Price".

(** [insert_category_title(name)], table and [excel_rows] together *)
Definition insert_category_title
           (name : str) (d : list table_row * state)
  : result (list table_row * state) :=
  let '(table, st) := d in
  'tt <- Docx.set_text name ;;;
  Ok (table ++ [merged name], append_row (category name) st).

(** One turn of the loop, with the table. *)
Definition process_line (idx : nat) (line : str)
           (d : list table_row * state) : result (list table_row * state) :=
  let '(table, st) := d in
  let st := count_line st in
  let text := strip line in
  if is_empty text then Ok (table, st)
  else if (1 <? count "$" text)%nat then
    Ok (table, append_error (msg_multi_dollar idx text) st)
  else
    let m_full := match_ pattern_full text in
    let m_short := match_ pattern_short text in
    if negb (is_match m_full) && negb (is_match m_short)
       && negb (contains "$" text)
    then insert_category_title text (table, st)
    else
      fields <- item_fields m_full m_short ;;;
      match fields with
      | None => Ok (table, append_error (msg_unparsable idx text) st)
      | Some (name, qty, price) =>
          cell0 <- strip_method name ;;;
          'tt <- Docx.set_text cell0 ;;;
          cell1 <- strip_method qty ;;;
          'tt <- Docx.set_text cell1 ;;;
          cell2 <- strip_method price ;;;
          'tt <- Docx.set_text ("$" ++ cell2) ;;;
          let table := table ++ [cells cell0 cell1 ("$" ++ cell2)] in
          name' <- strip_method name ;;;
          qty' <- strip_method qty ;;;
          price' <- strip_method price ;;;
          let st := append_row (item name' qty' price') st in
          match float_call price with
          | Ok price_val => Ok (table, add_price price_val st)
          | Raise _ =>
              Ok (table, append_error (msg_price_failed idx price) st)
          end
      end.

Fixpoint loop (idx : nat) (lines : list (list N))
         (d : list table_row * state) : result (list table_row * state) :=
  match lines with
  | [] => Ok d
  | line :: rest =>
      d' <- process_line idx line d ;;;
      loop (S idx) rest d'
  end.

(** The document at the end: the heading, and in the table the header,
    the rows of the loop and the grand total in one merged row. *)
Definition fill_document (doc_title : str) (lines : list (list N))
  : result (document * state) :=
  heading <- add_heading doc_title ;;;
  d <- loop 1 lines ([header_row], init) ;;;
  let '(table, st) := d in
  let total := grand_total_text (grand_total st) in
  'tt <- Docx.set_text total ;;;
  Ok ({| heading := heading; table := table ++ [merged total] |}, st).

(** The table row that shows an entry of [excel_rows]. *)
Definition shows (entry : row) : table_row :=
  match entry with
  | category name => merged name
  | item name qty price => cells name qty ("$" ++ price)
  end.

(** The table follows [excel_rows]. *)
Definition in_step (d : list table_row * state) : Prop :=
  fst d = header_row :: map shows (excel_rows (snd d)).

End Word.

(** ** File names and the main loop (YaW.py, lines 54, 171 and
    600-637) *)

Module Names.

(** [s[n:]] *)
Fixpoint drop (n : nat) (s : str) : str :=
  match n, s with
  | S n', _ :: s' => drop n' s'
  | _, _ => s
  end.

(** [s.startswith(p)] *)
Fixpoint prefix (p s : str) : bool :=
  match p, s with
  | [], _ => true
  | c :: p', d :: s' => N.eqb c d && prefix p' s'
  | _ :: _, [] => false
  end.

(** [s.endswith(suffix)] *)
Definition endswith (s suffix : str) : bool :=
  (length suffix <=? length s)%nat
  && eq_str (drop (length s - length suffix) s) suffix.

(** [old in s] *)
Fixpoint occurs (old s : str) : bool :=
  prefix old s
  || match s with
     | [] => false
     | _ :: s' => occurs old s'
     end.

(** [s.replace(old, new)] for a non-empty [old]: every occurrence of
    [old], found from left to right without overlap, becomes [new];
    [skip] counts the characters of an occurrence still to pass over. *)
Fixpoint replace_from (old new : str) (skip : nat) (s : str)
  : str :=
  match s with
  | [] => []
  | c :: s' =>
      match skip with
      | S k => replace_from old new k s'
      | O =>
          if prefix old s
          then new ++ replace_from old new (length old - 1) s'
          else c :: replace_from old new 0 s'
      end
  end.

Definition replace (old new s : str) : str := replace_from old new 0 s.


(** [if not txt_input.lower().endswith(".txt"): txt_input += ".txt"];
    of [lower] the test sees what becomes of the letters [A] to [Z]. *)
Definition with_txt_suffix (txt_input : str) : str :=
  if negb (endswith (PyFloat.lower txt_input) ".txt")
  then txt_input ++ ".txt"
  else txt_input.

(** [txt_name.replace(".txt", ".docx")] and
    [txt_name.replace('.txt', '.xlsx')] *)
Definition docx_name (txt_name : str) : str :=
  replace ".txt" ".docx" txt_name.

Definition xlsx_name (txt_name : str) : str :=
  replace ".txt" ".xlsx" txt_name.

(** What one turn of the [while True] loop of [run_main_loop] does. *)
Inductive action : Type :=
| Exit
| FileMissing (file_path : str)
| Process (file_path output_folder txt_name doc_title : str).

Section MainLoop.

(** [os.path.join], [os.path.isfile] and the folder of the program. *)
Variable join : list N -> list N -> list N.
Variable isfile : list N -> bool.
Variable search_path : list N.

(** One turn, for the value [ask_txt_filename()] returns and the value
    [ask_bill_title()] returns if it comes to be called. *)
Definition main_step (txt_input title_input : option (list N)) : action :=
  match txt_input with
  | None => Exit
  | Some txt_input =>
      let txt_input := with_txt_suffix txt_input in
      let file_path := join search_path txt_input in
      if negb (isfile file_path) then FileMissing file_path
      else
        let title_input : str :=
          match title_input with
          | None | Some [] => "PRODUCTS"
          | Some t => t
          end in
        Process file_path search_path txt_input title_input
  end.

(** [docx_path] and [excel_path] of [process_txt_file] *)
Definition docx_path (output_folder txt_name : str) : str :=
  join output_folder (docx_name txt_name).

Definition excel_path (output_folder txt_name : str) : str :=
  join output_folder (xlsx_name txt_name).

End MainLoop.

End Names.



(** * Properties *)

(** ** Strings *)

Section StringFacts.

Lemma take_append (u v : list N) :
  take (length (u ++ v) - length v) (u ++ v) = u.
Proof.
  rewrite length_app, Nat.add_sub.
  induction u as [|c u IH]; simpl.
  - now destruct v.
  - now rewrite IH.
Qed.

Lemma all_impl (p q : N -> bool) (s : list N) :
  (forall c, p c = true -> q c = true) ->
  all p s = true -> all q s = true.
Proof.
  intros Hpq; induction s as [|c s IH]; simpl; [reflexivity|].
  rewrite !andb_true_iff; intros [Hc Hs]; auto.
Qed.

Lemma all_append (p : N -> bool) (u v : list N) :
  all p (u ++ v) = all p u && all p v.
Proof.
  induction u as [|c u IH]; simpl; [reflexivity|].
  now rewrite IH, andb_assoc.
Qed.

Lemma all_In (p : N -> bool) (s : list N) :
  all p s = true <-> (forall c, In c s -> p c = true).
Proof.
  induction s as [|c s IH]; simpl.
  - split; [intros _ ? [] | reflexivity].
  - rewrite andb_true_iff, IH. split.
    + intros [Hc Hs] d [<- | Hd]; auto.
    + intros H. split; auto.
Qed.

Lemma contains_append (c : N) (u v : list N) :
  contains c (u ++ v) = contains c u || contains c v.
Proof.
  induction u as [|d u IH]; simpl; [reflexivity|].
  now rewrite IH, orb_assoc.
Qed.

Lemma count_append (c : N) (u v : list N) :
  count c (u ++ v) = count c u + count c v.
Proof. induction u as [|d u IH]; simpl; [reflexivity | rewrite IH; lia]. Qed.

Lemma contains_count (c : N) (s : list N) :
  contains c s = false <-> count c s = 0.
Proof.
  induction s as [|d s IH]; simpl; [tauto|].
  destruct (N.eqb c d); simpl; [split; [discriminate | lia] | exact IH].
Qed.

Lemma contains_In (c : N) (s : list N) :
  contains c s = true <-> In c s.
Proof.
  induction s as [|d s IH]; simpl; [split; [discriminate | tauto]|].
  rewrite orb_true_iff, IH, N.eqb_eq. intuition auto.
Qed.

Lemma count_pos_nonempty (c : N) (s : list N) :
  0 < count c s -> s <> [].
Proof. destruct s; simpl; [lia | discriminate]. Qed.

Lemma is_empty_spec (s : list N) : reflect (s = []) (is_empty s).
Proof. destruct s; constructor; [reflexivity | discriminate]. Qed.


End StringFacts.

(** ** [strip] *)

Section StripFacts.

Variable white : N -> bool.

Lemma lstrip_split (s : list N) :
  exists ws, s = ws ++ lstrip_of white s /\ all white ws = true.
Proof.
  induction s as [|c s IH]; simpl.
  - now exists [].
  - destruct (white c) eqn:Hc.
    + destruct IH as (ws & E & Hws). exists (c :: ws). simpl.
      now rewrite Hc, <- E.
    + now exists [].
Qed.

Lemma rstrip_split (s : list N) :
  exists ws, s = rstrip_of white s ++ ws /\ all white ws = true.
Proof.
  induction s as [|c s IH]; simpl.
  - now exists [].
  - destruct IH as (ws & E & Hws).
    destruct (rstrip_of white s) as [|d r] eqn:Er.
    + destruct (white c) eqn:Hc.
      * exists (c :: ws). simpl in *. subst s. now rewrite Hc.
      * exists ws. simpl in *. now subst s.
    + exists ws. simpl in *. split; [now f_equal | exact Hws].
Qed.

Lemma strip_split (s : list N) :
  exists ws ws',
    s = ws ++ strip_of white s ++ ws'
    /\ all white ws = true /\ all white ws' = true.
Proof.
  destruct (rstrip_split s) as (ws' & E & Hws').
  destruct (lstrip_split (rstrip_of white s)) as (ws & E' & Hws).
  exists ws, ws'. unfold strip_of. rewrite app_assoc, <- E', <- E. auto.
Qed.

Lemma rstrip_id (s : list N) :
  all (fun c => negb (white c)) s = true -> rstrip_of white s = s.
Proof.
  induction s as [|c s IH]; simpl; [reflexivity|].
  rewrite andb_true_iff, negb_true_iff; intros [Hc Hs].
  rewrite (IH Hs), Hc. now destruct s.
Qed.

Lemma strip_id (s : list N) :
  all (fun c => negb (white c)) s = true -> strip_of white s = s.
Proof.
  intros H. unfold strip_of. rewrite (rstrip_id s H).
  destruct s as [|c s]; simpl in *; [reflexivity|].
  apply andb_true_iff in H. destruct H as [Hc _].
  apply negb_true_iff in Hc. now rewrite Hc.
Qed.

Lemma lstrip_first (s : list N) (c : N) :
  first_char (lstrip_of white s) = Some c -> white c = false.
Proof.
  induction s as [|d s IH]; simpl; [discriminate|].
  destruct (white d) eqn:Hd; [exact IH|].
  simpl. now intros [= <-].
Qed.

Lemma rstrip_last (s : list N) (c : N) :
  last_char (rstrip_of white s) = Some c -> white c = false.
Proof.
  induction s as [|d s IH]; simpl; [discriminate|].
  destruct (rstrip_of white s) as [|e r] eqn:Er.
  - destruct (white d) eqn:Hd; simpl; [discriminate|].
    now intros [= <-].
  - exact IH.
Qed.

Lemma lstrip_last (s : list N) (c : N) :
  last_char (lstrip_of white s) = Some c -> last_char s = Some c.
Proof.
  induction s as [|d s IH]; simpl; [discriminate|].
  destruct (white d) eqn:Hd.
  - intros H. specialize (IH H). destruct s; [discriminate | exact IH].
  - auto.
Qed.

Lemma lstrip_fixed (s : list N) :
  (forall c, first_char s = Some c -> white c = false) ->
  lstrip_of white s = s.
Proof.
  destruct s as [|c s]; simpl; [reflexivity|].
  intros H. now rewrite (H c eq_refl).
Qed.

Lemma rstrip_fixed (s : list N) :
  (forall c, last_char s = Some c -> white c = false) ->
  rstrip_of white s = s.
Proof.
  induction s as [|c s IH]; simpl; [reflexivity|].
  intros H. destruct s as [|d s].
  - simpl. now rewrite (H c eq_refl).
  - rewrite IH; [reflexivity | exact H].
Qed.

Lemma lstrip_all_space (s : list N) :
  all white s = true -> lstrip_of white s = [].
Proof.
  induction s as [|c s IH]; simpl; [reflexivity|].
  rewrite andb_true_iff. intros [-> Hs]. auto.
Qed.

Lemma rstrip_all_space (s : list N) :
  all white s = true -> rstrip_of white s = [].
Proof.
  induction s as [|c s IH]; simpl; [reflexivity|].
  rewrite andb_true_iff. intros [Hc Hs]. now rewrite (IH Hs), Hc.
Qed.

Lemma strip_of_blank (s : list N) :
  strip_of white s = [] <-> all white s = true.
Proof.
  split.
  - intros H. destruct (strip_split s) as (ws & ws' & E & Hws & Hws').
    rewrite H in E. rewrite E. simpl. now rewrite all_append, Hws, Hws'.
  - intros H. unfold strip_of. now rewrite (rstrip_all_space s H).
Qed.

Lemma strip_of_strip_of (s : list N) :
  strip_of white (strip_of white s) = strip_of white s.
Proof.
  unfold strip_of at 1. rewrite rstrip_fixed.
  - apply lstrip_fixed. intros c. apply lstrip_first.
  - intros c H. unfold strip_of in H. apply lstrip_last in H.
    now apply rstrip_last in H.
Qed.

End StripFacts.

Lemma strip_stripped (s : list N) : stripped (strip s).
Proof.
  split; intros c H.
  - now apply (lstrip_first isspace) in H.
  - apply (lstrip_last isspace) in H. now apply (rstrip_last isspace) in H.
Qed.

Lemma stripped_fixed (s : list N) : stripped s -> strip s = s.
Proof.
  intros [Hf Hl]. unfold strip, strip_of.
  rewrite (rstrip_fixed isspace s Hl). now apply lstrip_fixed.
Qed.

Lemma strip_blank (s : list N) : strip s = [] <-> all isspace s = true.
Proof. apply strip_of_blank. Qed.

Lemma strip_strip (s : list N) : strip (strip s) = strip s.
Proof. apply strip_of_strip_of. Qed.

(** A stripped text keeps what the text holds. *)
Lemma strip_In (s : list N) (c : N) : In c (strip s) -> In c s.
Proof.
  intros H. destruct (strip_split isspace s) as (ws & ws' & E & _).
  rewrite E. apply in_or_app. right. apply in_or_app. now left.
Qed.

Lemma strip_legal (s : list N) : legal s -> legal (strip s).
Proof.
  unfold legal. rewrite !all_In. intros H c Hc. apply H.
  now apply strip_In.
Qed.

Lemma contains_strip (c : N) (s : list N) :
  contains c s = false -> contains c (strip s) = false.
Proof.
  intros H. destruct (contains c (strip s)) eqn:E; [|reflexivity].
  apply contains_In, strip_In, contains_In in E. congruence.
Qed.

(** ** Characters *)

Module CharFacts.

(** Where the decimal digits lie. *)
Lemma isdecimal_range (c : N) :
  isdecimal c = true ->
  (48 <= c <= 57 \/ 1632 <= c <= 44025 \/ 65296 <= c <= 65305
   \/ 66720 <= c)%N.
Proof.
  unfold isdecimal. intros H. apply existsb_exists in H.
  destruct H as (start & Hin & Hrun).
  unfold in_run in Hrun. apply andb_true_iff in Hrun.
  destruct Hrun as [Hlo Hhi].
  apply N.leb_le in Hlo. apply N.ltb_lt in Hhi.
  unfold decimal_starts in Hin. simpl in Hin.
  repeat (destruct Hin as [<- | Hin]; [lia|]). contradiction.
Qed.

Lemma isspace_cases (c : N) :
  isspace c = true -> In c space_chars.
Proof.
  unfold isspace. intros H. apply existsb_exists in H.
  destruct H as (d & Hin & Hd). apply N.eqb_eq in Hd. now subst.
Qed.

Lemma isspace_range (c : N) :
  isspace c = true ->
  (9 <= c <= 13 \/ 28 <= c <= 32 \/ c = 133 \/ c = 160
   \/ 5760 <= c <= 12288)%N.
Proof.
  intros H. apply isspace_cases in H. unfold space_chars in H.
  simpl in H. repeat (destruct H as [<- | H]; [lia|]). contradiction.
Qed.

Lemma decimal_not_space (c : N) : isdecimal c = true -> isspace c = false.
Proof.
  intros H. destruct (isspace c) eqn:E; [|reflexivity].
  apply isspace_cases in E. unfold space_chars in E. simpl in E.
  repeat (destruct E as [<- | E]; [discriminate H|]). contradiction.
Qed.

Lemma decimal_value_lt (c : N) :
  isdecimal c = true -> (decimal_value c < 10)%N.
Proof.
  unfold isdecimal, decimal_value.
  induction decimal_starts as [|start l IH]; simpl; [discriminate|].
  destruct (in_run c start) eqn:E; simpl; [intros _ | exact IH].
  unfold in_run in E. apply andb_true_iff in E. destruct E as [Hlo Hhi].
  apply N.leb_le in Hlo. apply N.ltb_lt in Hhi. lia.
Qed.

Lemma xml_char_spec (c : N) :
  Docx.xml_char c = true <->
  ((32 <= c \/ c = 9 \/ c = 10 \/ c = 13)
   /\ ~ (55296 <= c <= 57343) /\ c <> 65534 /\ c <> 65535)%N.
Proof.
  unfold Docx.xml_char.
  rewrite !andb_true_iff, !negb_true_iff, !orb_true_iff.
  rewrite andb_false_iff, orb_false_iff.
  rewrite !N.leb_le, !N.eqb_eq, !N.leb_gt, !N.eqb_neq. lia.
Qed.

(** A character of a price: a decimal digit or a point. *)
Lemma digit_or_dot_spec (c : N) :
  cls_mem digit_or_dot c = true <->
  (isdecimal c = true /\ c <> 46%N) \/ (isdecimal c = false /\ c = 46%N).
Proof.
  cbn [cls_mem digit_or_dot]. change (N_of_ascii ".") with 46%N.
  rewrite orb_true_iff, N.eqb_eq. split.
  - intros [H | <-].
    + left. split; [exact H|]. apply isdecimal_range in H. lia.
    + right. split; reflexivity.
  - intros [[H _] | [_ ->]]; auto.
Qed.

Lemma digit_or_dot_range (c : N) :
  cls_mem digit_or_dot c = true ->
  (48 <= c <= 57 \/ 1632 <= c <= 44025 \/ 65296 <= c <= 65305
   \/ 66720 <= c \/ c = 46)%N.
Proof.
  intros H. apply digit_or_dot_spec in H.
  destruct H as [[H _] | [_ ->]]; [apply isdecimal_range in H|]; lia.
Qed.

(** It is no white space, none of the characters XML refuses, neither
    ["$"] nor a line feed, and below 127 an ASCII digit or the point. *)
Lemma digit_or_dot_char (c : N) :
  cls_mem digit_or_dot c = true ->
  isspace c = false
  /\ Docx.xml_char c = true
  /\ c <> 36%N /\ c <> 10%N
  /\ (c < 127 -> PyFloat.c_isdigit c = true \/ c = 46)%N.
Proof.
  intros H. apply digit_or_dot_spec in H.
  assert (R : (48 <= c <= 57 \/ 1632 <= c <= 44025 \/ 65296 <= c <= 65305
               \/ 66720 <= c \/ c = 46)%N).
  { destruct H as [[H _] | [_ ->]]; [apply isdecimal_range in H|]; lia. }
  split; [|split; [|split; [|split]]].
  - destruct H as [[H _] | [_ ->]]; [now apply decimal_not_space|reflexivity].
  - apply xml_char_spec. lia.
  - lia.
  - lia.
  - intros Hlt. unfold PyFloat.c_isdigit.
    destruct (N.eq_dec c 46) as [->|Hne]; [now right|left].
    apply andb_true_iff. rewrite !N.leb_le. lia.
Qed.

End CharFacts.

(** ** The matcher is sound for the words of a pattern *)

Module ReFacts.

Lemma words_prefix (r : re) :
  forall s g s' g', words r s g s' g' -> exists w, s = w ++ s'.
Proof.
  induction r as [|k|r1 IH1 r2 IH2|r1 IH1 r2 IH2|r1 IH1|k min gr|n r1 IH1];
    simpl; intros s g s' g' H.
  - destruct H as [-> _]. now exists [].
  - destruct H as (c & -> & _). now exists [c].
  - destruct H as (s1 & g1 & H1 & H2).
    destruct (IH1 _ _ _ _ H1) as [w1 ->], (IH2 _ _ _ _ H2) as [w2 ->].
    exists (w1 ++ w2). now rewrite app_assoc.
  - destruct H as [H|H]; eauto.
  - destruct H as [H|[-> _]]; eauto. now exists [].
  - destruct H as (w & -> & _). now exists w.
  - destruct H as (w & g1 & -> & _). now exists w.
Qed.

Section Soundness.

Variable A : Type.
Implicit Types (kont : list N -> captures -> option A) (a : A).

Lemma rep_lazy_sound k : forall s min g kont a,
  rep_lazy k min s g kont = Some a ->
  exists w s', s = w ++ s' /\ all (cls_mem k) w = true
               /\ min <= length w /\ kont s' g = Some a.
Proof.
  induction s as [|c s IH]; intros [|m] g kont a; simpl.
  - destruct (kont [] g) eqn:E; [|discriminate].
    intros [= ->]. exists [], []. auto.
  - discriminate.
  - destruct (kont (c :: s) g) eqn:E.
    + intros [= ->]. exists [], (c :: s). auto.
    + destruct (cls_mem k c) eqn:Hc; [|discriminate].
      intros H. destruct (IH _ _ _ _ H) as (w & s' & -> & Hw & _ & Hk).
      exists (c :: w), s'. simpl. rewrite Hc, Hw.
      repeat split; auto. lia.
  - destruct (cls_mem k c) eqn:Hc; [|discriminate].
    intros H. destruct (IH _ _ _ _ H) as (w & s' & -> & Hw & Hm & Hk).
    exists (c :: w), s'. simpl. rewrite Hc, Hw.
    repeat split; auto. lia.
Qed.

Lemma rep_greedy_sound k : forall s min g kont a,
  rep_greedy k min s g kont = Some a ->
  exists w s', s = w ++ s' /\ all (cls_mem k) w = true
               /\ min <= length w /\ kont s' g = Some a.
Proof.
  assert (Hstop : forall s min g kont a,
    match min with O => kont s g | S _ => None end = Some a ->
    exists w s', s = w ++ s' /\ all (cls_mem k) w = true
                 /\ min <= length w /\ kont s' g = Some a).
  { intros s [|m] g kont a H; [|discriminate]. exists [], s. auto. }
  induction s as [|c s IH]; intros min g kont a; simpl.
  - apply Hstop.
  - destruct (cls_mem k c) eqn:Hc; [|apply Hstop].
    destruct (rep_greedy k (Nat.pred min) s g kont) eqn:E; [|apply Hstop].
    intros [= ->].
    destruct (IH _ _ _ _ E) as (w & s' & -> & Hw & Hm & Hk).
    exists (c :: w), s'. simpl. rewrite Hc, Hw.
    repeat split; auto. lia.
Qed.

Theorem run_sound (r : re) : forall s g kont a,
  run r s g kont = Some a ->
  exists s' g', words r s g s' g' /\ kont s' g' = Some a.
Proof.
  induction r as [|k|r1 IH1 r2 IH2|r1 IH1 r2 IH2|r1 IH1|k min gr|n r1 IH1];
    simpl; intros s g kont a H.
  - eauto.
  - destruct s as [|c s]; [discriminate|].
    destruct (cls_mem k c) eqn:Hc; [|discriminate]. eauto 8.
  - destruct (IH1 _ _ _ _ H) as (s1 & g1 & H1 & H').
    destruct (IH2 _ _ _ _ H') as (s2 & g2 & H2 & Hk). eauto 8.
  - destruct (run r1 s g kont) eqn:E.
    + injection H as ->.
      destruct (IH1 _ _ _ _ E) as (s1 & g1 & H1 & Hk). eauto.
    + destruct (IH2 _ _ _ _ H) as (s1 & g1 & H1 & Hk). eauto.
  - destruct (run r1 s g kont) eqn:E.
    + injection H as ->.
      destruct (IH1 _ _ _ _ E) as (s1 & g1 & H1 & Hk). eauto.
    + eauto 8.
  - destruct gr;
      [apply rep_greedy_sound in H | apply rep_lazy_sound in H];
      destruct H as (w & s' & -> & Hw & Hm & Hk); eauto 10.
  - destruct (IH1 _ _ _ _ H) as (s1 & g1 & H1 & Hk).
    destruct (words_prefix _ _ _ _ _ H1) as [w ->].
    rewrite take_append in Hk. eauto 10.
Qed.

End Soundness.

End ReFacts.

(** ** What the two patterns capture *)

Module PatternFacts.

Import ReFacts CharFacts.

Lemma words_group_free (r : re) :
  group_free r = true ->
  forall s g s' g', words r s g s' g' -> g' = g.
Proof.
  induction r as [|k|r1 IH1 r2 IH2|r1 IH1 r2 IH2|r1 IH1|k min gr|n r1 IH1];
    simpl; intros Hr s g s' g' H;
    try (apply andb_true_iff in Hr; destruct Hr as [Hr1 Hr2]).
  - tauto.
  - now destruct H as (c & _ & _ & ->).
  - destruct H as (s1 & g1 & H1 & H2).
    rewrite (IH2 Hr2 _ _ _ _ H2). eauto.
  - destruct H as [H|H]; eauto.
  - destruct H as [H|[_ ->]]; eauto.
  - now destruct H as (w & _ & _ & _ & ->).
  - discriminate.
Qed.

Lemma contains_app_r (c : N) (u v : list N) :
  contains c v = true -> contains c (u ++ v) = true.
Proof. intros H. rewrite contains_append, H. apply orb_true_r. Qed.

Lemma nonempty_length (w : list N) : 1 <= length w -> w <> [].
Proof. destruct w; simpl; [lia | discriminate]. Qed.

Lemma full_match_shape (text : list N) (m : captures) :
  match_ pattern_full text = Some m ->
  exists name qty price,
    groups pattern_full m = [Some name; Some qty; Some price]
    /\ price_shape price /\ contains "$" text = true.
Proof.
  unfold match_. intros H. apply run_sound in H.
  destruct H as (s' & g' & H & [= <-]).
  cbn [pattern_full regex words] in H.
  destruct H as (s1 & g1 & (name & g0 & -> & Hname & ->) & H).
  destruct H as (s2 & g2 & Hsp & H).
  destruct H as (s3 & g3 & (qty & g2' & -> & Hqty & ->) & H).
  destruct H as (s4 & g4 & Hsp' & H).
  destruct H as (s5 & g5 & (c & -> & Hc & ->) & H).
  destruct H as (price & g6 & -> & Hprice & ->).
  apply (words_group_free qty_re eq_refl) in Hqty.
  destruct Hname as (_ & _ & _ & _ & ->).
  destruct Hsp as (ws & -> & _ & _ & ->).
  destruct Hsp' as (ws' & -> & _ & _ & ->).
  destruct Hprice as (w & Hw & Hall & Hlen & ->).
  subst g2'.
  apply app_inv_tail in Hw. subst w.
  exists name, qty, price. split; [reflexivity|]. split.
  - split; [now apply nonempty_length | exact Hall].
  - cbn [cls_mem] in Hc. apply N.eqb_eq in Hc. subst c.
    do 4 apply contains_app_r. simpl. reflexivity.
Qed.

Lemma short_match_shape (text : list N) (m : captures) :
  match_ pattern_short text = Some m ->
  exists name price,
    groups pattern_short m = [Some name; Some price]
    /\ price_shape price /\ contains "$" text = true.
Proof.
  unfold match_. intros H. apply run_sound in H.
  destruct H as (s' & g' & H & [= <-]).
  cbn [pattern_short regex words] in H.
  destruct H as (s1 & g1 & (name & g0 & -> & Hname & ->) & H).
  destruct H as (s2 & g2 & Hsp & H).
  destruct H as (s3 & g3 & (c & -> & Hc & ->) & H).
  destruct H as (price & g4 & -> & Hprice & ->).
  destruct Hname as (_ & _ & _ & _ & ->).
  destruct Hsp as (ws & -> & _ & _ & ->).
  destruct Hprice as (w & Hw & Hall & Hlen & ->).
  apply app_inv_tail in Hw. subst w.
  exists name, price. split; [reflexivity|]. split.
  - split; [now apply nonempty_length | exact Hall].
  - cbn [cls_mem] in Hc. apply N.eqb_eq in Hc. subst c.
    do 2 apply contains_app_r. simpl. reflexivity.
Qed.

(** Without a ["$"] in the text neither pattern matches. *)
Lemma no_dollar_no_match (text : list N) :
  contains "$" text = false ->
  match_ pattern_full text = None /\ match_ pattern_short text = None.
Proof.
  intros H. split.
  - destruct (match_ pattern_full text) as [m|] eqn:E; [|reflexivity].
    apply full_match_shape in E. destruct E as (? & ? & ? & _ & _ & E).
    congruence.
  - destruct (match_ pattern_short text) as [m|] eqn:E; [|reflexivity].
    apply short_match_shape in E. destruct E as (? & ? & _ & _ & E).
    congruence.
Qed.

Lemma price_no_space (p : list N) :
  all (cls_mem digit_or_dot) p = true ->
  all (fun c => negb (isspace c)) p = true.
Proof.
  apply all_impl. intros c Hc.
  apply digit_or_dot_char in Hc. destruct Hc as [-> _]. reflexivity.
Qed.

Lemma price_strip (p : list N) : price_shape p -> strip p = p.
Proof. intros [_ H]. now apply (strip_id isspace), price_no_space. Qed.

Lemma price_legal (p : list N) : price_shape p -> legal ("$" ++ p).
Proof.
  intros [_ H]. unfold legal. change (all Docx.xml_char p = true).
  revert H. apply all_impl. intros c Hc. now apply digit_or_dot_char in Hc.
Qed.

End PatternFacts.

(** ** The matcher finds the words of a pattern *)

Module ReComplete.

Section Completeness.

Variable A : Type.
Implicit Types (kont : list N -> captures -> option A).

Lemma rep_lazy_complete k : forall w min s' g kont,
  all (cls_mem k) w = true -> min <= length w ->
  kont s' g <> None ->
  rep_lazy k min (w ++ s') g kont <> None.
Proof.
  induction w as [|c w IH]; intros min s' g kont Hw Hmin Hk.
  - simpl in Hmin. assert (min = 0) as -> by lia. simpl.
    destruct s' as [|d s']; simpl; destruct (kont _ g); congruence.
  - simpl in Hw. apply andb_true_iff in Hw. destruct Hw as [Hc Hw].
    simpl in Hmin. destruct min as [|m]; simpl; rewrite Hc.
    + destruct (kont (c :: w ++ s') g); [discriminate|].
      apply IH; auto. lia.
    + apply IH; auto. lia.
Qed.

Lemma rep_greedy_complete k : forall w min s' g kont,
  all (cls_mem k) w = true -> min <= length w ->
  kont s' g <> None ->
  rep_greedy k min (w ++ s') g kont <> None.
Proof.
  induction w as [|c w IH]; intros min s' g kont Hw Hmin Hk.
  - simpl in Hmin. assert (min = 0) as -> by lia. simpl.
    destruct s' as [|d s']; simpl; [exact Hk|].
    destruct (cls_mem k d); [|exact Hk].
    destruct (rep_greedy k 0 s' g kont); [discriminate | exact Hk].
  - simpl in Hw. apply andb_true_iff in Hw. destruct Hw as [Hc Hw].
    simpl in Hmin. simpl. rewrite Hc.
    specialize (IH (Nat.pred min) s' g kont Hw).
    destruct (rep_greedy k (Nat.pred min) (w ++ s') g kont);
      [discriminate|].
    exfalso. apply IH; auto. lia.
Qed.

(** The matcher finds a match whenever the pattern has a word there
    that the rest of the pattern accepts. *)
Theorem run_complete (r : re) : forall s g s' g' kont,
  words r s g s' g' -> kont s' g' <> None -> run r s g kont <> None.
Proof.
  induction r as [|k|r1 IH1 r2 IH2|r1 IH1 r2 IH2|r1 IH1|k min gr|n r1 IH1];
    simpl; intros s g s' g' kont H Hk.
  - now destruct H as [-> ->].
  - destruct H as (c & -> & Hc & ->). now rewrite Hc.
  - destruct H as (s1 & g1 & H1 & H2).
    apply (IH1 _ _ _ _ _ H1). now apply (IH2 _ _ _ _ _ H2).
  - destruct (run r1 s g kont) eqn:E; [discriminate|].
    destruct H as [H | H]; [|now apply (IH2 _ _ _ _ _ H)].
    exfalso. now apply (IH1 _ _ _ _ kont H).
  - destruct (run r1 s g kont) eqn:E; [discriminate|].
    destruct H as [H | [-> ->]]; [|exact Hk].
    exfalso. now apply (IH1 _ _ _ _ kont H).
  - destruct H as (w & -> & Hw & Hmin & ->).
    destruct gr; [now apply rep_greedy_complete
                 | now apply rep_lazy_complete].
  - destruct H as (w & g1 & -> & H1 & ->).
    apply (IH1 _ _ _ _ _ H1). now rewrite take_append.
Qed.

End Completeness.

End ReComplete.

(** ** The two patterns, part by part *)

Module PartsFacts.

Import ReFacts ReComplete PatternFacts.

Lemma words_Str (u : list N) : forall s g s' g',
  words (Str u) s g s' g' <-> s = u ++ s' /\ g' = g.
Proof.
  induction u as [|c u IH]; intros s g s' g'; cbn [Str words].
  - simpl. split; intros [-> ->]; auto.
  - split.
    + intros (s1 & g1 & (d & -> & Hd & ->) & H).
      apply IH in H. destruct H as [-> ->].
      cbn [cls_mem] in Hd. apply N.eqb_eq in Hd.
      now subst d.
    + intros [-> ->]. exists (u ++ s'), g. split.
      * exists c. repeat split. apply N.eqb_refl.
      * now apply IH.
Qed.

Lemma words_qty (s : list N) (g : captures) (s' : list N) (g' : captures) :
  words qty_re s g s' g' <-> exists q, s = q ++ s' /\ qty_shape q /\ g' = g.
Proof.
  unfold qty_re. cbn [words]. split.
  - intros (s1 & g1 & (d & -> & Hd & Hlen & ->) & s2 & g2 & Hu & Hp).
    assert (Hu' : exists u, s1 = u ++ s2
                            /\ (u = [] \/ In u unit_suffixes) /\ g2 = g).
    { destruct Hu as [[H | [H | [H | H]]] | [-> ->]];
        try (apply words_Str in H; destruct H as [-> ->]).
      - exists "kg". repeat split; auto. right. left. reflexivity.
      - exists "pcs". repeat split; auto. right. right. left. reflexivity.
      - exists "set". repeat split; auto. right. do 2 right. left.
        reflexivity.
      - exists "p". repeat split; auto. right. do 3 right. left.
        reflexivity.
      - exists []. auto. }
    destruct Hu' as (u & -> & Hu' & ->).
    assert (Hp' : exists p, s2 = p ++ s' /\ (p = [] \/ p = ".") /\ g' = g).
    { destruct Hp as [(c & -> & Hc & ->) | [-> ->]].
      - cbn [cls_mem] in Hc. apply N.eqb_eq in Hc.
        subst c. exists ".". auto.
      - exists []. auto. }
    destruct Hp' as (p & -> & Hp' & ->).
    exists (d ++ u ++ p). split; [now rewrite <- !app_assoc|].
    split; [|reflexivity].
    exists d, u, p. repeat split; auto. now apply nonempty_length.
  - intros (q & -> & (d & u & p & -> & [Hne Hd] & Hu & Hp) & ->).
    exists (u ++ p ++ s'), g. split.
    + exists d. rewrite <- !app_assoc. repeat split; auto.
      destruct d; simpl; [easy | lia].
    + exists (p ++ s'), g. split.
      * destruct Hu as [-> | [<- | [<- | [<- | [<- | []]]]]];
          [right; auto | left ..].
        -- left. now apply words_Str.
        -- right. left. now apply words_Str.
        -- right. right. left. now apply words_Str.
        -- right. right. right. now apply words_Str.
      * destruct Hp as [-> | ->]; [right; auto | left].
        exists (N_of_ascii "."). auto.
Qed.

(** The words of the full pattern, from the start of a text. *)
Lemma words_full (text s' : list N) (g' : captures) :
  words (regex pattern_full) text [] s' g'
  <-> exists name qty price ws ws',
      text = name ++ ws ++ qty ++ ws' ++ "$" ++ price ++ s'
      /\ g' = [(3, price); (2, qty); (1, name)]
      /\ name <> [] /\ all (cls_mem Any) name = true
      /\ ws <> [] /\ all isspace ws = true
      /\ qty_shape qty
      /\ all isspace ws' = true
      /\ price_shape price.
Proof.
  change (regex pattern_full)
    with (Group 1 (Rep Any 1 false) ;; Rep Space 1 true ;; Group 2 qty_re ;;
          Rep Space 0 true ;; Atom (Lit "$"%char) ;;
          Group 3 (Rep digit_or_dot 1 true)).
  cbn [words]. split.
  - intros (s1 & g1 & (name & g0 & -> & Hname & ->) & H).
    destruct H as (s2 & g2 & (ws & -> & Hws & Hwl & ->) & H).
    destruct H as (s3 & g3 & (qty & g2' & -> & Hqty & ->) & H).
    destruct H as (s4 & g4 & (ws' & -> & Hws' & _ & ->) & H).
    destruct H as (s5 & g5 & (c & -> & Hc & ->) & H).
    destruct H as (price & g6 & -> & (w & Hw & Hall & Hlen & ->) & ->).
    apply app_inv_tail in Hw. subst w.
    destruct Hname as (w & Hw & Hnall & Hnlen & ->).
    apply app_inv_tail in Hw. subst w.
    apply words_qty in Hqty. destruct Hqty as (q & Hq & Hqs & ->).
    apply app_inv_tail in Hq. subst q.
    cbn [cls_mem] in Hc. apply N.eqb_eq in Hc. subst c.
    exists name, qty, price, ws, ws'.
    repeat split; auto using nonempty_length.
  - intros (name & qty & price & ws & ws' & -> & -> & Hn & Hnall & Hw & Hwall
            & Hq & Hwall' & [Hp Hpall]).
    assert (Hlen : forall u : list N, u <> [] -> 1 <= length u).
    { intros [|c u] H; simpl; [easy | lia]. }
    eexists _, _. split.
    { exists name, []. split; [reflexivity|]. split; [|reflexivity].
      exists name. repeat split; auto. }
    eexists _, _. split.
    { exists ws. repeat split; auto. }
    eexists _, _. split.
    { exists qty, [(1, name)]. split; [reflexivity|]. split; [|reflexivity].
      apply words_qty. exists qty. auto. }
    eexists _, _. split.
    { exists ws'. repeat split; auto. lia. }
    eexists _, _. split.
    { exists (N_of_ascii "$"). repeat split. }
    exists price, [(2, qty); (1, name)]. split; [reflexivity|].
    split; [|reflexivity].
    exists price. repeat split; auto.
Qed.

(** The words of the short pattern, from the start of a text. *)
Lemma words_short (text s' : list N) (g' : captures) :
  words (regex pattern_short) text [] s' g'
  <-> exists name price ws,
      text = name ++ ws ++ "$" ++ price ++ s'
      /\ g' = [(2, price); (1, name)]
      /\ name <> [] /\ all (cls_mem Any) name = true
      /\ all isspace ws = true
      /\ price_shape price.
Proof.
  cbn [pattern_short regex words]. split.
  - intros (s1 & g1 & (name & g0 & -> & Hname & ->) & H).
    destruct H as (s2 & g2 & (ws & -> & Hws & _ & ->) & H).
    destruct H as (s3 & g3 & (c & -> & Hc & ->) & H).
    destruct H as (price & g4 & -> & (w & Hw & Hall & Hlen & ->) & ->).
    apply app_inv_tail in Hw. subst w.
    destruct Hname as (w & Hw & Hnall & Hnlen & ->).
    apply app_inv_tail in Hw. subst w.
    cbn [cls_mem] in Hc. apply N.eqb_eq in Hc. subst c.
    exists name, price, ws.
    repeat split; auto using nonempty_length.
  - intros (name & price & ws & -> & -> & Hn & Hnall & Hwall & [Hp Hpall]).
    assert (Hlen : forall u : list N, u <> [] -> 1 <= length u).
    { intros [|c u] H; simpl; [easy | lia]. }
    eexists _, _. split.
    { exists name, []. split; [reflexivity|]. split; [|reflexivity].
      exists name. repeat split; auto. }
    eexists _, _. split.
    { exists ws. repeat split; auto. lia. }
    eexists _, _. split.
    { exists (N_of_ascii "$"). repeat split. }
    exists price, [(1, name)]. split; [reflexivity|].
    split; [|reflexivity].
    exists price. repeat split; auto.
Qed.

Lemma full_match_parts (text : list N) (m : captures) :
  match_ pattern_full text = Some m ->
  exists name qty price,
    groups pattern_full m = [Some name; Some qty; Some price]
    /\ full_parts text name qty price.
Proof.
  intros H. unfold match_ in H. apply run_sound in H.
  destruct H as (s' & g' & H & [= <-]).
  apply words_full in H.
  destruct H as (name & qty & price & ws & ws' & H & -> & Hrest).
  exists name, qty, price. split; [reflexivity|].
  exists ws, ws', s'. tauto.
Qed.

Lemma full_parts_match (text name qty price : list N) :
  full_parts text name qty price -> match_ pattern_full text <> None.
Proof.
  intros (ws & ws' & rest & H & Hrest). unfold match_.
  apply run_complete
    with (s' := rest) (g' := [(3, price); (2, qty); (1, name)]);
    [|discriminate].
  apply words_full. exists name, qty, price, ws, ws'. tauto.
Qed.

Lemma short_match_parts (text : list N) (m : captures) :
  match_ pattern_short text = Some m ->
  exists name price,
    groups pattern_short m = [Some name; Some price]
    /\ short_parts text name price.
Proof.
  intros H. unfold match_ in H. apply run_sound in H.
  destruct H as (s' & g' & H & [= <-]).
  apply words_short in H.
  destruct H as (name & price & ws & H & -> & Hrest).
  exists name, price. split; [reflexivity|].
  exists ws, s'. tauto.
Qed.

Lemma short_parts_match (text name price : list N) :
  short_parts text name price -> match_ pattern_short text <> None.
Proof.
  intros (ws & rest & H & Hrest). unfold match_.
  apply run_complete
    with (s' := rest) (g' := [(2, price); (1, name)]);
    [|discriminate].
  apply words_short. exists name, price, ws. tauto.
Qed.

End PartsFacts.

(** ** The fields of a row *)

Module FieldFacts.

Import CharFacts PatternFacts PartsFacts.

Lemma suffix_cases (u : list N) :
  u = [] \/ In u unit_suffixes ->
  u = [] \/ u = "kg" \/ u = "pcs" \/ u = "set" \/ u = "p".
Proof.
  intros [-> | [<- | [<- | [<- | [<- | []]]]]]; auto 10.
Qed.

Lemma qty_chars (q : list N) (P : N -> bool) :
  (forall c, cls_mem digit_or_dot c = true -> P c = true) ->
  all P "kgpcsset" = true ->
  qty_shape q -> all P q = true.
Proof.
  intros Hd Hl (d & u & p & -> & [_ Hdd] & Hu & Hp).
  rewrite !all_append. rewrite (all_impl _ _ d Hd Hdd).
  vm_compute in Hl.
  assert (Hdot : P 46%N = true) by (apply Hd; reflexivity).
  destruct (P 107%N) eqn:E1; [|discriminate].
  destruct (P 103%N) eqn:E2; [|discriminate].
  destruct (P 112%N) eqn:E3; [|discriminate].
  destruct (P 99%N) eqn:E4; [|discriminate].
  destruct (P 115%N) eqn:E5; [|discriminate].
  destruct (P 101%N) eqn:E6; [|discriminate].
  destruct (P 116%N) eqn:E7; [|discriminate].
  apply suffix_cases in Hu.
  assert (all P u = true) as ->.
  { destruct Hu as [-> | [-> | [-> | [-> | ->]]]]; vm_compute;
      rewrite ?E1, ?E2, ?E3, ?E4, ?E5, ?E6, ?E7; reflexivity. }
  assert (all P p = true) as ->.
  { destruct Hp as [-> | ->]; vm_compute; rewrite ?Hdot; reflexivity. }
  reflexivity.
Qed.

Lemma qty_no_space (q : list N) :
  qty_shape q -> all (fun c => negb (isspace c)) q = true.
Proof.
  apply qty_chars; [|reflexivity].
  intros c Hc. apply digit_or_dot_char in Hc. now destruct Hc as [-> _].
Qed.

Lemma qty_strip (q : list N) : qty_shape q -> strip q = q.
Proof. intros H. now apply (strip_id isspace), qty_no_space. Qed.

Lemma qty_legal (q : list N) : qty_shape q -> legal q.
Proof.
  apply qty_chars; [|reflexivity].
  intros c Hc. now apply digit_or_dot_char in Hc.
Qed.

Lemma qty_no_dollar (q : list N) : qty_shape q -> contains "$" q = false.
Proof.
  intros H. destruct (contains "$" q) eqn:E; [|reflexivity].
  apply contains_In in E.
  apply (qty_chars q (fun c => negb (N.eqb c 36))) in H; [|intros c Hc|reflexivity].
  - rewrite all_In in H. apply H in E. discriminate.
  - apply digit_or_dot_char in Hc. apply negb_true_iff, N.eqb_neq. tauto.
Qed.

(** The fields of an item on a text with one ["$"]. *)
Lemma item_match_fields (text name qty price : list N) :
  count "$" text = 1 ->
  item_match text name qty price ->
  contains "$" name = false
  /\ (qty = [] \/ qty_shape qty)
  /\ price_shape price
  /\ exists pre post,
      text = pre ++ "$" ++ post /\ pre <> [] /\ starts_price post = true.
Proof.
  intros Hone Hm.
  assert (Hname : forall rest,
             text = name ++ rest -> contains "$" rest = true ->
             contains "$" name = false).
  { intros rest -> Hrest. apply contains_count.
    rewrite count_append in Hone.
    destruct (count "$" rest) eqn:E; [|lia].
    apply contains_count in E. congruence. }
  assert (Hstart : forall p rest,
             price_shape p -> starts_price (p ++ rest) = true).
  { intros [|c p] rest [Hne Hp]; [easy|]. simpl in *.
    now apply andb_true_iff in Hp. }
  assert (Hpre : forall u : list N, name <> [] -> name ++ u <> []).
  { intros u Hn. destruct name; [easy | discriminate]. }
  destruct Hm as [m name qty price Hf Hg | m name price _ Hs Hg].
  - destruct (full_match_parts _ _ Hf) as (n & q & p & Hg' & Hparts).
    rewrite Hg in Hg'. injection Hg' as <- <- <-.
    destruct Hparts as (ws & ws' & rest & E & Hn & _ & _ & _ & Hq & _ & Hp).
    split; [|split; [auto | split; [exact Hp|]]].
    + apply (Hname _ E). do 3 apply contains_app_r. reflexivity.
    + exists (name ++ ws ++ qty ++ ws'), (price ++ rest).
      rewrite <- !app_assoc. auto.
  - destruct (short_match_parts _ _ Hs) as (n & p & Hg' & Hparts).
    rewrite Hg in Hg'. injection Hg' as <- <-.
    destruct Hparts as (ws & rest & E & Hn & _ & _ & Hp).
    split; [|split; [auto | split; [exact Hp|]]].
    + apply (Hname _ E). apply contains_app_r. reflexivity.
    + exists (name ++ ws), (price ++ rest).
      rewrite <- !app_assoc. auto.
Qed.

(** The fields of an item, whatever the number of ["$"]: the name
    begins the text. *)
Lemma item_match_parts (text name qty price : list N) :
  item_match text name qty price ->
  (qty = [] \/ qty_shape qty)
  /\ price_shape price
  /\ name <> []
  /\ exists rest, text = name ++ rest.
Proof.
  intros [m n q p Hf Hg | m n p _ Hs Hg].
  - destruct (full_match_parts _ _ Hf) as (n' & q' & p' & Hg' & Hparts).
    rewrite Hg in Hg'. injection Hg' as <- <- <-.
    destruct Hparts as (ws & ws' & rest & E & Hn & _ & _ & _ & Hq & _ & Hp).
    eauto 10.
  - destruct (short_match_parts _ _ Hs) as (n' & p' & Hg' & Hparts).
    rewrite Hg in Hg'. injection Hg' as <- <-.
    destruct Hparts as (ws & rest & E & Hn & _ & _ & Hp).
    eauto 10.
Qed.

(** A text with one ["$"] splits around it in one way only. *)
Lemma dollar_split_unique : forall u v u' v' : list N,
  u ++ "$" ++ v = u' ++ "$" ++ v' ->
  contains "$" u = false -> contains "$" v = false ->
  u = u' /\ v = v'.
Proof.
  induction u as [|c u IH]; intros v [|c' u'] v' E Hu Hv; simpl in E.
  - injection E as ->. auto.
  - injection E as <- ->. exfalso.
    rewrite contains_app_r in Hv by reflexivity. discriminate.
  - injection E as -> _. simpl in Hu. discriminate.
  - injection E as <- E. simpl in Hu. apply orb_false_iff in Hu.
    destruct (IH _ _ _ E (proj2 Hu) Hv) as [-> ->]. auto.
Qed.

Lemma no_newline_all_any (s : list N) :
  contains "010" s = false -> all (cls_mem Any) s = true.
Proof.
  induction s as [|c s IH]; cbn [all contains]; [reflexivity|].
  intros H. apply orb_false_iff in H. destruct H as [Hc Hs].
  rewrite (IH Hs), andb_true_r. cbn [cls_mem].
  rewrite N.eqb_sym. change (N_of_ascii "010") with 10%N in Hc.
  now rewrite Hc.
Qed.

End FieldFacts.

(** ** [float] on the text of a price *)

Module PriceFacts.

Import CharFacts PatternFacts.

Lemma plain_price_char_cases (c : N) :
  plain_price_char c = true ->
  (PyFloat.c_isdigit c = true /\ c <> 46%N /\ (48 <= c <= 57)%N)
  \/ (PyFloat.c_isdigit c = false /\ c = 46%N).
Proof.
  unfold plain_price_char, PyFloat.c_isdigit.
  rewrite orb_true_iff, andb_true_iff, !N.leb_le, N.eqb_eq.
  intros [[H1 H2] | ->].
  - left. lia.
  - right. split; reflexivity.
Qed.

Lemma ascii_digit_price (c : N) :
  cls_mem digit_or_dot c = true ->
  plain_price_char (ascii_digit c) = true
  /\ N.eqb 46 (ascii_digit c) = N.eqb 46 c.
Proof.
  intros H. pose proof (digit_or_dot_range c H) as R.
  apply digit_or_dot_spec in H. unfold ascii_digit.
  destruct (N.ltb_spec c 127) as [Hlt | Hge].
  - split; [|reflexivity]. unfold plain_price_char, PyFloat.c_isdigit.
    rewrite orb_true_iff, andb_true_iff, !N.leb_le, N.eqb_eq. lia.
  - destruct H as [[H _] | [_ ->]]; [|lia].
    apply decimal_value_lt in H. split.
    + unfold plain_price_char, PyFloat.c_isdigit.
      rewrite orb_true_iff, andb_true_iff, !N.leb_le, N.eqb_eq. lia.
    + transitivity false; [|symmetry]; apply N.eqb_neq; lia.
Qed.

Lemma transform_price (p : list N) :
  all (cls_mem digit_or_dot) p = true ->
  PyFloat.transform p = map ascii_digit p.
Proof.
  induction p as [|c p IH]; cbn [all PyFloat.transform map];
    [reflexivity|].
  rewrite andb_true_iff. intros [Hc Hp]. rewrite (IH Hp).
  change (ascii_digit c)
    with (if (c <? 127)%N then c else (48 + decimal_value c)%N).
  destruct (N.ltb_spec c 127) as [Hlt | Hge]; [reflexivity|].
  pose proof (digit_or_dot_char c Hc) as (-> & _).
  apply digit_or_dot_spec in Hc. destruct Hc as [[-> _] | [_ ->]]; [|lia].
  reflexivity.
Qed.

Lemma to_ascii_price (p : list N) :
  all (cls_mem digit_or_dot) p = true ->
  PyFloat.to_ascii p = map ascii_digit p.
Proof.
  intros Hp. unfold PyFloat.to_ascii.
  destruct (all (fun c => (c <? 128)%N) p) eqn:E;
    [|now apply transform_price].
  clear -Hp E. induction p as [|c p IH]; cbn [all map] in *; [reflexivity|].
  apply andb_true_iff in Hp, E. destruct Hp as [Hc Hp], E as [Ec E].
  rewrite <- (IH Hp E). f_equal. unfold ascii_digit.
  apply digit_or_dot_range in Hc. apply N.ltb_lt in Ec.
  destruct (N.ltb_spec c 127); [reflexivity | lia].
Qed.

Lemma ascii_price (p : list N) :
  all (cls_mem digit_or_dot) p = true ->
  all plain_price_char (map ascii_digit p) = true
  /\ count "." (map ascii_digit p) = count "." p.
Proof.
  change (N_of_ascii ".") with 46%N.
  induction p as [|c p IH]; cbn [all map count]; [auto|].
  rewrite andb_true_iff. intros [Hc Hp].
  destruct (IH Hp) as [-> ->].
  destruct (ascii_digit_price c Hc) as [-> ->]. auto.
Qed.

Lemma digitpart_price : forall s acc n,
  all plain_price_char s = true ->
  exists a m r,
    PyFloat.digitpart s acc n = (a, m, r)
    /\ all plain_price_char r = true
    /\ (r = [] \/ exists r', r = 46%N :: r')
    /\ length s + n = length r + m
    /\ count 46%N s = count 46%N r.
Proof.
  induction s as [|c s IH]; intros acc n Hs.
  - exists acc, n, []. simpl. auto.
  - pose proof Hs as Hs0. simpl in Hs. apply andb_true_iff in Hs.
    destruct Hs as [Hc Hs].
    destruct (plain_price_char_cases c Hc) as [(Hd & Hdot & _) | [Hd ->]].
    + destruct (IH (10 * acc + PyFloat.digit_value c)%Z (S n) Hs)
        as (a & m & r & E & Hr & Hhd & Hlen & Hcnt).
      exists a, m, r. cbn [PyFloat.digitpart]. rewrite Hd.
      repeat split; auto.
      * simpl. lia.
      * cbn [count]. apply not_eq_sym, N.eqb_neq in Hdot.
        rewrite Hdot. exact Hcnt.
    + exists acc, n, (46%N :: s). repeat split; eauto.
Qed.

Lemma floatnumber_price (p : list N) :
  p <> [] -> all plain_price_char p = true ->
  PyFloat.floatnumber p = None
  <-> (1 < count 46%N p \/ count 46%N p = length p).
Proof.
  intros Hne Hp. unfold PyFloat.floatnumber.
  destruct (digitpart_price p 0%Z 0 Hp)
    as (ip & ni & r1 & -> & Hr1 & Hhd1 & Hlen1 & Hcnt1).
  destruct Hhd1 as [-> | [r ->]].
  - (* digits only *)
    simpl in *. assert (0 < length p) by (destruct p; simpl; [easy | lia]).
    destruct (ni + 0 =? 0)%nat eqn:E.
    + apply Nat.eqb_eq in E. lia.
    + split; [discriminate | lia].
  - (* a point after the integer part *)
    simpl in Hr1.
    destruct (digitpart_price r ip 0 Hr1)
      as (m & nf & r2 & E2 & Hr2 & Hhd2 & Hlen2 & Hcnt2).
    change (N_of_ascii ".") with 46%N. rewrite N.eqb_refl, E2.
    cbn [count length] in *. rewrite N.eqb_refl in Hcnt1.
    destruct (ni + nf =? 0)%nat eqn:E.
    + apply Nat.eqb_eq in E. split; [intros _ | reflexivity].
      destruct Hhd2 as [-> | [r3 ->]]; cbn [count length] in *;
        [right | left; rewrite N.eqb_refl in Hcnt2]; lia.
    + apply Nat.eqb_neq in E.
      destruct Hhd2 as [-> | [r3 ->]].
      * simpl in *. split; [discriminate | lia].
      * cbn [PyFloat.exponent count] in *.
        change ((46 =? N_of_ascii "e")%N || (46 =? N_of_ascii "E")%N)
          with false.
        rewrite N.eqb_refl in Hcnt2.
        split; [intros _; lia | reflexivity].
Qed.

Lemma price_not_a_name (p : list N) :
  p <> [] -> all plain_price_char p = true ->
  eq_str (PyFloat.lower p) "inf" = false
  /\ eq_str (PyFloat.lower p) "infinity" = false
  /\ eq_str (PyFloat.lower p) "nan" = false.
Proof.
  intros Hne Hp. destruct p as [|c p]; [easy|].
  simpl in Hp. apply andb_true_iff in Hp. destruct Hp as [Hc _].
  assert (R : (46 <= c <= 57)%N)
    by (destruct (plain_price_char_cases c Hc) as [(_ & _ & R) | [_ ->]]; lia).
  assert (Hl : PyFloat.lower_char c = c).
  { unfold PyFloat.lower_char.
    destruct ((65 <=? c)%N && (c <=? 90)%N) eqn:E; [|reflexivity].
    apply andb_true_iff in E. rewrite !N.leb_le in E. lia. }
  unfold PyFloat.lower. cbn [map]. rewrite Hl.
  assert (E1 : (c =? 105)%N = false) by (apply N.eqb_neq; lia).
  assert (E2 : (c =? 110)%N = false) by (apply N.eqb_neq; lia).
  repeat split.
  - change (eq_str (c :: map PyFloat.lower_char p) "inf")
      with ((c =? 105)%N && eq_str (map PyFloat.lower_char p) "nf").
    now rewrite E1.
  - change (eq_str (c :: map PyFloat.lower_char p) "infinity")
      with ((c =? 105)%N && eq_str (map PyFloat.lower_char p) "nfinity").
    now rewrite E1.
  - change (eq_str (c :: map PyFloat.lower_char p) "nan")
      with ((c =? 110)%N && eq_str (map PyFloat.lower_char p) "an").
    now rewrite E2.
Qed.

Lemma plain_price_bare (p : list N) :
  all plain_price_char p = true ->
  strip_of PyFloat.c_isspace p = p /\ PyFloat.sign p = (false, p).
Proof.
  intros Hp. split.
  - apply strip_id. revert Hp. apply all_impl. intros c Hc.
    assert (R : (46 <= c <= 57)%N)
      by (destruct (plain_price_char_cases c Hc) as [(_ & _ & R) | [_ ->]];
          lia).
    unfold PyFloat.c_isspace. apply negb_true_iff, orb_false_iff. split.
    + apply andb_false_iff. right. apply N.leb_gt. lia.
    + apply N.eqb_neq. lia.
  - destruct p as [|c p]; [reflexivity|].
    simpl in Hp. apply andb_true_iff in Hp. destruct Hp as [Hc _].
    assert (R : (46 <= c <= 57)%N)
      by (destruct (plain_price_char_cases c Hc) as [(_ & _ & R) | [_ ->]];
          lia).
    unfold PyFloat.sign.
    change (N_of_ascii "-") with 45%N. change (N_of_ascii "+") with 43%N.
    destruct (N.eqb_spec c 45); [lia|]. destruct (N.eqb_spec c 43); [lia|].
    reflexivity.
Qed.

(** What [float] computes on the text of a price. *)
Lemma float_price_eq (p : list N) :
  price_shape p ->
  PyFloat.float p
  = match PyFloat.floatnumber (map ascii_digit p) with
    | Some (m, e) => Some (PyFloat.of_decimal false m e)
    | None => None
    end.
Proof.
  intros [Hne Hp]. unfold PyFloat.float.
  rewrite (to_ascii_price p Hp).
  destruct (ascii_price p Hp) as [Hq _].
  destruct (plain_price_bare _ Hq) as [-> ->].
  destruct (PyFloat.floatnumber (map ascii_digit p)) as [[m e]|];
    [reflexivity|].
  assert (Hne' : map ascii_digit p <> []) by (destruct p; [easy|discriminate]).
  destruct (price_not_a_name _ Hne' Hq) as (-> & -> & ->). reflexivity.
Qed.

(** On the text of a price [float] raises exactly when the text has
    two points or more, or points only. *)
Lemma float_price (p : list N) :
  price_shape p ->
  PyFloat.float p = None
  <-> (1 < count "." p \/ count "." p = length p).
Proof.
  intros Hp. rewrite (float_price_eq p Hp). destruct Hp as [Hne Hp].
  destruct (ascii_price p Hp) as [Hq Hcnt].
  change (N_of_ascii ".") with 46%N in *.
  assert (Hne' : map ascii_digit p <> []) by (destruct p; [easy|discriminate]).
  rewrite <- Hcnt, <- (length_map ascii_digit p).
  rewrite <- (floatnumber_price _ Hne' Hq).
  destruct (PyFloat.floatnumber (map ascii_digit p)) as [[m e]|];
    split; congruence.
Qed.

End PriceFacts.

(** ** What one turn of the loop does *)

Module LoopFacts.

Import PatternFacts PartsFacts FieldFacts.

Lemma set_text_cases (text : list N) :
  (Docx.set_text text = Ok tt /\ legal text)
  \/ (Docx.set_text text = Raise ValueError /\ ~ legal text).
Proof.
  unfold Docx.set_text, legal.
  destruct (all Docx.xml_char text); [left | right]; split; congruence.
Qed.

Lemma set_text_legal (text : list N) :
  legal text -> Docx.set_text text = Ok tt.
Proof. unfold Docx.set_text, legal. now intros ->. Qed.

(** A part of a legal text is legal. *)
Lemma legal_app (u v : list N) : legal (u ++ v) <-> legal u /\ legal v.
Proof. unfold legal. rewrite all_append. apply andb_true_iff. Qed.

(** The lines of the loop body after the fields of an item are bound. *)
Lemma item_outcome idx line st name qty price :
  count "$" (strip line) = 1 ->
  item_match (strip line) name qty price ->
  let body :=
    cell0 <- strip_method (Some name) ;;;
    'tt <- Docx.set_text cell0 ;;;
    cell1 <- strip_method (Some qty) ;;;
    'tt <- Docx.set_text cell1 ;;;
    cell2 <- strip_method (Some price) ;;;
    'tt <- Docx.set_text ("$" ++ cell2) ;;;
    name' <- strip_method (Some name) ;;;
    qty' <- strip_method (Some qty) ;;;
    price' <- strip_method (Some price) ;;;
    let st1 := append_row (item name' qty' price') (count_line st) in
    match float_call (Some price) with
    | Ok price_val => Ok (add_price price_val st1)
    | Raise _ => Ok (append_error (msg_price_failed idx (Some price)) st1)
    end in
  (exists st', body = Ok st' /\ outcome idx line st st')
  \/ (body = Raise ValueError /\ ~ legal (strip name)).
Proof.
  intros Hone Hm body. subst body.
  destruct (item_match_parts _ _ _ _ Hm) as (Hq & Hp & _ & _).
  cbn [strip_method bind].
  destruct (set_text_cases (strip name)) as [[-> Hn] | [-> Hn]];
    [|right; auto].
  cbn [bind].
  rewrite set_text_legal
    by (destruct Hq as [-> | Hq]; [reflexivity|];
        now apply strip_legal, qty_legal).
  cbn [bind]. rewrite (price_strip price Hp).
  rewrite (set_text_legal _ (price_legal price Hp)). cbn [bind float_call].
  left. destruct (PyFloat.float price) as [v|] eqn:Ef; eexists; split;
    try reflexivity.
  - now apply priced_item.
  - now apply unpriced_item.
Qed.

(** The names bound for an item are determined by the text. *)
Lemma item_match_fun (text name qty price name' qty' price' : list N) :
  item_match text name qty price ->
  item_match text name' qty' price' ->
  name' = name /\ qty' = qty /\ price' = price.
Proof.
  intros [m n q p Hf Hg | m n p Hf Hs Hg]
         [m' n' q' p' Hf' Hg' | m' n' p' Hf' Hs' Hg'];
    try congruence.
  - rewrite Hf in Hf'. injection Hf' as <-. rewrite Hg in Hg'.
    now injection Hg' as <- <- <-.
  - rewrite Hs in Hs'. injection Hs' as <-. rewrite Hg in Hg'.
    now injection Hg' as <- <-.
Qed.

(** The loop body ends in one of the six ways, or it raises the
    [ValueError] of a text that the Word table refuses. *)
Lemma process_line_cases (idx : nat) (line : list N) (st : state) :
  (exists st', process_line idx line st = Ok st' /\ outcome idx line st st')
  \/ (process_line idx line st = Raise ValueError /\ refused line).
Proof.
  unfold process_line.
  destruct (is_empty_spec (strip line)) as [Hblank | Hblank].
  { left. eexists; split; [reflexivity | now apply blank_line]. }
  destruct (Nat.ltb_spec 1 (count "$" (strip line))) as [Hmulti | Hmulti].
  { left. eexists; split; [reflexivity | now apply multi_dollar]. }
  destruct (contains "$" (strip line)) eqn:Hdollar.
  2:{ destruct (no_dollar_no_match _ Hdollar) as [-> ->]. simpl.
      unfold insert_category_title.
      destruct (set_text_cases (strip line)) as [[-> Hl] | [-> Hl]];
        cbn [bind]; [left | right].
      - eexists; split; [reflexivity | now apply category_line].
      - split; [reflexivity | now apply refused_category]. }
  assert (Hone : count "$" (strip line) = 1).
  { destruct (count "$" (strip line)) as [|[|n]] eqn:E; try lia.
    apply contains_count in E. congruence. }
  rewrite andb_false_r.
  destruct (match_ pattern_full (strip line)) as [m|] eqn:Efull.
  - destruct (full_match_shape _ _ Efull) as (name & qty & price & Hg & Hp & _).
    cbn [item_fields]. rewrite Hg. cbn [unpack3 bind].
    assert (Hm : item_match (strip line) name qty price)
      by now apply by_full with m.
    destruct (item_outcome idx line st name qty price Hone Hm)
      as [H | [H Hn]]; [now left | right].
    split; [exact H | now apply refused_item with name qty price].
  - destruct (match_ pattern_short (strip line)) as [m|] eqn:Eshort.
    + destruct (short_match_shape _ _ Eshort) as (name & price & Hg & Hp & _).
      cbn [item_fields]. rewrite Hg. cbn [unpack2 bind].
      assert (Hm : item_match (strip line) name [] price)
        by now apply by_short with m.
      destruct (item_outcome idx line st name [] price Hone Hm)
        as [H | [H Hn]]; [now left | right].
      split; [exact H | now apply refused_item with name [] price].
    + cbn [item_fields bind]. left.
      eexists; split; [reflexivity | now apply unparsable_line].
Qed.

(** A refused line is not legal. *)
Lemma refused_not_legal (line : list N) :
  refused line -> ~ legal (strip line).
Proof.
  intros [_ H | name qty price _ Hm Hn]; [exact H|].
  intros Hl. apply Hn.
  destruct (item_match_parts _ _ _ _ Hm) as (_ & _ & _ & rest & E).
  rewrite E in Hl. apply legal_app in Hl. now apply strip_legal.
Qed.

(** When the body returns, it has gone one of the six ways. *)
Lemma process_line_outcome (idx : nat) (line : list N) (st st' : state) :
  process_line idx line st = Ok st' -> outcome idx line st st'.
Proof.
  intros H. destruct (process_line_cases idx line st)
    as [(st1 & E & Hout) | [E _]]; congruence.
Qed.

(** No way through the body is open to a refused line. *)
Lemma outcome_not_refused idx line st st' :
  outcome idx line st st' -> ~ refused line.
Proof.
  intros Hout Hr.
  assert (Hone : count "$" (strip line) = 1 ->
                 contains "$" (strip line) = false -> False).
  { intros H1 H0. apply contains_count in H0. congruence. }
  destruct Hr as [Hc Hl | name qty price H1 Hm Hn].
  - destruct Hout as [Hb | Hmulti | _ _ Hl' | H1 _ _
                      | ? ? ? ? H1 _ _ _ _ | ? ? ? H1 _ _ _ _];
      try contradiction; try (now apply Hone).
    + apply Hl. now rewrite Hb.
    + apply contains_count in Hc. lia.
  - destruct Hout as [Hb | Hmulti | _ Hc _ | _ Hf Hs
                      | n q p v _ Hm' _ Hl _ | n q p _ Hm' _ Hl _].
    + rewrite Hb in H1. discriminate.
    + lia.
    + now apply Hone.
    + destruct Hm; congruence.
    + destruct (item_match_fun _ _ _ _ _ _ _ Hm Hm') as (-> & _).
      contradiction.
    + destruct (item_match_fun _ _ _ _ _ _ _ Hm Hm') as (-> & _).
      contradiction.
Qed.

(** A refused line raises, whatever the state. *)
Lemma refused_raises idx line st :
  refused line -> process_line idx line st = Raise ValueError.
Proof.
  intros Hr. destruct (process_line_cases idx line st)
    as [(st' & _ & Hout) | [E _]]; [|exact E].
  now apply outcome_not_refused in Hout.
Qed.

(** On a legal line it returns. *)
Lemma process_line_legal (idx : nat) (line : list N) (st : state) :
  legal (strip line) ->
  exists st', process_line idx line st = Ok st' /\ outcome idx line st st'.
Proof.
  intros H. destruct (process_line_cases idx line st) as [H' | [_ H']];
    [exact H' | now apply refused_not_legal in H'].
Qed.

(** The lines read so far, and the lines to come: [I] holds of the
    state the loop returns when it holds before the first line and each
    of the six ways through the body keeps it. *)
Lemma loop_invariant (I : list (list N) -> state -> Prop) :
  (forall seen line st st',
     I seen st -> outcome (S (length seen)) line st st' ->
     I (seen ++ [line]) st') ->
  forall lines seen st st',
    I seen st ->
    loop (S (length seen)) lines st = Ok st' ->
    I (seen ++ lines) st'.
Proof.
  intros Hstep. induction lines as [|line rest IH]; intros seen st st' HI.
  - cbn [loop]. intros [= <-]. now rewrite app_nil_r.
  - cbn [loop].
    destruct (process_line (S (length seen)) line st) as [st1|e] eqn:E;
      [|discriminate].
    cbn [bind]. intros Hloop.
    apply process_line_outcome in E.
    specialize (Hstep _ _ _ _ HI E).
    replace (seen ++ line :: rest) with ((seen ++ [line]) ++ rest)
      by now rewrite <- app_assoc.
    apply (IH _ st1); [exact Hstep|].
    now rewrite length_app, Nat.add_1_r.
Qed.

Lemma process_invariant (I : list (list N) -> state -> Prop) :
  I [] init ->
  (forall seen line st st',
     I seen st -> outcome (S (length seen)) line st st' ->
     I (seen ++ [line]) st') ->
  forall lines st,
    process_txt_file lines = Ok st -> I lines st.
Proof.
  intros H0 Hstep lines st.
  exact (loop_invariant I Hstep lines [] init st H0).
Qed.

(** The loop returns on legal lines. *)
Lemma loop_legal : forall lines idx st,
  Forall (fun line => legal (strip line)) lines ->
  exists st', loop idx lines st = Ok st'.
Proof.
  induction lines as [|line rest IH]; intros idx st Hl; cbn [loop].
  - eauto.
  - inversion Hl as [|? ? H1 H2]; subst.
    destruct (process_line_legal idx line st H1) as (st1 & -> & _).
    cbn [bind]. now apply IH.
Qed.

(** The lines of a run that returns. *)
Lemma loop_returns : forall lines idx st st',
  loop idx lines st = Ok st' ->
  forall line, In line lines ->
               exists idx0 st0 st1, process_line idx0 line st0 = Ok st1.
Proof.
  induction lines as [|l rest IH]; intros idx st st' H line Hin;
    [destruct Hin|].
  cbn [loop] in H.
  destruct (process_line idx l st) as [st1|e] eqn:E; [|discriminate].
  cbn [bind] in H. destruct Hin as [<- | Hin]; eauto.
Qed.

End LoopFacts.

(** * The claims *)

Import CharFacts PatternFacts PartsFacts FieldFacts PriceFacts LoopFacts.

(** ** Scenarios *)

(** C1. For the lines ["Drinks"], ["Coke 2pcs $3.00"], ["Water $1.50"]
    the loop ends with the rows [Category "Drinks"],
    [Item "Coke" "2pcs" "3.00"], [Item "Water" "" "1.50"], with two
    valid lines, the grand total 4.5 (the binary64 number
    [5066549580791808 * 2^-50], which is also what [float("4.50")]
    gives) and no error. *)
Theorem scenario_drinks :
  process_txt_file ["Drinks"; "Coke 2pcs $3.00"; "Water $1.50"]
  = Ok {| excel_rows := [category "Drinks";
                         item "Coke" "2pcs" "3.00";
                         item "Water" "" "1.50"];
          total_lines := 3;
          valid_lines := 2;
          grand_total := S754_finite false 5066549580791808 (-50);
          error_lines := [] |}
  /\ PyFloat.float "4.50" = Some (S754_finite false 5066549580791808 (-50)).
Proof. split; vm_compute; reflexivity. Qed.

(** C4, as the specification states it, fails: on ["Item $abc"] the
    loop does not end with the row [Item "Item" "" "abc"], the error
    "[Line 1] price parse failed: abc" and no valid line. *)
Lemma scenario_item_abc_refuted :
  ~ (exists st,
        process_txt_file ["Item $abc"] = Ok st
        /\ excel_rows st = [item "Item" "" "abc"]
        /\ error_lines st = ["[Line 1] price parse failed: abc"]
        /\ valid_lines st = 0).
Proof.
  intros (st & H & Hrows & _). vm_compute in H.
  injection H as <-. discriminate Hrows.
Qed.

(** C4, amended. On ["Item $abc"] neither pattern matches, since a
    price group needs a digit or a point after the ["$"]: the loop ends
    with no row, no valid line, the grand total 0.0 and the single
    "cannot parse" message of line 128 for line 1. *)
Theorem scenario_item_abc :
  match_ pattern_full "Item $abc" = None
  /\ match_ pattern_short "Item $abc" = None
  /\ process_txt_file ["Item $abc"]
     = Ok {| excel_rows := [];
             total_lines := 1;
             valid_lines := 0;
             grand_total := PyFloat.zero;
             error_lines := [msg_unparsable 1 "Item $abc"] |}.
Proof. repeat split; vm_compute; reflexivity. Qed.

(** The price message needs a price the pattern captures and [float]
    rejects: the row stays, the line is not valid. *)
Example scenario_price_failure :
  process_txt_file ["Item $1.2.3"]
  = Ok {| excel_rows := [item "Item" "" "1.2.3"];
          total_lines := 1;
          valid_lines := 0;
          grand_total := PyFloat.zero;
          error_lines := [msg_price_failed 1 (Some "1.2.3")] |}.
Proof. vm_compute; reflexivity. Qed.

(** White space and digits beyond ASCII: an ideographic space is
    stripped, a no-break space separates, a full-width digit is a
    price. *)
Example scenario_full_width :
  process_txt_file ["　茶　"; "Tea" ++ [no_break_space] ++ "2pcs $３"]
  = Ok {| excel_rows := [category "茶"; item "Tea" "2pcs" "３"];
          total_lines := 2;
          valid_lines := 1;
          grand_total := S754_finite false 6755399441055744 (-51);
          error_lines := [] |}.
Proof. vm_compute; reflexivity. Qed.

(** ** Counters *)

Lemma item_rows_snoc (rows : list row) (r : row) :
  item_rows (rows ++ [r]) = item_rows rows + (if is_item r then 1 else 0).
Proof.
  unfold item_rows. rewrite filter_app, length_app. simpl.
  now destruct (is_item r).
Qed.

Lemma priced_rows_snoc (rows : list row) (r : row) :
  priced_rows (rows ++ [r])
  = priced_rows rows + (if has_price r then 1 else 0).
Proof.
  unfold priced_rows. rewrite filter_app, length_app. simpl.
  now destruct (has_price r).
Qed.

Lemma sum_prices_snoc (rows : list row) (r : row) :
  sum_prices (rows ++ [r])
  = match parsed_price r with
    | Some price_val => PyFloat.add (sum_prices rows) price_val
    | None => sum_prices rows
    end.
Proof. unfold sum_prices. now rewrite fold_left_app. Qed.

(** What the turn of an item line leaves. *)
Lemma item_line_outcome idx line st st' name qty price :
  process_line idx line st = Ok st' ->
  count "$" (strip line) = 1 ->
  item_match (strip line) name qty price ->
  match PyFloat.float price with
  | Some price_val =>
      st' = add_price price_val
              (append_row (item (strip name) (strip qty) price)
                 (count_line st))
  | None =>
      st' = append_error (msg_price_failed idx (Some price))
              (append_row (item (strip name) (strip qty) price)
                 (count_line st))
  end.
Proof.
  intros Hrun Hone Hm. apply process_line_outcome in Hrun.
  destruct Hrun as [Hb | Hmulti | _ Hc _ | _ Hf Hs
                    | n q p v _ Hm' _ _ Hv | n q p _ Hm' _ _ Hv].
  - rewrite Hb in Hone. discriminate.
  - lia.
  - apply contains_count in Hc. congruence.
  - destruct Hm; congruence.
  - destruct (item_match_fun _ _ _ _ _ _ _ Hm Hm') as (-> & -> & ->).
    now rewrite Hv.
  - destruct (item_match_fun _ _ _ _ _ _ _ Hm Hm') as (-> & -> & ->).
    now rewrite Hv.
Qed.

(** C7. Whenever the loop returns, [total_lines] is the number of lines
    read, blank ones included; and a line that is empty once stripped
    only adds one to [total_lines]: the turn returns, and the rows, the
    errors, the valid lines and the grand total stay as they were. *)
Theorem total_lines_counts_every_line :
  (forall lines st,
      process_txt_file lines = Ok st ->
      total_lines st = List.length lines)
  /\ (forall idx line st,
         strip line = "" ->
         exists st', process_line idx line st = Ok st'
                     /\ total_lines st' = total_lines st + 1
                     /\ excel_rows st' = excel_rows st
                     /\ error_lines st' = error_lines st
                     /\ valid_lines st' = valid_lines st
                     /\ grand_total st' = grand_total st).
Proof.
  split.
  - apply (process_invariant
             (fun seen st => total_lines st = List.length seen)).
    + reflexivity.
    + intros seen line st st' HI Hout. rewrite length_app. simpl.
      destruct Hout; simpl; lia.
  - intros idx line st Hblank. exists (count_line st).
    unfold process_line. rewrite Hblank. simpl. auto 10.
Qed.

Lemma total_lines_counts_every_line_witness :
  (exists st,
      process_txt_file ["Drinks"; "   "; "Water $1.50"] = Ok st
      /\ total_lines st = 3)
  /\ strip "   " = ""
  /\ exists st', process_line 4 "   " init = Ok st'
                 /\ total_lines st' = total_lines init + 1
                 /\ excel_rows st' = excel_rows init
                 /\ error_lines st' = error_lines init
                 /\ valid_lines st' = valid_lines init
                 /\ grand_total st' = grand_total init.
Proof.
  split; [|split; [reflexivity|]].
  - eexists. split; [vm_compute; reflexivity|].
    apply (proj1 total_lines_counts_every_line
                 ["Drinks"; "   "; "Water $1.50"]).
    vm_compute; reflexivity.
  - apply (proj2 total_lines_counts_every_line 4 "   " init). reflexivity.
Defined.

(** C8. Whenever the loop returns, [valid_lines] is at most the number
    of item rows, which is at most [total_lines]. *)
Theorem valid_le_items_le_total (lines : list (list N)) (st : state) :
  process_txt_file lines = Ok st ->
  valid_lines st <= item_rows (excel_rows st)
  /\ item_rows (excel_rows st) <= total_lines st.
Proof.
  revert lines st.
  apply (process_invariant
           (fun _ st => valid_lines st <= item_rows (excel_rows st)
                        /\ item_rows (excel_rows st) <= total_lines st)).
  - simpl. unfold item_rows. simpl. lia.
  - intros seen line st st' [Hv Hi] Hout.
    destruct Hout; cbn [excel_rows valid_lines total_lines count_line
                        append_error append_row add_price];
      rewrite ?item_rows_snoc; simpl; lia.
Qed.

Lemma valid_le_items_le_total_witness :
  exists st,
    process_txt_file ["Drinks"; "Tea $2"; "Item $1.2.3"; ""] = Ok st
    /\ valid_lines st = 1 /\ item_rows (excel_rows st) = 2
    /\ total_lines st = 4
    /\ valid_lines st <= item_rows (excel_rows st)
    /\ item_rows (excel_rows st) <= total_lines st.
Proof.
  eexists. split; [vm_compute; reflexivity|].
  split; [reflexivity|]. split; [reflexivity|]. split; [reflexivity|].
  apply (valid_le_items_le_total ["Drinks"; "Tea $2"; "Item $1.2.3"; ""]).
  vm_compute; reflexivity.
Defined.

(** C2. Whenever the loop returns, [grand_total] is the float sum, from
    0.0 and in row order, of the prices of exactly the item rows whose
    price [float] accepts, and [valid_lines] is the number of those
    rows; and every line that is an item has its row in [excel_rows],
    whether [float] accepts the price or not.  The turn of an item line
    appends that row and then either adds the price to [grand_total]
    and one to [valid_lines], or, if [float] rejects the price, leaves
    both as they were and records the price message.  So for the prices
    0.1, 0.2 and 1.2.3 the three rows are there, two lines are valid
    and the total is the binary64 sum of 0.1 and 0.2,
    0.30000000000000004. *)
Theorem grand_total_sums_parsed_prices :
  (forall lines st,
      process_txt_file lines = Ok st ->
      grand_total st = sum_prices (excel_rows st)
      /\ valid_lines st = priced_rows (excel_rows st)
      /\ (forall line name qty price,
             In line lines ->
             count "$" (strip line) = 1 ->
             item_match (strip line) name qty price ->
             In (item (strip name) (strip qty) (strip price))
                (excel_rows st)))
  /\ (forall idx line st0 st1 name qty price,
         process_line idx line st0 = Ok st1 ->
         count "$" (strip line) = 1 ->
         item_match (strip line) name qty price ->
         excel_rows st1
         = excel_rows st0 ++ [item (strip name) (strip qty) (strip price)]
         /\ match PyFloat.float price with
            | Some price_val =>
                grand_total st1 = PyFloat.add (grand_total st0) price_val
                /\ valid_lines st1 = valid_lines st0 + 1
                /\ error_lines st1 = error_lines st0
            | None =>
                grand_total st1 = grand_total st0
                /\ valid_lines st1 = valid_lines st0
                /\ error_lines st1
                   = error_lines st0 ++ [msg_price_failed idx (Some price)]
            end)
  /\ process_txt_file ["a $0.1"; "b $0.2"; "c $1.2.3"]
     = Ok {| excel_rows := [item "a" "" "0.1"; item "b" "" "0.2";
                            item "c" "" "1.2.3"];
             total_lines := 3;
             valid_lines := 2;
             grand_total := S754_finite false 5404319552844596 (-54);
             error_lines := [msg_price_failed 3 (Some "1.2.3")] |}.
Proof.
  split; [|split; [|vm_compute; reflexivity]].
  - intros lines st Hrun. split; [|split].
    + revert Hrun. revert lines st.
      apply (process_invariant
               (fun _ st => grand_total st = sum_prices (excel_rows st))).
      * reflexivity.
      * intros seen line st st' Ht Hout.
        destruct Hout as [ | | | | name qty price v _ _ _ _ Hf
                           | name qty price _ _ _ _ Hf];
          cbn [excel_rows grand_total count_line append_error
               append_row add_price];
          rewrite ?sum_prices_snoc; cbn [parsed_price]; rewrite ?Hf;
          congruence.
    + revert Hrun. revert lines st.
      apply (process_invariant
               (fun _ st => valid_lines st = priced_rows (excel_rows st))).
      * reflexivity.
      * intros seen line st st' Hv Hout.
        destruct Hout as [ | | | | name qty price v _ _ _ _ Hf
                           | name qty price _ _ _ _ Hf];
          cbn [excel_rows valid_lines count_line append_error
               append_row add_price];
          rewrite ?priced_rows_snoc;
          unfold has_price; cbn [parsed_price]; rewrite ?Hf; lia.
    + revert Hrun. revert lines st.
      apply (process_invariant
               (fun seen st =>
                  forall line name qty price,
                    In line seen ->
                    count "$" (strip line) = 1 ->
                    item_match (strip line) name qty price ->
                    In (item (strip name) (strip qty) (strip price))
                       (excel_rows st))).
      * intros line name qty price [].
      * intros seen line st st' HI Hout line0 name qty price Hin Hone Hm.
        apply in_app_or in Hin. destruct Hin as [Hin | [<- | []]].
        -- specialize (HI _ _ _ _ Hin Hone Hm).
           destruct Hout;
             cbn [excel_rows count_line append_error append_row add_price];
             auto using in_or_app.
        -- destruct (item_match_parts _ _ _ _ Hm) as (_ & Hp & _).
           rewrite (price_strip price Hp).
           destruct Hout as [Hb | Hmulti | _ Hc _ | _ Hf Hs
                             | n q p v _ Hm' _ _ _ | n q p _ Hm' _ _ _];
             cbn [excel_rows count_line append_error append_row add_price].
           ++ rewrite Hb in Hone. discriminate.
           ++ lia.
           ++ apply contains_count in Hc. congruence.
           ++ destruct Hm; congruence.
           ++ destruct (item_match_fun _ _ _ _ _ _ _ Hm Hm')
                as (-> & -> & ->).
              apply in_or_app. right. now left.
           ++ destruct (item_match_fun _ _ _ _ _ _ _ Hm Hm')
                as (-> & -> & ->).
              apply in_or_app. right. now left.
  - intros idx line st0 st1 name qty price H Hone Hm.
    pose proof (item_line_outcome _ _ _ _ _ _ _ H Hone Hm) as Hst.
    destruct (item_match_parts _ _ _ _ Hm) as (_ & Hp & _).
    rewrite (price_strip price Hp).
    destruct (PyFloat.float price); subst st1; auto.
Qed.

(** A line with a price [float] rejects, after one it accepts: the row
    of the second is there, and only the first counts. *)
Lemma grand_total_sums_parsed_prices_witness :
  let st := {| excel_rows := [item "Tea" "" "３"; item "Item" "" "1.2.3"];
               total_lines := 2;
               valid_lines := 1;
               grand_total := S754_finite false 6755399441055744 (-51);
               error_lines := [msg_price_failed 2 (Some "1.2.3")] |} in
  grand_total st = sum_prices (excel_rows st)
  /\ valid_lines st = priced_rows (excel_rows st)
  /\ In (item "Item" "" "1.2.3") (excel_rows st).
Proof.
  intros st.
  destruct (proj1 grand_total_sums_parsed_prices
                  ["Tea $３"; "Item $1.2.3"] st eq_refl)
    as (Ht & Hv & Hin).
  split; [exact Ht|]. split; [exact Hv|].
  apply (Hin "Item $1.2.3" "Item" "" "1.2.3").
  - right. left. reflexivity.
  - reflexivity.
  - eapply by_short; vm_compute; reflexivity.
Defined.

(** ** Lines that are not items *)

(** C3 fails on the code. The line ["Dr\x0cinks\n"] is not empty once
    stripped, is matched by neither pattern and holds no ["$"]; the
    turn does not add the row [Category "Dr\x0cinks"]: the run of the
    merged row refuses the form feed (line 92), and the [ValueError]
    leaves the loop before line 96 appends to [excel_rows]. *)
Theorem category_line_with_form_feed_raises :
  let line := "Dr" ++ [form_feed] ++ "inks" ++ [line_feed] in
  strip line = "Dr" ++ [form_feed] ++ "inks"
  /\ strip line <> ""
  /\ match_ pattern_full (strip line) = None
  /\ match_ pattern_short (strip line) = None
  /\ contains "$" (strip line) = false
  /\ (forall idx st, process_line idx line st = Raise ValueError)
  /\ process_txt_file [line] = Raise ValueError.
Proof.
  cbv zeta. split; [reflexivity|]. split; [discriminate|].
  repeat split; try (vm_compute; reflexivity).
Qed.

(** C6. A line whose stripped text holds more than one ["$"] adds one
    error and no row, whatever the two patterns would make of it; it
    counts in [total_lines], not in [valid_lines], and leaves
    [grand_total] alone. *)
Theorem multi_dollar_line_is_rejected
        (idx : nat) (line : list N) (st : state) :
  1 < count "$" (strip line) ->
  exists st',
    process_line idx line st = Ok st'
    /\ error_lines st'
       = (error_lines st ++ [msg_multi_dollar idx (strip line)])%list
    /\ excel_rows st' = excel_rows st
    /\ total_lines st' = total_lines st + 1
    /\ valid_lines st' = valid_lines st
    /\ grand_total st' = grand_total st.
Proof.
  intros Hmulti.
  exists (append_error (msg_multi_dollar idx (strip line)) (count_line st)).
  split; [|repeat split].
  unfold process_line.
  assert (Hne : strip line <> []) by (apply (count_pos_nonempty "$"%char); lia).
  destruct (is_empty_spec (strip line)) as [E | _]; [contradiction|].
  apply Nat.ltb_lt in Hmulti. now rewrite Hmulti.
Qed.

(** The line of scenario B: the short pattern matches it, and still it
    gives an error and no row. *)
Lemma multi_dollar_line_is_rejected_witness :
  match_ pattern_short "Snack $1 $2" = Some [(2, "1"); (1, "Snack")]
  /\ exists st',
      process_line 1 "Snack $1 $2" init = Ok st'
      /\ error_lines st'
         = (error_lines init ++ [msg_multi_dollar 1 (strip "Snack $1 $2")])%list
      /\ excel_rows st' = excel_rows init
      /\ total_lines st' = total_lines init + 1
      /\ valid_lines st' = valid_lines init
      /\ grand_total st' = grand_total init.
Proof.
  split; [reflexivity|].
  apply (multi_dollar_line_is_rejected 1 "Snack $1 $2" init).
  vm_compute. lia.
Defined.

(** ** Errors *)

Lemma string_of_uint_digits (d : Decimal.uint) :
  all PyFloat.c_isdigit
      (map N_of_ascii
           (String.list_ascii_of_string (NilEmpty.string_of_uint d)))
  = true.
Proof. induction d; simpl; auto. Qed.

Lemma str_of_nat_digits (n : nat) :
  all PyFloat.c_isdigit (str_of_nat n) = true.
Proof.
  unfold str_of_nat, NilZero.string_of_uint.
  destruct (Nat.to_uint n) eqn:E; try reflexivity;
    rewrite <- E; apply string_of_uint_digits.
Qed.

(** C5, as the specification states it, fails: the message recorded for
    ["Snack $1 $2"] is none of the three English templates, whatever
    the line number and the text put into them. *)
Lemma diagnostics_spec_wording_refuted :
  exists st e,
    process_txt_file ["Snack $1 $2"] = Ok st
    /\ In e (error_lines st)
    /\ forall idx text, ~ spec_template idx text e.
Proof.
  eexists. eexists. split; [vm_compute; reflexivity|].
  split; [left; reflexivity|].
  intros idx text. unfold spec_template.
  pose proof (str_of_nat_digits idx) as Hd.
  destruct (str_of_nat idx) as [|c [|c' s]].
  - intros [H | [H | [p H]]]; discriminate H.
  - intros [H | [H | [p H]]]; discriminate H.
  - cbn [all] in Hd. apply andb_true_iff in Hd. destruct Hd as [_ Hd].
    apply andb_true_iff in Hd. destruct Hd as [Hd _].
    intros [H | [H | [p H]]]; cbn in H;
      inversion H; subst c'; discriminate Hd.
Qed.

(** C5, amended. Whenever the loop returns, every message in
    [error_lines] belongs to one line of the input, carries that line's
    1-based number and is one of the three messages the code writes
    (lines 107, 128 and 146 of YaW.py, Chinese text after the line
    tag): the multiple-["$"] message or the cannot-parse message with
    the stripped text of the line, or the price message with the price
    the pattern captured. *)
Theorem diagnostics_are_the_three_messages
        (lines : list (list N)) (st : state) :
  process_txt_file lines = Ok st ->
  forall e,
    In e (error_lines st) ->
    exists idx line,
      1 <= idx /\ nth_error lines (idx - 1) = Some line
      /\ diagnostic idx line e.
Proof.
  revert lines st.
  apply (process_invariant
           (fun seen st =>
              forall e, In e (error_lines st) ->
                        exists idx line,
                          1 <= idx /\ nth_error seen (idx - 1) = Some line
                          /\ diagnostic idx line e)).
  - intros e [].
  - intros seen line st st' HI Hout.
    assert (Hold : forall e, In e (error_lines st) ->
                             exists idx line0,
                               1 <= idx
                               /\ nth_error (seen ++ [line]) (idx - 1)
                                  = Some line0
                               /\ diagnostic idx line0 e).
    { intros e He. destruct (HI e He) as (idx & line0 & Hi & Hn & Hd).
      exists idx, line0. repeat split; auto.
      rewrite nth_error_app1; auto.
      apply nth_error_Some. congruence. }
    assert (Hnew : forall e, diagnostic (S (List.length seen)) line e ->
                             exists idx line0,
                               1 <= idx
                               /\ nth_error (seen ++ [line]) (idx - 1)
                                  = Some line0
                               /\ diagnostic idx line0 e).
    { intros e He. exists (S (List.length seen)), line.
      repeat split; auto; [lia|].
      simpl. rewrite Nat.sub_0_r, nth_error_app2, Nat.sub_diag; auto. }
    destruct Hout as [ | Hm | | H1 Hf Hs | | name qty price H1 Him _ _ Hf];
      cbn [error_lines count_line append_error append_row add_price];
      try exact Hold;
      intros e He; apply in_app_or in He;
      (destruct He as [He | [<- | []]]; [now apply Hold | apply Hnew]).
    + now apply diag_multi_dollar.
    + now apply diag_unparsable.
    + now apply diag_price_failed with name qty.
Qed.

Lemma diagnostics_are_the_three_messages_witness :
  exists idx line,
    1 <= idx
    /\ nth_error (["Tea $2"; "Item $1.2.3"] : list (list N)) (idx - 1)
       = Some line
    /\ diagnostic idx line (msg_price_failed 2 (Some "1.2.3")).
Proof.
  apply (diagnostics_are_the_three_messages
           ["Tea $2"; "Item $1.2.3"]
           {| excel_rows := [item "Tea" "" "2"; item "Item" "" "1.2.3"];
              total_lines := 2;
              valid_lines := 1;
              grand_total := S754_finite false 4503599627370496 (-51);
              error_lines := [msg_price_failed 2 (Some "1.2.3")] |}).
  - vm_compute; reflexivity.
  - left. reflexivity.
Defined.

(** C9 fails on the code. The line ["Green\x0cTea $3\n"] is an item
    for the short pattern, with the name ["Green\x0cTea"]; the turn
    raises [ValueError] when the first cell of the new table row takes
    the name (line 133), whatever the state, and so does the run on
    every list of lines that holds the line: no result, and no message
    in [error_lines]. *)
Theorem control_character_aborts_the_run :
  let line := "Green" ++ [form_feed] ++ "Tea $3" ++ [line_feed] in
  item_match (strip line) ("Green" ++ [form_feed] ++ "Tea") "" "3"
  /\ (forall idx st, process_line idx line st = Raise ValueError)
  /\ process_txt_file
       ["Drinks" ++ [line_feed]; line; "Water $1.50" ++ [line_feed]]
     = Raise ValueError
  /\ (forall lines st, In line lines -> process_txt_file lines <> Ok st).
Proof.
  cbv zeta.
  assert (Hraise : forall idx st,
             process_line idx
               ("Green" ++ [form_feed] ++ "Tea $3" ++ [line_feed]) st
             = Raise ValueError)
    by (intros; vm_compute; reflexivity).
  split; [|split; [exact Hraise | split; [vm_compute; reflexivity|]]].
  - eapply by_short; vm_compute; reflexivity.
  - intros lines st Hin Hrun.
    destruct (loop_returns _ _ _ _ Hrun _ Hin) as (idx0 & st0 & st1 & H).
    rewrite Hraise in H. discriminate.
Qed.

(** ** Prices *)

(** C10. Whenever the loop returns, the price of every item row is a
    non-empty text of decimal digits and points, the digits being those
    of the class [\d]; so [float] rejects it for one reason only, and
    always for that reason: it holds two points or more, or nothing
    but points. *)
Theorem item_prices_are_digits_and_points
        (lines : list (list N)) (st : state) :
  process_txt_file lines = Ok st ->
  forall name qty price,
    In (item name qty price) (excel_rows st) ->
    price_shape price
    /\ (PyFloat.float price = None
        <-> 1 < count "." price \/ count "." price = length price).
Proof.
  intros Hrun name qty price Hin.
  assert (Hp : price_shape price).
  { revert lines st Hrun name qty price Hin.
    apply (process_invariant
             (fun _ st => forall name qty price,
                  In (item name qty price) (excel_rows st) ->
                  price_shape price)).
    - intros name qty price [].
    - intros seen line st st' HI Hout name qty price.
      destruct Hout;
        cbn [excel_rows count_line append_error append_row add_price];
        try apply HI;
        intros Hin; apply in_app_or in Hin;
        (destruct Hin as [Hin | [Hin | []]]; [now apply HI with name qty|]);
        congruence. }
  split; [exact Hp | now apply float_price].
Qed.

Lemma item_prices_are_digits_and_points_witness :
  price_shape "1.2.3"
  /\ (PyFloat.float "1.2.3" = None
      <-> 1 < count "." "1.2.3" \/ count "." "1.2.3" = length "1.2.3").
Proof.
  apply (item_prices_are_digits_and_points
           ["Tea $2"; "Item $1.2.3"]
           {| excel_rows := [item "Tea" "" "2"; item "Item" "" "1.2.3"];
              total_lines := 2;
              valid_lines := 1;
              grand_total := S754_finite false 4503599627370496 (-51);
              error_lines := [msg_price_failed 2 (Some "1.2.3")] |}
           eq_refl "Item" "" "1.2.3").
  right. left. reflexivity.
Defined.

(** * Further properties of the loop *)

(** ** When the loop returns *)

(** X20. The loop returns on every list of lines whose stripped texts
    hold no character that XML refuses: no control character but the
    tab, the line feed and the carriage return, no surrogate, neither
    U+FFFE nor U+FFFF. *)
Theorem legal_lines_are_processed (lines : list (list N)) :
  Forall (fun line => legal (strip line)) lines ->
  exists st, process_txt_file lines = Ok st.
Proof. intros H. now apply loop_legal. Qed.

Lemma legal_lines_are_processed_witness :
  exists st,
    process_txt_file
      ["Drinks" ++ [line_feed]; "Tea" ++ [no_break_space] ++ "2kg $３.5";
       "x $1 $2"; "$"; "a $.."]
    = Ok st.
Proof.
  apply legal_lines_are_processed.
  repeat constructor.
Defined.

(** X21. The only exception the loop raises is the [ValueError] of the
    Word table, and it raises it exactly when the table refuses a line:
    the stripped text of a line without ["$"], or the stripped name of
    an item, holds a character that XML does not allow. *)
Theorem loop_raises_on_refused_lines_only (lines : list (list N)) :
  (forall e, process_txt_file lines = Raise e -> e = ValueError)
  /\ (process_txt_file lines = Raise ValueError
      <-> exists line, In line lines /\ refused line).
Proof.
  assert (H : forall e, process_txt_file lines = Raise e ->
                        e = ValueError
                        /\ exists line, In line lines /\ refused line).
  { unfold process_txt_file. generalize 1 init.
    induction lines as [|line rest IH]; intros idx st e; cbn [loop];
      [discriminate|].
    destruct (process_line_cases idx line st) as [(st1 & -> & _) | [-> Hl]];
      cbn [bind].
    - intros H. destruct (IH _ _ _ H) as (He & l & Hin & Hl).
      split; [exact He|]. exists l. split; [now right | exact Hl].
    - intros [= <-]. split; [reflexivity|]. exists line.
      split; [now left | exact Hl]. }
  split; [intros e He; now apply H in He|]. split.
  - intros He. now apply H in He.
  - intros (line & Hin & Hr).
    destruct (process_txt_file lines) as [st|e] eqn:E.
    + destruct (loop_returns _ _ _ _ E _ Hin) as (idx0 & st0 & st1 & H').
      rewrite (refused_raises _ _ _ Hr) in H'. discriminate.
    + now destruct (H e eq_refl) as [-> _].
Qed.

Lemma loop_raises_on_refused_lines_only_witness :
  exists line : list N,
    In line ["Drinks"; "Dr" ++ [form_feed] ++ "inks"]
    /\ refused line.
Proof.
  apply (proj2 (loop_raises_on_refused_lines_only
                  ["Drinks"; "Dr" ++ [form_feed] ++ "inks"])).
  vm_compute; reflexivity.
Defined.

(** X22. A line whose stripped text is not empty and holds no ["$"] is
    matched by neither pattern.  If the text is legal, the turn returns;
    and whenever the turn returns, it has added the row [Category text],
    with [text] the whole stripped text as it stands, and no error. *)
Theorem line_without_dollar_is_category
        (idx : nat) (line : list N) (st : state) :
  strip line <> [] ->
  contains "$" (strip line) = false ->
  match_ pattern_full (strip line) = None
  /\ match_ pattern_short (strip line) = None
  /\ (legal (strip line) ->
      process_line idx line st
      = Ok (append_row (category (strip line)) (count_line st)))
  /\ (forall st',
         process_line idx line st = Ok st' ->
         excel_rows st' = excel_rows st ++ [category (strip line)]
         /\ error_lines st' = error_lines st
         /\ valid_lines st' = valid_lines st
         /\ grand_total st' = grand_total st).
Proof.
  intros Hne Hdollar.
  destruct (no_dollar_no_match _ Hdollar) as [Hf Hs].
  assert (Hrun : process_line idx line st
                 = insert_category_title (strip line) (count_line st)).
  { unfold process_line. rewrite Hf, Hs, Hdollar.
    destruct (is_empty_spec (strip line)); [contradiction|].
    apply contains_count in Hdollar. now rewrite Hdollar. }
  split; [exact Hf|]. split; [exact Hs|]. rewrite Hrun.
  unfold insert_category_title. split.
  - intros Hl. now rewrite (set_text_legal _ Hl).
  - intros st'. destruct (Docx.set_text (strip line)) as [[]|e];
      cbn [bind]; [|discriminate].
    intros [= <-]. repeat split.
Qed.

Lemma line_without_dollar_is_category_witness :
  process_line 1 "　茶　" init
  = Ok (append_row (category "茶") (count_line init)).
Proof.
  destruct (line_without_dollar_is_category 1 "　茶　" init)
    as (_ & _ & H & _).
  - discriminate.
  - reflexivity.
  - apply H. reflexivity.
Defined.

(** ** Where rows and errors come from *)

Module OrderFacts.

Lemma sorted_snoc (l : list nat) (x : nat) :
  StronglySorted lt l -> Forall (fun i => i < x) l ->
  StronglySorted lt (l ++ [x]).
Proof.
  induction 1 as [|a l Hs IH Ha]; intros Hx; simpl.
  - constructor; constructor.
  - apply Forall_cons_iff in Hx. destruct Hx as [Hax Hx].
    constructor; [auto|].
    apply Forall_app. split; [exact Ha | now constructor].
Qed.

Lemma snoc_neq {A : Type} (l : list A) (x : A) : l ++ [x] <> l.
Proof.
  intros H. apply (f_equal (@List.length A)) in H.
  rewrite length_app in H. simpl in H. lia.
Qed.

(** A list the loop only ever appends to, one element a line at most,
    lists its elements by increasing line number. *)
Lemma provenance {A : Type} (proj : state -> list A)
      (R : nat -> list N -> A -> Prop) :
  proj init = [] ->
  (forall idx line st st',
      outcome idx line st st' ->
      proj st' = proj st
      \/ exists a, proj st' = proj st ++ [a] /\ R idx line a) ->
  forall lines st,
    process_txt_file lines = Ok st ->
    exists idxs,
      StronglySorted lt idxs
      /\ Forall2 (fun idx a =>
                    1 <= idx
                    /\ exists line, nth_error lines (idx - 1) = Some line
                                    /\ R idx line a)
                 idxs (proj st).
Proof.
  intros Hinit Hstep lines st Hrun.
  destruct (process_invariant
              (fun seen st =>
                 exists idxs,
                   StronglySorted lt idxs
                   /\ Forall (fun i => i < S (List.length seen)) idxs
                   /\ Forall2 (fun idx a =>
                                 1 <= idx
                                 /\ exists line,
                                     nth_error seen (idx - 1) = Some line
                                     /\ R idx line a)
                              idxs (proj st))) with (lines := lines) (st := st)
    as (idxs & Hs & _ & Hf).
  - exists []. rewrite Hinit. repeat split; constructor.
  - clear Hrun. intros seen line st0 st' (idxs & Hs & Hlt & Hf) Hout.
    assert (Hkeep : Forall2 (fun idx a =>
                               1 <= idx
                               /\ exists line0,
                                   nth_error (seen ++ [line]) (idx - 1)
                                   = Some line0
                                   /\ R idx line0 a)
                            idxs (proj st0)).
    { eapply Forall2_impl; [|exact Hf].
      intros idx a (Hi & line0 & Hn & Hr). split; [exact Hi|].
      exists line0. split; [|exact Hr].
      rewrite nth_error_app1; auto. apply nth_error_Some. congruence. }
    assert (Hlt' : Forall (fun i => i < S (List.length (seen ++ [line])))
                          idxs).
    { eapply Forall_impl; [|exact Hlt].
      intros i Hi. rewrite length_app. simpl in *. lia. }
    destruct (Hstep _ _ _ _ Hout) as [-> | (a & -> & Hr)].
    + exists idxs. auto.
    + exists (idxs ++ [S (List.length seen)]). split; [|split].
      * now apply sorted_snoc.
      * apply Forall_app. split; [exact Hlt'|].
        constructor; [|constructor]. rewrite length_app. simpl. lia.
      * apply Forall2_app; [exact Hkeep|].
        constructor; [|constructor]. split; [lia|].
        exists line. split; [|exact Hr].
        simpl. rewrite Nat.sub_0_r, nth_error_app2, Nat.sub_diag; auto.
  - exact Hrun.
  - exists idxs. auto.
Qed.

End OrderFacts.

(** X1. Whenever the loop returns, the rows of [excel_rows] come from
    the lines in line order, one line giving one row at most: there are
    strictly increasing line numbers, one for each row, such that the
    row is the category or the item its line gives. *)
Theorem rows_follow_line_order (lines : list (list N)) (st : state) :
  process_txt_file lines = Ok st ->
  exists idxs,
    StronglySorted lt idxs
    /\ Forall2 (fun idx r =>
                  1 <= idx
                  /\ exists line, nth_error lines (idx - 1) = Some line
                                  /\ emits line r)
               idxs (excel_rows st).
Proof.
  apply (OrderFacts.provenance excel_rows (fun _ line r => emits line r)).
  - reflexivity.
  - intros idx line st0 st' Hout.
    destruct Hout; cbn [excel_rows count_line append_error append_row
                        add_price]; auto;
      right; eexists; (split; [reflexivity|]).
    + now apply emits_category.
    + now apply emits_item.
    + now apply emits_item.
Qed.

Lemma rows_follow_line_order_witness :
  exists idxs,
    StronglySorted lt idxs
    /\ Forall2 (fun idx r =>
                  1 <= idx
                  /\ exists line,
                      nth_error (["x $1 $2"; "　茶　"; ""; "Tea $３"]
                                 : list (list N)) (idx - 1)
                      = Some line
                      /\ emits line r)
               idxs [category "茶"; item "Tea" "" "３"].
Proof.
  apply (rows_follow_line_order
           ["x $1 $2"; "　茶　"; ""; "Tea $３"]
           {| excel_rows := [category "茶"; item "Tea" "" "３"];
              total_lines := 4;
              valid_lines := 1;
              grand_total := S754_finite false 6755399441055744 (-51);
              error_lines := [msg_multi_dollar 1 "x $1 $2"] |}).
  vm_compute; reflexivity.
Defined.

(** X2. Whenever the loop returns, the messages of [error_lines] come
    from the lines in line order, one line giving one message at most:
    there are strictly increasing line numbers, one for each message,
    such that the message is one its line gives, tagged with that
    number. *)
Theorem errors_follow_line_order (lines : list (list N)) (st : state) :
  process_txt_file lines = Ok st ->
  exists idxs,
    StronglySorted lt idxs
    /\ Forall2 (fun idx e =>
                  1 <= idx
                  /\ exists line, nth_error lines (idx - 1) = Some line
                                  /\ diagnostic idx line e)
               idxs (error_lines st).
Proof.
  apply (OrderFacts.provenance error_lines diagnostic).
  - reflexivity.
  - intros idx line st0 st' Hout.
    destruct Hout as [ | | | | | name qty price ];
      cbn [error_lines count_line append_error append_row add_price]; auto;
      right; eexists; (split; [reflexivity|]).
    + now apply diag_multi_dollar.
    + now apply diag_unparsable.
    + now apply diag_price_failed with name qty.
Qed.

Lemma errors_follow_line_order_witness :
  exists idxs,
    StronglySorted lt idxs
    /\ Forall2 (fun idx e =>
                  1 <= idx
                  /\ exists line,
                      nth_error (["x $1 $2"; "　茶　"; ""; "Tea $３"]
                                 : list (list N)) (idx - 1)
                      = Some line
                      /\ diagnostic idx line e)
               idxs [msg_multi_dollar 1 "x $1 $2"].
Proof.
  apply (errors_follow_line_order
           ["x $1 $2"; "　茶　"; ""; "Tea $３"]
           {| excel_rows := [category "茶"; item "Tea" "" "３"];
              total_lines := 4;
              valid_lines := 1;
              grand_total := S754_finite false 6755399441055744 (-51);
              error_lines := [msg_multi_dollar 1 "x $1 $2"] |}).
  vm_compute; reflexivity.
Defined.

(** X3. No line is lost: whenever the loop returns, the lines read and
    the item rows add up to the blank lines, the rows, the messages and
    the valid lines.  So a line that is not blank and gave no row has
    its message, and each item row that is not valid has one more. *)
Theorem every_line_is_accounted_for (lines : list (list N)) (st : state) :
  process_txt_file lines = Ok st ->
  total_lines st + item_rows (excel_rows st)
  = blank_lines lines + List.length (excel_rows st)
    + List.length (error_lines st) + valid_lines st.
Proof.
  revert lines st.
  apply (process_invariant
           (fun seen st =>
              total_lines st + item_rows (excel_rows st)
              = blank_lines seen + List.length (excel_rows st)
                + List.length (error_lines st) + valid_lines st)).
  - reflexivity.
  - intros seen line st st' HI Hout.
    unfold blank_lines in *. rewrite filter_app, length_app. cbn [filter].
    assert (Hnb : strip line <> [] -> is_blank line = false).
    { intros H. unfold is_blank. now destruct (is_empty_spec (strip line)). }
    assert (Hone : count "$" (strip line) = 1 -> is_blank line = false).
    { intros H. apply Hnb, (count_pos_nonempty "$"%char). lia. }
    destruct Hout as [Hb | Hm | Hne _ _ | H1 _ _ | ? ? ? ? H1 _ _ _ _
                      | ? ? ? H1 _ _ _ _];
      cbn [excel_rows total_lines valid_lines error_lines count_line
           append_error append_row add_price];
      rewrite ?item_rows_snoc, ?length_app; cbn [is_item List.length].
    + assert (is_blank line = true) as ->
        by (unfold is_blank; now rewrite Hb).
      simpl. lia.
    + rewrite Hnb by (apply (count_pos_nonempty "$"%char); lia). simpl. lia.
    + rewrite (Hnb Hne). simpl. lia.
    + rewrite (Hone H1). simpl. lia.
    + rewrite (Hone H1). simpl. lia.
    + rewrite (Hone H1). simpl. lia.
Qed.

Lemma every_line_is_accounted_for_witness :
  4 + 1 = blank_lines ["x $1 $2"; "　茶　"; "　"; "Tea $３"] + 2 + 1 + 1.
Proof.
  apply (every_line_is_accounted_for
           ["x $1 $2"; "　茶　"; "　"; "Tea $３"]
           {| excel_rows := [category "茶"; item "Tea" "" "３"];
              total_lines := 4;
              valid_lines := 1;
              grand_total := S754_finite false 6755399441055744 (-51);
              error_lines := [msg_multi_dollar 1 "x $1 $2"] |}).
  vm_compute; reflexivity.
Defined.

(** X4. A line of white space only, and an empty one, ends its turn
    with nothing but the count of lines changed; and whenever a turn
    returns, it has left both [excel_rows] and [error_lines] untouched
    exactly when the line is white space only. *)
Theorem silent_lines_are_the_blank_ones
        (idx : nat) (line : list N) (st : state) :
  (all isspace line = true ->
   process_line idx line st = Ok (count_line st))
  /\ (forall st',
         process_line idx line st = Ok st' ->
         (excel_rows st' = excel_rows st /\ error_lines st' = error_lines st)
         <-> all isspace line = true).
Proof.
  split.
  - intros H. apply strip_blank in H. unfold process_line. now rewrite H.
  - intros st' Hrun. apply process_line_outcome in Hrun.
    rewrite <- strip_blank.
    assert (Hone : count "$" (strip line) = 1 -> strip line <> []).
    { intros H. apply (count_pos_nonempty "$"%char). lia. }
    destruct Hrun as [Hb | Hm | Hne _ _ | H1 _ _ | ? ? ? ? H1 _ _ _ _
                      | ? ? ? H1 _ _ _ _];
      cbn [excel_rows error_lines count_line append_error append_row
           add_price].
    + tauto.
    + split; [intros [_ H]; now apply OrderFacts.snoc_neq in H|].
      intros H. exfalso. rewrite H in Hm. simpl in Hm. lia.
    + split; [intros [H _]; now apply OrderFacts.snoc_neq in H | tauto].
    + split; [intros [_ H]; now apply OrderFacts.snoc_neq in H|].
      intros H. now apply Hone in H1.
    + split; [intros [H _]; now apply OrderFacts.snoc_neq in H|].
      intros H. now apply Hone in H1.
    + split; [intros [H _]; now apply OrderFacts.snoc_neq in H|].
      intros H. now apply Hone in H1.
Qed.

Lemma silent_lines_are_the_blank_ones_witness :
  process_line 1 ([no_break_space] ++ "　 " ++ [line_feed]) init
  = Ok (count_line init)
  /\ all isspace ([no_break_space] ++ "　 " ++ [line_feed]) = true.
Proof.
  destruct (silent_lines_are_the_blank_ones
              1 ([no_break_space] ++ "　 " ++ [line_feed]) init)
    as [H1 H2].
  split; [apply H1; reflexivity|].
  apply (H2 (count_line init)); [vm_compute; reflexivity|].
  split; reflexivity.
Defined.

(** ** The two patterns, part by part *)

(** X5. The full pattern matches a text exactly when the text begins
    with a name, white space, a quantity (digits and points, an
    optional unit [kg], [pcs], [set] or [p], an optional point),
    optional white space, ["$"] and a price; and the three groups of
    the match are such a name, quantity and price.  White space and
    digits are those of the classes [\s] and [\d]. *)
Theorem full_pattern_reads_name_qty_price (text : list N) :
  (forall m,
      match_ pattern_full text = Some m ->
      exists name qty price,
        groups pattern_full m = [Some name; Some qty; Some price]
        /\ full_parts text name qty price)
  /\ (match_ pattern_full text <> None
      <-> exists name qty price, full_parts text name qty price).
Proof.
  split; [apply PartsFacts.full_match_parts|]. split.
  - destruct (match_ pattern_full text) as [m|] eqn:E; [|congruence].
    intros _.
    destruct (PartsFacts.full_match_parts _ _ E) as (n & q & p & _ & H).
    eauto.
  - intros (name & qty & price & H).
    now apply PartsFacts.full_parts_match in H.
Qed.

Lemma full_pattern_reads_name_qty_price_witness :
  exists name qty price,
    groups pattern_full [(3, "３.00"); (2, "2pcs"); (1, "Coke")]
    = [Some name; Some qty; Some price]
    /\ full_parts ("Coke" ++ [no_break_space] ++ "2pcs　$３.00")
                  name qty price.
Proof.
  apply (proj1 (full_pattern_reads_name_qty_price
                  ("Coke" ++ [no_break_space] ++ "2pcs　$３.00"))).
  reflexivity.
Defined.

(** X6. The short pattern matches a text exactly when the text begins
    with a name, optional white space, ["$"] and a price; and the two
    groups of the match are such a name and price. *)
Theorem short_pattern_reads_name_price (text : list N) :
  (forall m,
      match_ pattern_short text = Some m ->
      exists name price,
        groups pattern_short m = [Some name; Some price]
        /\ short_parts text name price)
  /\ (match_ pattern_short text <> None
      <-> exists name price, short_parts text name price).
Proof.
  split; [apply PartsFacts.short_match_parts|]. split.
  - destruct (match_ pattern_short text) as [m|] eqn:E; [|congruence].
    intros _.
    destruct (PartsFacts.short_match_parts _ _ E) as (n & p & _ & H).
    eauto.
  - intros (name & price & H).
    now apply PartsFacts.short_parts_match in H.
Qed.

Lemma short_pattern_reads_name_price_witness :
  exists name price,
    groups pattern_short [(2, "1.5３"); (1, "Water")]
    = [Some name; Some price]
    /\ short_parts "Water　$1.5３" name price.
Proof.
  apply (proj1 (short_pattern_reads_name_price "Water　$1.5３")).
  reflexivity.
Defined.

(** ** The fields of a row *)

(** X7. Whenever the loop returns, every row of [excel_rows] is well
    formed: a category label is not empty, has no white space at either
    end and no ["$"]; an item name has no white space at either end and
    no ["$"]; both hold only characters the Word table takes; a
    quantity is empty or digits and points with an optional unit and an
    optional point; a price is a non-empty text of digits and points. *)
Theorem rows_are_well_formed (lines : list (list N)) (st : state) :
  process_txt_file lines = Ok st ->
  Forall well_formed_row (excel_rows st).
Proof.
  revert lines st.
  apply (process_invariant
           (fun _ st => Forall well_formed_row (excel_rows st))).
  - constructor.
  - intros seen line st st' HI Hout.
    assert (Hitem : forall name qty price,
               count "$" (strip line) = 1 ->
               item_match (strip line) name qty price ->
               legal (strip name) ->
               well_formed_row (item (strip name) (strip qty) price)).
    { intros name qty price H1 Hm Hl.
      destruct (FieldFacts.item_match_fields _ _ _ _ H1 Hm)
        as (Hn & Hq & Hp & _).
      split; [apply strip_stripped|].
      split; [now apply contains_strip|].
      split; [exact Hl|].
      split; [|exact Hp].
      destruct Hq as [-> | Hq]; [now left | right].
      now rewrite FieldFacts.qty_strip. }
    destruct Hout;
      cbn [excel_rows count_line append_error append_row add_price]; auto;
      apply Forall_app; (split; [exact HI|]); constructor; auto.
    split; [assumption|]. split; [apply strip_stripped|].
    split; assumption.
Qed.

Lemma rows_are_well_formed_witness :
  Forall well_formed_row [category "茶"; item "Tea" "2kg." "３"].
Proof.
  apply (rows_are_well_formed
           ["　茶　"; "  Tea  2kg.  $３ net"]
           {| excel_rows := [category "茶"; item "Tea" "2kg." "３"];
              total_lines := 2;
              valid_lines := 1;
              grand_total := S754_finite false 6755399441055744 (-51);
              error_lines := [] |}).
  vm_compute; reflexivity.
Defined.

(** X8. A line whose stripped text has exactly one ["$"], with no line
    feed before it.  If something stands before the ["$"] and a digit
    or a point right after it, the line is an item: the turn returns
    when the text before the ["$"] is legal, and whenever it returns it
    has added an item row.  Otherwise the turn returns with no row and
    the cannot-parse message. *)
Theorem one_dollar_line_is_item_or_error
        (idx : nat) (line : list N) (st : state) (pre post : list N) :
  strip line = pre ++ "$" ++ post ->
  contains "$" pre = false ->
  contains "$" post = false ->
  contains "010" pre = false ->
  if negb (is_empty pre) && starts_price post
  then (legal pre -> exists st', process_line idx line st = Ok st')
       /\ forall st',
           process_line idx line st = Ok st' ->
           exists name qty price,
             excel_rows st' = excel_rows st ++ [item name qty price]
  else process_line idx line st
       = Ok (append_error (msg_unparsable idx (strip line)) (count_line st)).
Proof.
  intros Htext Hpre Hpost Hnl.
  assert (Hone : count "$" (strip line) = 1).
  { rewrite Htext, !count_append.
    apply contains_count in Hpre, Hpost. rewrite Hpre, Hpost. reflexivity. }
  assert (Hdollar : contains "$" (strip line) = true).
  { rewrite Htext. now apply PatternFacts.contains_app_r. }
  assert (Hitem : forall name qty price,
             item_match (strip line) name qty price ->
             negb (is_empty pre) && starts_price post = true
             /\ exists rest, pre = name ++ rest).
  { intros name qty price Hm.
    destruct (FieldFacts.item_match_fields _ _ _ _ Hone Hm)
      as (Hn & _ & _ & pre' & post' & E & Hne & Hsp).
    rewrite Htext in E.
    destruct (FieldFacts.dollar_split_unique _ _ _ _ E Hpre Hpost)
      as [<- <-].
    split.
    - rewrite Hsp. destruct pre; [contradiction | reflexivity].
    - destruct (FieldFacts.item_match_parts _ _ _ _ Hm)
        as (_ & _ & _ & rest & E').
      rewrite Htext in E'. clear -E' Hn Hpre.
      revert pre E' Hpre. induction name as [|c name IH];
        intros pre E' Hpre.
      + now exists pre.
      + destruct pre as [|d pre].
        * simpl in E'. injection E' as <- _. simpl in Hn. discriminate.
        * simpl in E'. injection E' as <- E'. simpl in Hn, Hpre.
          apply orb_false_iff in Hn, Hpre.
          destruct (IH (proj2 Hn) pre E' (proj2 Hpre)) as [rest' ->].
          now exists rest'. }
  destruct (negb (is_empty pre) && starts_price post) eqn:Econd.
  - split.
    + intros Hl.
      destruct (process_line_cases idx line st)
        as [(st' & H & _) | [_ Hr]]; [eauto|].
      exfalso. destruct Hr as [Hc _ | name qty price _ Hm Hn];
        [congruence|].
      apply Hn, strip_legal.
      destruct (Hitem _ _ _ Hm) as [_ [rest ->]].
      now apply legal_app in Hl.
    + intros st' Hrun. apply process_line_outcome in Hrun.
      destruct Hrun as [Hb | Hm | _ Hc _ | _ Hf Hs | name qty price v _ Hm _ _ _
                        | name qty price _ Hm _ _ _];
        cbn [excel_rows error_lines count_line append_error append_row
             add_price].
      * rewrite Hb in Hone. discriminate.
      * lia.
      * congruence.
      * exfalso. apply andb_true_iff in Econd. destruct Econd as [Hne Hsp].
        destruct post as [|c r]; [discriminate|]. cbn [starts_price] in Hsp.
        apply (PartsFacts.short_parts_match (strip line) pre [c]);
          [|exact Hs].
        exists [], r. rewrite Htext. repeat split; auto.
        -- destruct pre; [discriminate Hne | discriminate].
        -- now apply FieldFacts.no_newline_all_any.
        -- discriminate.
        -- cbn [all]. now rewrite Hsp.
      * eauto.
      * eauto.
  - unfold process_line.
    destruct (is_empty_spec (strip line)) as [E | _];
      [rewrite E in Hone; discriminate|].
    rewrite Hone, Hdollar, andb_false_r. cbn [Nat.ltb Nat.leb].
    destruct (match_ pattern_full (strip line)) as [m|] eqn:Ef.
    + destruct (PartsFacts.full_match_parts _ _ Ef)
        as (name & qty & price & Hg & _).
      assert (Hm : item_match (strip line) name qty price)
        by now apply by_full with m.
      destruct (Hitem _ _ _ Hm) as [H _]. congruence.
    + destruct (match_ pattern_short (strip line)) as [m|] eqn:Es.
      * destruct (PartsFacts.short_match_parts _ _ Es)
          as (name & price & Hg & _).
        assert (Hm : item_match (strip line) name [] price)
          by now apply by_short with m.
        destruct (Hitem _ _ _ Hm) as [H _]. congruence.
      * reflexivity.
Qed.

Lemma one_dollar_line_is_item_or_error_witness :
  process_line 1 " $5 " init
  = Ok (append_error (msg_unparsable 1 (strip " $5 ")) (count_line init)).
Proof.
  apply (one_dollar_line_is_item_or_error 1 " $5 " init "" "5");
    reflexivity.
Defined.

(** ** The sign of the grand total *)

Module FloatFacts.

Lemma iter_pos_invariant {A : Type} (P : A -> Prop) (f : A -> A) :
  (forall x, P x -> P (f x)) ->
  forall n x, P x -> P (iter_pos f n x).
Proof.
  intros Hf. induction n as [n IH | n IH |]; intros x Hx; simpl; auto.
Qed.

Lemma shr_1_nonneg (mrs : shr_record) :
  (0 <= shr_m mrs)%Z -> (0 <= shr_m (shr_1 mrs))%Z.
Proof.
  destruct mrs as [m r s]. simpl.
  destruct m as [|[p|p|]|[p|p|]]; simpl; lia.
Qed.

Lemma shr_nonneg (mrs : shr_record) (e n : Z) :
  (0 <= shr_m mrs)%Z -> (0 <= shr_m (fst (shr mrs e n)))%Z.
Proof.
  intros H. destruct n as [|p|p]; simpl; auto.
  apply iter_pos_invariant; auto using shr_1_nonneg.
Qed.

Lemma shr_fexp_nonneg (prec emax m e : Z) (l : location) :
  (0 <= m)%Z -> (0 <= shr_m (fst (shr_fexp prec emax m e l)))%Z.
Proof.
  intros H. unfold shr_fexp. apply shr_nonneg.
  destruct l as [|[]]; exact H.
Qed.

Lemma round_nearest_even_nonneg (m : Z) (l : location) :
  (0 <= m)%Z -> (0 <= round_nearest_even m l)%Z.
Proof.
  intros H. destruct l as [|[]]; simpl; try lia.
  destruct (Z.even m); lia.
Qed.

Lemma binary_round_aux_nonneg (prec emax mx ex : Z) (lx : location) :
  (0 <= mx)%Z ->
  is_nonneg (binary_round_aux prec emax false mx ex lx) = true.
Proof.
  intros H. unfold binary_round_aux.
  pose proof (shr_fexp_nonneg prec emax mx ex lx H) as H1.
  destruct (shr_fexp prec emax mx ex lx) as [mrs' e']. simpl in H1.
  pose proof (shr_fexp_nonneg prec emax _ e' loc_Exact
                (round_nearest_even_nonneg _ (loc_of_shr_record mrs') H1))
    as H2.
  destruct (shr_fexp prec emax _ e' loc_Exact) as [mrs'' e'']. simpl in H2.
  destruct (shr_m mrs'') as [|m|m]; [reflexivity | | lia].
  now destruct (Z.leb e'' (emax - prec)).
Qed.

Lemma binary_round_nonneg (prec emax : Z) (m : positive) (e : Z) :
  is_nonneg (binary_round prec emax false m e) = true.
Proof.
  unfold binary_round. destruct (shl_align m e _) as [mz ez].
  apply binary_round_aux_nonneg. lia.
Qed.

(** The sum of two floats that are not negative is not negative. *)
Lemma add_nonneg (x y : spec_float) :
  is_nonneg x = true -> is_nonneg y = true ->
  is_nonneg (PyFloat.add x y) = true.
Proof.
  unfold PyFloat.add.
  destruct x as [[]|[]| |[] mx ex]; try discriminate;
    destruct y as [[]|[]| |[] my ey]; try discriminate;
    intros _ _; try reflexivity.
  unfold SFadd, binary_normalize, cond_Zopp.
  destruct (Z.pos (fst (shl_align mx ex (Z.min ex ey)))
            + Z.pos (fst (shl_align my ey (Z.min ex ey))))%Z eqn:E;
    try lia.
  apply binary_round_nonneg.
Qed.

Lemma div_nonneg (m1 m2 : positive) :
  is_nonneg (SFdiv PyFloat.prec PyFloat.emax
                   (S754_finite false m1 0) (S754_finite false m2 0)) = true.
Proof.
  unfold SFdiv, SFdiv_core_binary.
  match goal with
  | |- context [Z.div_eucl ?a ?b] =>
      assert (Ha : (0 <= a)%Z);
      [| pose proof (Z.div_eucl_eq a b ltac:(lia)) as Hq;
         pose proof (Z.mod_pos_bound a b ltac:(lia)) as Hr;
         unfold Z.modulo in Hr;
         destruct (Z.div_eucl a b) as [q r] ]
  end.
  - match goal with
    | |- context [match ?s with Z0 => _ | Zpos _ => _ | Zneg _ => _ end] =>
        destruct s; try lia
    end.
    apply Z.shiftl_nonneg. lia.
  - apply binary_round_aux_nonneg. nia.
Qed.

Lemma digitpart_nonneg : forall s acc n,
  (0 <= acc)%Z -> (0 <= fst (fst (PyFloat.digitpart s acc n)))%Z.
Proof.
  induction s as [|c s IH]; intros acc n Hacc; cbn [PyFloat.digitpart];
    [exact Hacc|].
  destruct (PyFloat.c_isdigit c).
  - apply IH. unfold PyFloat.digit_value. lia.
  - destruct ((c =? N_of_ascii "_")%N && (0 <? n)%nat); [|exact Hacc].
    destruct s as [|d s]; [exact Hacc|].
    destruct (PyFloat.c_isdigit d) eqn:Hd; [|exact Hacc].
    apply IH. exact Hacc.
Qed.

Lemma floatnumber_nonneg (s : list N) (m e : Z) :
  PyFloat.floatnumber s = Some (m, e) -> (0 <= m)%Z.
Proof.
  unfold PyFloat.floatnumber.
  pose proof (digitpart_nonneg s 0%Z 0 ltac:(lia)) as H1.
  destruct (PyFloat.digitpart s 0 0) as [[ip ni] r1]. simpl in H1.
  assert (H2 : forall r, (0 <= fst (fst (PyFloat.digitpart r ip 0)))%Z)
    by (intros r; now apply digitpart_nonneg).
  assert (Hm : (0 <= fst (fst match r1 with
                              | c :: r =>
                                  if (c =? N_of_ascii ".")%N
                                  then PyFloat.digitpart r ip 0
                                  else (ip, 0%nat, r1)
                              | [] => (ip, 0%nat, r1)
                              end))%Z).
  { destruct r1 as [|c r]; auto. destruct (c =? N_of_ascii ".")%N; auto. }
  destruct (match r1 with
            | c :: r =>
                if (c =? N_of_ascii ".")%N
                then PyFloat.digitpart r ip 0
                else (ip, 0, r1)
            | [] => (ip, 0, r1)
            end) as [[m' nf] r2].
  simpl in Hm. destruct (ni + nf =? 0)%nat; [discriminate|].
  destruct (PyFloat.exponent r2); [|discriminate].
  now intros [= <- _].
Qed.

Lemma of_decimal_nonneg (m e : Z) :
  (0 <= m)%Z -> is_nonneg (PyFloat.of_decimal false m e) = true.
Proof.
  intros H. unfold PyFloat.of_decimal.
  destruct m as [|p|p]; [reflexivity | apply div_nonneg | lia].
Qed.

(** The float of a price is not negative. *)
Lemma float_price_nonneg (p : list N) (v : spec_float) :
  price_shape p -> PyFloat.float p = Some v -> is_nonneg v = true.
Proof.
  intros Hp. rewrite (float_price_eq p Hp).
  destruct (PyFloat.floatnumber (map ascii_digit p)) as [[m e]|] eqn:E;
    [|discriminate].
  intros [= <-]. apply of_decimal_nonneg.
  now apply floatnumber_nonneg in E.
Qed.

(** The loop keeps the grand total from being negative. *)
Lemma loop_total_nonneg (lines : list (list N)) (st : state) :
  process_txt_file lines = Ok st -> is_nonneg (grand_total st) = true.
Proof.
  revert lines st.
  apply (process_invariant
           (fun _ st => is_nonneg (grand_total st) = true)).
  - reflexivity.
  - intros seen line st st' HI Hout.
    destruct Hout as [ | | | | name qty price v _ _ Hp _ Hf | ];
      cbn [grand_total count_line append_error append_row add_price]; auto.
    apply add_nonneg; [exact HI|].
    now apply (float_price_nonneg price).
Qed.

Lemma digit_char_isdigit (k : Z) :
  (0 <= k < 10)%Z -> PyFloat.c_isdigit (PyFormat.digit_char k) = true.
Proof.
  intros H. unfold PyFloat.c_isdigit, PyFormat.digit_char.
  apply andb_true_iff. rewrite !N.leb_le. lia.
Qed.

Lemma str_of_N_digits (n : N) :
  PyFormat.str_of_N n <> []
  /\ all PyFloat.c_isdigit (PyFormat.str_of_N n) = true.
Proof.
  unfold PyFormat.str_of_N, NilZero.string_of_uint.
  destruct (N.to_uint n) eqn:E; (split; [discriminate|]);
    try reflexivity; rewrite <- E; apply string_of_uint_digits.
Qed.

Lemma fixed2_shape (c : Z) : two_decimals (PyFormat.fixed2 c).
Proof.
  unfold PyFormat.fixed2.
  destruct (str_of_N_digits (Z.to_N (c / 100))) as [Hne Hd].
  eexists _, _, _. split; [reflexivity|].
  repeat split; auto; apply digit_char_isdigit; apply Z.mod_pos_bound; lia.
Qed.

(** A float that is not negative is rendered without a sign, and is
    never rendered as [nan]. *)
Lemma format_nonneg (x : spec_float) :
  is_nonneg x = true ->
  PyFormat.format_2f x = "inf" \/ two_decimals (PyFormat.format_2f x).
Proof.
  destruct x as [[]|[]| |[] m e]; try discriminate; intros _;
    cbn [PyFormat.format_2f PyFormat.sign_text].
  - right. exists "0", 48%N, 48%N. repeat split; discriminate.
  - now left.
  - right. apply fixed2_shape.
Qed.

(** The text of an amount holds ASCII digits, a point and a sign at
    most, or is one of [inf] and [nan]: the Word table takes it. *)
Lemma digits_legal (s : list N) :
  all PyFloat.c_isdigit s = true -> legal s.
Proof.
  apply all_impl. intros c Hc. unfold PyFloat.c_isdigit in Hc.
  apply andb_true_iff in Hc. rewrite !N.leb_le in Hc.
  apply xml_char_spec. lia.
Qed.

Lemma format_legal (x : spec_float) : legal (PyFormat.format_2f x).
Proof.
  assert (Hs : forall s, legal (PyFormat.sign_text s))
    by (intros []; reflexivity).
  destruct x as [s|s| |s m e]; cbn [PyFormat.format_2f];
    try reflexivity; apply legal_app; (split; [apply Hs|]);
    try reflexivity.
  destruct (fixed2_shape (PyFormat.hundredths m e))
    as (ip & d1 & d2 & -> & _ & Hip & H1 & H2).
  apply legal_app. split; [now apply digits_legal|].
  apply legal_app. split; [reflexivity|].
  apply digits_legal. cbn [all]. now rewrite H1, H2.
Qed.

Lemma grand_total_text_legal (x : spec_float) : legal (grand_total_text x).
Proof.
  unfold grand_total_text. apply legal_app. split; [reflexivity|].
  apply format_legal.
Qed.

End FloatFacts.

(** X9. The grand total is never negative and never NaN: whenever the
    loop returns, it is [+0.0], a positive number or [+inf]. *)
Theorem grand_total_is_not_negative (lines : list (list N)) (st : state) :
  process_txt_file lines = Ok st -> is_nonneg (grand_total st) = true.
Proof. exact (FloatFacts.loop_total_nonneg lines st). Qed.

Lemma grand_total_is_not_negative_witness :
  is_nonneg (S754_finite false 6755399441055744 (-51)) = true.
Proof.
  apply (grand_total_is_not_negative
           ["x $1 $2"; "　茶　"; ""; "Tea $３"]
           {| excel_rows := [category "茶"; item "Tea" "" "３"];
              total_lines := 4;
              valid_lines := 1;
              grand_total := S754_finite false 6755399441055744 (-51);
              error_lines := [msg_multi_dollar 1 "x $1 $2"] |}).
  vm_compute; reflexivity.
Defined.

(** X10. The line "Grand Total: $..." of the two documents shows the
    total as digits, a point and two digits, or as [inf]: whenever the
    loop returns, never with a sign and never as [nan]. *)
Theorem grand_total_text_is_an_amount (lines : list (list N)) (st : state) :
  process_txt_file lines = Ok st ->
  exists amount,
    grand_total_text (grand_total st) = "Grand Total: $" ++ amount
    /\ (amount = "inf" \/ two_decimals amount).
Proof.
  intros Hrun. apply FloatFacts.loop_total_nonneg in Hrun.
  exists (PyFormat.format_2f (grand_total st)). split; [reflexivity|].
  now apply FloatFacts.format_nonneg.
Qed.

Lemma grand_total_text_is_an_amount_witness :
  exists amount,
    grand_total_text (S754_finite false 6755399441055744 (-51))
    = "Grand Total: $" ++ amount
    /\ (amount = "inf" \/ two_decimals amount).
Proof.
  apply (grand_total_text_is_an_amount
           ["x $1 $2"; "　茶　"; ""; "Tea $３"]
           {| excel_rows := [category "茶"; item "Tea" "" "３"];
              total_lines := 4;
              valid_lines := 1;
              grand_total := S754_finite false 6755399441055744 (-51);
              error_lines := [msg_multi_dollar 1 "x $1 $2"] |}).
  vm_compute; reflexivity.
Defined.

(** ** The Excel sheet *)

Module SheetFacts.

Import Sheet.

Lemma write_entries_end : forall rows row_idx,
  snd (write_entries row_idx rows) = row_idx + List.length rows.
Proof.
  induction rows as [|entry rest IH]; intros row_idx; simpl.
  - lia.
  - specialize (IH (row_idx + 1)).
    destruct (write_entries (row_idx + 1) rest) as [ops row_idx'].
    simpl in *. lia.
Qed.

Lemma in_write_entries : forall rows row_idx o,
  In o (fst (write_entries row_idx rows))
  <-> exists k entry,
      nth_error rows k = Some entry
      /\ In o (write_entry (row_idx + k) entry).
Proof.
  induction rows as [|entry rest IH]; intros row_idx o; simpl.
  - split; [intros [] | intros ([|k] & e & H & _); discriminate].
  - specialize (IH (row_idx + 1) o).
    destruct (write_entries (row_idx + 1) rest) as [ops row_idx'].
    simpl in *. rewrite in_app_iff, IH. split.
    + intros [H | (k & e & Hk & H)].
      * exists 0, entry. now rewrite Nat.add_0_r.
      * exists (S k), e. split; [exact Hk|].
        now replace (row_idx + S k) with (row_idx + 1 + k) by lia.
    + intros ([|k] & e & Hk & H); simpl in Hk.
      * injection Hk as <-. left. now rewrite Nat.add_0_r in H.
      * right. exists k, e. split; [exact Hk|].
        now replace (row_idx + 1 + k) with (row_idx + S k) by lia.
Qed.

Lemma write_sheet_eq doc_title rows grand_total invoice_date :
  write_sheet doc_title rows grand_total invoice_date
  = (top doc_title ++ fst (write_entries 3 rows)
     ++ bottom (3 + List.length rows) grand_total invoice_date)%list.
Proof.
  unfold write_sheet. cbn [Nat.add].
  pose proof (write_entries_end rows 3) as Hend.
  destruct (write_entries 3 rows) as [ops row_idx].
  cbn [fst snd] in *. subst row_idx.
  replace (3 + List.length rows + 1 + 1 + 1 + 1
           - (3 + List.length rows + 1 + 1)) with 2 by lia.
  unfold top, bottom. cbn [seq map app headers enumerate].
  repeat (f_equal; try lia).
Qed.

(** The cells the loop writes lie in its own rows, each written once. *)
Lemma written_entries : forall rows row_idx,
  NoDup (written (fst (write_entries row_idx rows)))
  /\ forall r c,
      In (r, c) (written (fst (write_entries row_idx rows))) ->
      row_idx <= r < row_idx + List.length rows.
Proof.
  induction rows as [|entry rest IH]; intros row_idx; simpl.
  - split; [constructor | intros r c []].
  - specialize (IH (row_idx + 1)).
    destruct (write_entries (row_idx + 1) rest) as [ops row_idx'].
    cbn [fst] in *. destruct IH as [Hnd Hin].
    unfold written in *. rewrite flat_map_app.
    assert (Hfirst : forall r c,
               In (r, c) (flat_map (fun o => match o with
                                            | cell r c _ => [(r, c)]
                                            | _ => []
                                            end)
                                   (write_entry row_idx entry)) ->
               r = row_idx).
    { intros r c H. destruct entry; simpl in H;
        repeat (destruct H as [[= <- <-] | H]; [reflexivity|]);
        destruct H. }
    split.
    + apply NoDup_app; [| exact Hnd |].
      * destruct entry; simpl; repeat constructor; simpl;
          intuition congruence.
      * intros [r c] H1 H2. apply Hfirst in H1. apply Hin in H2. lia.
    + intros r c H. apply in_app_or in H. destruct H as [H | H].
      * apply Hfirst in H. lia.
      * apply Hin in H. lia.
Qed.

Lemma written_sheet doc_title rows grand_total invoice_date :
  NoDup (written
           (write_sheet doc_title rows grand_total invoice_date)).
Proof.
  rewrite write_sheet_eq. unfold written. rewrite !flat_map_app.
  destruct (written_entries rows 3) as [Hnd Hin].
  unfold written in Hnd, Hin.
  set (n := List.length rows) in *.
  apply NoDup_app.
  - simpl. repeat constructor; simpl; intuition congruence.
  - apply NoDup_app; [exact Hnd | |].
    + simpl. repeat constructor; simpl; [|tauto].
      intros [H | []]. injection H as H. lia.
    + intros [r c] H1 H2. apply Hin in H1. simpl in H2.
      destruct H2 as [[= <- <-] | [[= <- <-] | []]]; lia.
  - intros [r c] H1 H2. apply in_app_or in H2.
    destruct H2 as [H2 | H2].
    + apply Hin in H2. simpl in H1.
      repeat (destruct H1 as [[= <- <-] | H1]; [lia|]). destruct H1.
    + simpl in H1, H2.
      repeat (destruct H1 as [[= <- <-] | H1];
              [destruct H2 as [[= H2 _] | [[= H2 _] | []]]; lia|]).
      destruct H1.
Qed.

(** A cell written once holds what was written. *)
Lemma value_at_written : forall ops r c v,
  NoDup (written ops) -> In (cell r c v) ops -> value_at ops r c = Some v.
Proof.
  induction ops as [|o ops IH]; intros r c v Hnd Hin; [destruct Hin|].
  assert (Hnd' : NoDup (written ops)).
  { unfold written in *. simpl in Hnd. now apply NoDup_app_remove_l in Hnd. }
  destruct Hin as [-> | Hin].
  - simpl. destruct (value_at ops r c) as [v'|] eqn:E.
    + exfalso. unfold written in Hnd. simpl in Hnd.
      apply NoDup_cons_iff in Hnd. destruct Hnd as [Hnotin _].
      apply Hnotin. clear -E.
      induction ops as [|o ops IH]; [discriminate|]. simpl in E.
      apply in_or_app.
      destruct (value_at ops r c) eqn:E'; [right; now apply IH|].
      left. destruct o as [| r' c' v0 |]; try discriminate.
      destruct ((r =? r')%nat && (c =? c')%nat) eqn:Hrc; [|discriminate].
      apply andb_true_iff in Hrc. destruct Hrc as [Hr Hc].
      apply Nat.eqb_eq in Hr, Hc. subst. now left.
    + now rewrite !Nat.eqb_refl.
  - simpl. now rewrite (IH r c v Hnd' Hin).
Qed.

Lemma in_write_sheet doc_title rows grand_total invoice_date o :
  In o (write_sheet doc_title rows grand_total invoice_date)
  <-> In o (top doc_title)
      \/ (exists k entry,
             nth_error rows k = Some entry
             /\ In o (write_entry (3 + k) entry))
      \/ In o (bottom (3 + List.length rows) grand_total invoice_date).
Proof.
  rewrite write_sheet_eq, !in_app_iff, in_write_entries. tauto.
Qed.

(** Where the merged ranges are. *)
Lemma merges_of_sheet doc_title rows grand_total invoice_date r1 c1 r2 c2 :
  In (merge_cells r1 c1 r2 c2)
     (write_sheet doc_title rows grand_total invoice_date) ->
  c1 = 1 /\ c2 = 3
  /\ (r1 = 1 /\ r2 = 1
      \/ (exists k name,
             nth_error rows k = Some (category name)
             /\ r1 = 3 + k /\ r2 = 3 + k)
      \/ (r1 = 3 + List.length rows /\ r2 = 4 + List.length rows)
      \/ (r1 = 5 + List.length rows /\ r2 = 6 + List.length rows)).
Proof.
  intros H. apply in_write_sheet in H.
  destruct H as [H | [(k & entry & Hk & H) | H]].
  - simpl in H.
    repeat (destruct H as [H | H]; [try discriminate H|]); try easy.
    injection H as <- <- <- <-. auto.
  - destruct entry as [name | name qty price]; simpl in H.
    + destruct H as [H | [H | []]]; [|discriminate].
      injection H as <- <- <- <-.
      split; [reflexivity|]. split; [reflexivity|].
      right. left. eauto.
    + repeat (destruct H as [H | H]; [discriminate H|]). destruct H.
  - simpl in H.
    destruct H as [H | [H | [H | H]]].
    + injection H as <- <- <- <-. repeat split; auto. right. right. left. lia.
    + discriminate.
    + injection H as <- <- <- <-. repeat split; auto. right. right. right.
      lia.
    + repeat (destruct H as [H | H]; [discriminate H|]). destruct H.
Qed.

(** Where the cells written are. *)
Lemma cells_of_sheet doc_title rows grand_total invoice_date r c v :
  In (cell r c v) (write_sheet doc_title rows grand_total invoice_date) ->
  r = 1 /\ c = 1
  \/ r = 2 /\ 1 <= c <= 3
  \/ (exists k name,
         nth_error rows k = Some (category name) /\ r = 3 + k /\ c = 1)
  \/ (exists k name qty price,
         nth_error rows k = Some (item name qty price)
         /\ r = 3 + k /\ 1 <= c <= 3)
  \/ r = 3 + List.length rows /\ c = 1
  \/ r = 5 + List.length rows /\ c = 1.
Proof.
  intros H. apply in_write_sheet in H.
  destruct H as [H | [(k & entry & Hk & H) | H]].
  - simpl in H.
    destruct H as [H | [H | [H | [H | [H | []]]]]]; try discriminate;
      injection H as <- <- _; [left | right; left ..]; lia.
  - destruct entry as [name | name qty price]; simpl in H.
    + destruct H as [H | [H | []]]; [discriminate|].
      injection H as <- <- _. right. right. left. eauto.
    + right. right. right. left. exists k, name, qty, price.
      destruct H as [H | [H | [H | []]]]; injection H as <- <- _;
        repeat split; auto; lia.
  - simpl in H.
    destruct H as [H | [H | [H | [H | [H | [H | []]]]]]]; try discriminate;
      injection H as <- <- _; [do 4 right; left | do 5 right]; lia.
Qed.

End SheetFacts.

(** X11. The sheet shows the rows in order from sheet row 3: row
    [k] of [excel_rows] is on sheet row [3 + k], a category as one
    merged cell, an item as name, quantity and ["$"] followed by its
    price; the title is above, the grand total on the row after the
    last entry and the footer two rows further down. *)
Theorem sheet_shows_every_row
        (doc_title : list N) (rows : list row) (grand_total : spec_float)
        (invoice_date : list N) :
  let ops := Sheet.write_sheet doc_title rows grand_total invoice_date in
  let n := List.length rows in
  (forall k name,
      nth_error rows k = Some (category name) ->
      In (Sheet.merge_cells (3 + k) 1 (3 + k) 3) ops
      /\ Sheet.value_at ops (3 + k) 1 = Some name)
  /\ (forall k name qty price,
         nth_error rows k = Some (item name qty price) ->
         Sheet.value_at ops (3 + k) 1 = Some name
         /\ Sheet.value_at ops (3 + k) 2 = Some qty
         /\ Sheet.value_at ops (3 + k) 3 = Some ("$" ++ price))
  /\ Sheet.value_at ops 1 1 = Some (Sheet.upper doc_title)
  /\ Sheet.value_at ops (3 + n) 1 = Some (grand_total_text grand_total)
  /\ Sheet.value_at ops (5 + n) 1 = Some (Sheet.footer_text invoice_date).
Proof.
  intros ops n.
  pose proof (SheetFacts.written_sheet doc_title rows grand_total
                                       invoice_date) as Hnd.
  fold ops in Hnd.
  assert (Hentry : forall k entry o,
             nth_error rows k = Some entry ->
             In o (Sheet.write_entry (3 + k) entry) -> In o ops).
  { intros k entry o Hk Ho. apply SheetFacts.in_write_sheet.
    right. left. exists k, entry. auto. }
  assert (Hval : forall r c v,
             In (Sheet.cell r c v) ops -> Sheet.value_at ops r c = Some v).
  { intros r c v. now apply SheetFacts.value_at_written. }
  split; [|split; [|split; [|split]]].
  - intros k name Hk. split; [|apply Hval];
      apply (Hentry k _ _ Hk); simpl; auto.
  - intros k name qty price Hk.
    repeat split; apply Hval, (Hentry k _ _ Hk); simpl; auto.
  - apply Hval, SheetFacts.in_write_sheet. left. simpl. auto.
  - apply Hval, SheetFacts.in_write_sheet. right. right. simpl. auto.
  - apply Hval, SheetFacts.in_write_sheet. right. right.
    replace (5 + n) with (3 + n + 2) by lia. simpl. auto.
Qed.

Lemma sheet_shows_every_row_witness :
  Sheet.value_at
    (Sheet.write_sheet "café straße"
                       [category "Drinks"; item "Coke" "2pcs" "3.00"]
                       PyFloat.zero "03 November 2026") (3 + 1) 3
  = Some ("$" ++ "3.00")
  /\ Sheet.upper "café straße" = "CAFÉ STRASSE".
Proof.
  destruct (sheet_shows_every_row
              "café straße" [category "Drinks"; item "Coke" "2pcs" "3.00"]
              PyFloat.zero "03 November 2026") as (_ & H & _).
  destruct (H 1 "Coke" "2pcs" "3.00" eq_refl) as (_ & _ & H3).
  split; [exact H3 | vm_compute; reflexivity].
Defined.

(** X12. The sheet is laid out without collisions: no cell is written
    twice, a cell written inside a merged range is the top-left cell
    of that range, and no two merged ranges share a cell. *)
Theorem sheet_layout_has_no_collision
        (doc_title : list N) (rows : list row) (grand_total : spec_float)
        (invoice_date : list N) :
  let ops := Sheet.write_sheet doc_title rows grand_total invoice_date in
  NoDup (Sheet.written ops)
  /\ (forall r c v m,
         In (Sheet.cell r c v) ops -> In m ops -> Sheet.covers m r c ->
         exists r2 c2, m = Sheet.merge_cells r c r2 c2)
  /\ (forall m1 m2 r c,
         In m1 ops -> In m2 ops ->
         Sheet.covers m1 r c -> Sheet.covers m2 r c -> m1 = m2).
Proof.
  intros ops.
  assert (Hlt : forall k entry, nth_error rows k = Some entry ->
                                k < List.length rows).
  { intros k entry H. apply nth_error_Some. congruence. }
  split; [apply SheetFacts.written_sheet|]. split.
  - intros r c v m Hc Hm Hcov.
    destruct m as [r1 c1 r2 c2 | |]; simpl in Hcov; try contradiction.
    apply SheetFacts.merges_of_sheet in Hm.
    apply SheetFacts.cells_of_sheet in Hc.
    exists r2, c2.
    destruct Hm as (-> & -> & Hm).
    destruct Hc as [Hc | [Hc | [(k & name & Hk & Hc)
                   | [(k & name & qty & price & Hk & Hc) | [Hc | Hc]]]]];
      try (pose proof (Hlt _ _ Hk));
      destruct Hm as [Hm | [(k' & name' & Hk' & Hm) | [Hm | Hm]]];
      try (pose proof (Hlt _ _ Hk'));
      try (f_equal; lia).
    exfalso. assert (k = k') by lia. subst k'. congruence.
  - intros m1 m2 r c H1 H2 Hc1 Hc2.
    destruct m1 as [a1 b1 a2 b2 | |]; simpl in Hc1; try contradiction.
    destruct m2 as [a1' b1' a2' b2' | |]; simpl in Hc2; try contradiction.
    apply SheetFacts.merges_of_sheet in H1, H2.
    destruct H1 as (-> & -> & H1). destruct H2 as (-> & -> & H2).
    destruct H1 as [H1 | [(k & name & Hk & H1) | [H1 | H1]]];
      try (pose proof (Hlt _ _ Hk));
      destruct H2 as [H2 | [(k' & name' & Hk' & H2) | [H2 | H2]]];
      try (pose proof (Hlt _ _ Hk'));
      f_equal; lia.
Qed.

Lemma sheet_layout_has_no_collision_witness :
  exists r2 c2, Sheet.merge_cells 3 1 3 3 = Sheet.merge_cells 3 1 r2 c2.
Proof.
  destruct (sheet_layout_has_no_collision
              "bill" [category "Drinks"] PyFloat.zero "03 November 2026")
    as (_ & H & _).
  apply (H 3 1 "Drinks" (Sheet.merge_cells 3 1 3 3)).
  - vm_compute. tauto.
  - vm_compute. tauto.
  - simpl. lia.
Defined.

(** ** The Word document *)

Module WordFacts.

(** One turn with the table does to the state what the turn without
    it does, raises when it raises, and keeps the table in step. *)
Lemma process_line_step idx line table st :
  Word.in_step (table, st) ->
  match process_line idx line st with
  | Ok st' =>
      exists table',
        Word.process_line idx line (table, st) = Ok (table', st')
        /\ Word.in_step (table', st')
  | Raise e => Word.process_line idx line (table, st) = Raise e
  end.
Proof.
  intros Hin. unfold process_line, Word.process_line.
  destruct (is_empty (strip line)).
  { eexists; split; [reflexivity | exact Hin]. }
  destruct (1 <? count "$" (strip line))%nat.
  { eexists; split; [reflexivity | exact Hin]. }
  unfold Word.in_step in *. cbn [fst snd] in Hin. subst table.
  destruct (negb (is_match (match_ pattern_full (strip line)))
            && negb (is_match (match_ pattern_short (strip line)))
            && negb (contains "$" (strip line))).
  { unfold insert_category_title, Word.insert_category_title.
    destruct (Docx.set_text (strip line)) as [[]|e]; cbn [bind];
      [|reflexivity].
    eexists; split; [reflexivity|].
    cbn [fst snd excel_rows count_line append_row]. now rewrite map_app. }
  destruct (item_fields (match_ pattern_full (strip line))
                        (match_ pattern_short (strip line)))
    as [[[[name qty] price]|]|e]; cbn [bind]; [| |reflexivity].
  2:{ eexists; split; reflexivity. }
  destruct (strip_method name) as [cell0|e]; cbn [bind]; [|reflexivity].
  destruct (Docx.set_text cell0) as [[]|e]; cbn [bind]; [|reflexivity].
  destruct (strip_method qty) as [cell1|e]; cbn [bind]; [|reflexivity].
  destruct (Docx.set_text cell1) as [[]|e]; cbn [bind]; [|reflexivity].
  destruct (strip_method price) as [cell2|e]; cbn [bind]; [|reflexivity].
  destruct (Docx.set_text ("$" ++ cell2)) as [[]|e]; cbn [bind];
    [|reflexivity].
  destruct (float_call price) as [v|e];
    (eexists; split; [reflexivity|]);
    cbn [fst snd excel_rows count_line add_price append_error append_row];
    now rewrite map_app.
Qed.

Lemma loop_step : forall lines idx table st,
  Word.in_step (table, st) ->
  match loop idx lines st with
  | Ok st' =>
      exists table',
        Word.loop idx lines (table, st) = Ok (table', st')
        /\ Word.in_step (table', st')
  | Raise e => Word.loop idx lines (table, st) = Raise e
  end.
Proof.
  induction lines as [|line rest IH]; intros idx table st Hin.
  - exists table. auto.
  - cbn [loop Word.loop].
    pose proof (process_line_step idx line table st Hin) as H.
    destruct (process_line idx line st) as [st1|e].
    + destruct H as (table1 & -> & Hin1). cbn [bind]. now apply IH.
    + now rewrite H.
Qed.

End WordFacts.

(** X13. Whenever the Word document is filled, the loop has returned
    and the document shows what the Excel sheet shows: the title in
    upper case as its heading, and in the table, under the header row,
    one row for each entry of [excel_rows], in the same order (a
    category in one merged cell, an item as name, quantity and ["$"]
    followed by its price), and the grand total in a last merged row.
    It is filled when the loop returns and the title in upper case is
    legal; a title that is not legal raises [ValueError]. *)
Theorem word_table_shows_the_rows
        (doc_title : list N) (lines : list (list N)) :
  (forall doc st,
      Word.fill_document doc_title lines = Ok (doc, st) ->
      process_txt_file lines = Ok st
      /\ Word.heading doc = PyCase.upper doc_title
      /\ Word.table doc
         = (Word.header_row :: map Word.shows (excel_rows st)
            ++ [Word.merged (grand_total_text (grand_total st))])%list)
  /\ (forall st,
         process_txt_file lines = Ok st ->
         legal (PyCase.upper doc_title) ->
         exists doc, Word.fill_document doc_title lines = Ok (doc, st))
  /\ (~ legal (PyCase.upper doc_title) ->
      Word.fill_document doc_title lines = Raise ValueError).
Proof.
  pose proof (WordFacts.loop_step lines 1 [Word.header_row] init eq_refl)
    as Hloop.
  fold (process_txt_file lines) in Hloop.
  unfold Word.fill_document, Word.add_heading.
  destruct (set_text_cases (PyCase.upper doc_title)) as [[-> Hl] | [-> Hl]];
    cbn [bind].
  - destruct (process_txt_file lines) as [st|e].
    + destruct Hloop as (table & -> & Hin). cbn [bind].
      rewrite (set_text_legal _ (FloatFacts.grand_total_text_legal _)).
      cbn [bind]. unfold Word.in_step in Hin. cbn [fst snd] in Hin.
      split; [|split; [|contradiction]].
      * intros doc st' [= <- <-]. rewrite Hin. auto.
      * intros st' [= <-] _. eauto.
    + rewrite Hloop. cbn [bind].
      split; [|split; [|contradiction]]; discriminate.
  - split; [|split; [|reflexivity]]; [discriminate | contradiction].
Qed.

Lemma word_table_shows_the_rows_witness :
  exists doc,
    Word.fill_document "café straße" ["Drinks"; "Coke 2pcs $3.00"]
    = Ok (doc,
          {| excel_rows := [category "Drinks"; item "Coke" "2pcs" "3.00"];
             total_lines := 2;
             valid_lines := 1;
             grand_total := S754_finite false 6755399441055744 (-51);
             error_lines := [] |}).
Proof.
  apply (proj1 (proj2 (word_table_shows_the_rows
                         "café straße" ["Drinks"; "Coke 2pcs $3.00"]))).
  - vm_compute; reflexivity.
  - vm_compute; reflexivity.
Defined.

(** ** File names *)

Module NameFacts.

Import Names.





Lemma replace_absent (old new : list N) : forall s,
  occurs old s = false -> replace old new s = s.
Proof.
  unfold replace. induction s as [|c s IH]; [reflexivity|].
  cbn [occurs replace_from]. intros H. apply orb_false_iff in H.
  destruct H as [-> H]. now rewrite (IH H).
Qed.

(** [".txt"] cannot begin inside a text and end in a [".txt"] put
    after it. *)
Lemma no_overlap (c : N) (s : list N) :
  prefix ".txt" (c :: s) = false ->
  prefix ".txt" (c :: s ++ ".txt") = false.
Proof.
  change (Utf8.decode ".txt") with [46; 116; 120; 116]%N.
  destruct s as [|a [|b [|d r]]]; cbn [prefix app]; intros H.
  - now rewrite andb_false_r.
  - now rewrite !andb_false_r.
  - now rewrite !andb_false_r.
  - exact H.
Qed.

Lemma replace_stem (new : list N) : forall stem,
  occurs ".txt" stem = false ->
  replace ".txt" new (stem ++ ".txt") = stem ++ new.
Proof.
  unfold replace. induction stem as [|c s IH].
  - intros _. simpl. now rewrite app_nil_r.
  - cbn [occurs]. intros H. apply orb_false_iff in H. destruct H as [Hp H].
    cbn [app replace_from]. rewrite (no_overlap c s Hp).
    now rewrite (IH H).
Qed.

End NameFacts.

(** X14. For a file name [stem ++ ".txt"] whose stem holds no
    [".txt"], the Word file is named [stem ++ ".docx"] and the Excel
    file [stem ++ ".xlsx"]. *)
Theorem output_names_swap_the_extension (stem : list N) :
  Names.occurs ".txt" stem = false ->
  Names.docx_name (stem ++ ".txt") = stem ++ ".docx"
  /\ Names.xlsx_name (stem ++ ".txt") = stem ++ ".xlsx".
Proof.
  intros H. split; now apply NameFacts.replace_stem.
Qed.

Lemma output_names_swap_the_extension_witness :
  Names.docx_name ("bill.v2" ++ ".txt") = "bill.v2" ++ ".docx"
  /\ Names.xlsx_name ("bill.v2" ++ ".txt") = "bill.v2" ++ ".xlsx".
Proof.
  apply (output_names_swap_the_extension "bill.v2"). reflexivity.
Defined.

(** X15. A name that ends in [".txt"] only when case is ignored, such
    as ["BILL.TXT"], is accepted as it stands, and since it holds no
    lower-case [".txt"] to replace, the Word file and the Excel file
    both get the path of the input file itself. *)
Theorem upper_case_extension_overwrites_the_input
        (join : list N -> list N -> list N) (isfile : list N -> bool)
        (search_path txt_input : list N) (title_input : option (list N)) :
  Names.endswith (PyFloat.lower txt_input) ".txt" = true ->
  Names.occurs ".txt" txt_input = false ->
  isfile (join search_path txt_input) = true ->
  exists doc_title,
    Names.main_step join isfile search_path (Some txt_input) title_input
    = Names.Process (join search_path txt_input) search_path txt_input
                    doc_title
    /\ Names.docx_path join search_path txt_input = join search_path txt_input
    /\ Names.excel_path join search_path txt_input
       = join search_path txt_input.
Proof.
  intros Hends Habsent Hfile.
  unfold Names.main_step, Names.with_txt_suffix. rewrite Hends. simpl negb.
  cbv iota. rewrite Hfile. simpl negb. cbv iota.
  eexists. split; [reflexivity|].
  unfold Names.docx_path, Names.excel_path, Names.docx_name, Names.xlsx_name.
  now rewrite !NameFacts.replace_absent.
Qed.

Lemma upper_case_extension_overwrites_the_input_witness :
  exists doc_title,
    Names.main_step (fun a b => a ++ "/" ++ b) (fun _ => true) "bills"
                    (Some "BILL.TXT") None
    = Names.Process "bills/BILL.TXT" "bills" "BILL.TXT" doc_title
    /\ Names.docx_path (fun a b => a ++ "/" ++ b) "bills" "BILL.TXT"
       = "bills/BILL.TXT"
    /\ Names.excel_path (fun a b => a ++ "/" ++ b) "bills" "BILL.TXT"
       = "bills/BILL.TXT".
Proof.
  apply (upper_case_extension_overwrites_the_input
           (fun a b => a ++ "/" ++ b) (fun _ => true) "bills" "BILL.TXT" None);
    reflexivity.
Defined.



(** ** White space and blank lines *)

Module BlankFacts.

Lemma process_line_strip (idx : nat) (line : list N) (st : state) :
  process_line idx (strip line) st = process_line idx line st.
Proof. unfold process_line. now rewrite strip_strip. Qed.

Lemma loop_strip : forall lines idx st,
  loop idx (map strip lines) st = loop idx lines st.
Proof.
  induction lines as [|line rest IH]; intros idx st; [reflexivity|].
  cbn [map loop]. rewrite process_line_strip.
  destruct (process_line idx line st); cbn [bind]; auto.
Qed.





End BlankFacts.

(** X17. White space around a line never matters: stripping every
    line beforehand gives the same result, messages and counters
    included. *)
Theorem surrounding_white_space_is_ignored (lines : list (list N)) :
  process_txt_file (map strip lines) = process_txt_file lines.
Proof. apply BlankFacts.loop_strip. Qed.



(** ** The price is the longest run of digits and points *)

Module GreedFacts.

Import ReFacts.

Section Greedy.

Variable A : Type.
Implicit Types (kont : list N -> captures -> option A).

Lemma rep_greedy_zero_total k : forall s g kont,
  (forall s' g', kont s' g' <> None) -> rep_greedy k 0 s g kont <> None.
Proof.
  induction s as [|c s IH]; intros g kont Hk; simpl; [apply Hk|].
  destruct (cls_mem k c); [|apply Hk].
  destruct (rep_greedy k 0 s g kont) eqn:E; [discriminate | apply Hk].
Qed.

(** With a rest of the pattern that accepts anything, a greedy
    repetition takes every character it can. *)
Lemma rep_greedy_longest k : forall s min g kont a,
  (forall s' g', kont s' g' <> None) ->
  rep_greedy k min s g kont = Some a ->
  exists w s',
    s = w ++ s' /\ all (cls_mem k) w = true /\ min <= length w
    /\ kont s' g = Some a
    /\ match s' with
       | c :: _ => cls_mem k c = false
       | [] => True
       end.
Proof.
  induction s as [|c s IH]; intros min g kont a Hk; simpl.
  - destruct min; [|discriminate]. intros H. exists [], []. auto.
  - destruct (cls_mem k c) eqn:Hc.
    + destruct (rep_greedy k (Nat.pred min) s g kont) eqn:E.
      * intros [= ->].
        destruct (IH _ _ _ _ Hk E) as (w & s' & -> & Hw & Hm & Ha & Hmax).
        exists (c :: w), s'. simpl. rewrite Hc, Hw.
        repeat split; auto. lia.
      * destruct min; [|discriminate]. exfalso.
        now apply (rep_greedy_zero_total k s g kont Hk).
    + destruct min; [|discriminate]. intros H.
      exists [], (c :: s). auto.
Qed.

End Greedy.

Lemma run_seq {A : Type} (r1 r2 : re) s g
      (kont : list N -> captures -> option A) :
  run (r1 ;; r2) s g kont = run r1 s g (fun s' g' => run r2 s' g' kont).
Proof. reflexivity. Qed.

(** A price group at the end of a pattern. *)
Lemma last_price_group (n : nat) (s : list N) (g m : captures) :
  run (Group n (Rep digit_or_dot 1 true)) s g (fun _ g' => Some g') = Some m ->
  exists price rest,
    s = price ++ rest /\ m = (n, price) :: g
    /\ price_shape price /\ starts_price rest = false.
Proof.
  cbn [run]. intros H. apply rep_greedy_longest in H; [|discriminate].
  destruct H as (w & s' & -> & Hw & Hlen & [= <-] & Hmax).
  rewrite take_append. exists w, s'. repeat split; auto.
  - now apply nonempty_length.
  - destruct s'; [reflexivity | exact Hmax].
Qed.

Lemma full_match_longest (text : list N) (m : captures) :
  match_ pattern_full text = Some m ->
  exists pre name qty price rest,
    text = pre ++ "$" ++ price ++ rest
    /\ groups pattern_full m = [Some name; Some qty; Some price]
    /\ price_shape price /\ starts_price rest = false.
Proof.
  unfold match_. cbn [pattern_full regex]. intros H.
  rewrite run_seq in H. apply run_sound in H.
  destruct H as (s1 & g1 & (name & g0 & -> & Hn & ->) & H). cbv beta in H.
  apply words_group_free in Hn; [|reflexivity]. subst g0.
  rewrite run_seq in H. apply run_sound in H.
  destruct H as (s2 & g2 & (ws & -> & _ & _ & ->) & H). cbv beta in H.
  rewrite run_seq in H. apply run_sound in H.
  destruct H as (s3 & g3 & (qty & g2' & -> & Hq & ->) & H). cbv beta in H.
  apply (words_group_free qty_re eq_refl) in Hq.
  subst g2'.
  rewrite run_seq in H. apply run_sound in H.
  destruct H as (s4 & g4 & (ws' & -> & _ & _ & ->) & H). cbv beta in H.
  rewrite run_seq in H. apply run_sound in H.
  destruct H as (s5 & g5 & (c & -> & Hc & ->) & H). cbv beta in H.
  cbn [cls_mem] in Hc. apply N.eqb_eq in Hc. subst c.
  apply last_price_group in H.
  destruct H as (price & rest & -> & -> & Hp & Hmax).
  exists (name ++ ws ++ qty ++ ws'), name, qty, price, rest.
  rewrite <- !app_assoc. repeat split; auto; apply Hp.
Qed.

Lemma short_match_longest (text : list N) (m : captures) :
  match_ pattern_short text = Some m ->
  exists pre name price rest,
    text = pre ++ "$" ++ price ++ rest
    /\ groups pattern_short m = [Some name; Some price]
    /\ price_shape price /\ starts_price rest = false.
Proof.
  unfold match_. cbn [pattern_short regex]. intros H.
  rewrite run_seq in H. apply run_sound in H.
  destruct H as (s1 & g1 & (name & g0 & -> & Hn & ->) & H). cbv beta in H.
  apply words_group_free in Hn; [|reflexivity]. subst g0.
  rewrite run_seq in H. apply run_sound in H.
  destruct H as (s2 & g2 & (ws & -> & _ & _ & ->) & H). cbv beta in H.
  rewrite run_seq in H. apply run_sound in H.
  destruct H as (s3 & g3 & (c & -> & Hc & ->) & H). cbv beta in H.
  cbn [cls_mem] in Hc. apply N.eqb_eq in Hc. subst c.
  apply last_price_group in H.
  destruct H as (price & rest & -> & -> & Hp & Hmax).
  exists (name ++ ws), name, price, rest.
  rewrite <- !app_assoc. repeat split; auto; apply Hp.
Qed.

End GreedFacts.

(** X19. The price of an item row is the longest run of digits and
    points after the ["$"] of its line, the digits being those of the
    class [\d]: the stripped line is some text, ["$"], the price, and a
    rest that does not go on with a digit or a point. *)
Theorem item_price_is_the_longest_run
        (idx : nat) (line : list N) (st st' : state)
        (name qty price : list N) :
  process_line idx line st = Ok st' ->
  excel_rows st' = (excel_rows st ++ [item name qty price])%list ->
  exists pre rest,
    strip line = pre ++ "$" ++ price ++ rest
    /\ price_shape price
    /\ starts_price rest = false.
Proof.
  intros Hrun Hrows. apply process_line_outcome in Hrun.
  assert (Hitem : forall name0 qty0,
             item_match (strip line) name0 qty0 price ->
             exists pre rest,
               strip line = pre ++ "$" ++ price ++ rest
               /\ price_shape price /\ starts_price rest = false).
  { intros name0 qty0 Hm.
    destruct Hm as [m n q p Hf Hg | m n p _ Hs Hg].
    - destruct (GreedFacts.full_match_longest _ _ Hf)
        as (pre & n' & q' & p' & rest & E & Hg' & Hp & Hmax).
      rewrite Hg in Hg'. injection Hg' as <- <- <-. eauto.
    - destruct (GreedFacts.short_match_longest _ _ Hs)
        as (pre & n' & p' & rest & E & Hg' & Hp & Hmax).
      rewrite Hg in Hg'. injection Hg' as <- <-. eauto. }
  destruct Hrun as [ | | | | name0 qty0 price0 v _ Hm _ _ _
                    | name0 qty0 price0 _ Hm _ _ _];
    cbn [excel_rows count_line append_error append_row add_price] in Hrows;
    try (symmetry in Hrows; now apply OrderFacts.snoc_neq in Hrows);
    apply app_inv_head in Hrows; try discriminate;
    injection Hrows as _ _ <-; eauto.
Qed.

Lemma item_price_is_the_longest_run_witness :
  exists pre rest,
    strip "Tea 2p $1.5３.0x" = pre ++ "$" ++ "1.5３.0" ++ rest
    /\ price_shape "1.5３.0"
    /\ starts_price rest = false.
Proof.
  apply (item_price_is_the_longest_run
           1 "Tea 2p $1.5３.0x" init
           (append_error (msg_price_failed 1 (Some "1.5３.0"))
              (append_row (item "Tea" "2p" "1.5３.0") (count_line init)))
           "Tea" "2p" "1.5３.0");
    reflexivity.
Defined.
